(** * lammps_step: the LAMMPS plug-in of the SEAMM flowchart

    A shallow embedding of the parts of [lammps_step/lammps.py] that carry
    the checkpoint bookkeeping, the convergence-controlled run loop, the
    trajectory analyzer's warning logic, the dump-file reader and the
    cell/box conversions, of the walk of [run] over the steps with the
    choice between the serial and the parallel engine, of the rattle fix,
    of the bonds of the structure file, and of the dialog of
    [lammps_step/tk_nve.py], together with the properties established for
    them.

    Conventions.
    - Python [float] is IEEE binary64: Rocq's primitive [float].  The
      transcendental functions of [math] ([cos], [acos]) and the string to
      float conversion are not part of Rocq's floats; the functions that
      call them take them as section variables, so every theorem holds for
      any implementation of them.
    - Python [str] is [string]; only ASCII text is modelled.
    - Python [int] is [Z].
    - A raised exception is the [Raise] constructor of [result]; the
      [result] monad threads it through the statements that follow.
    - A [dict] with string keys is a [gmap string _]. *)

From Stdlib Require Import ZArith List String Ascii Floats Lia Bool.
From Stdlib Require Import DecimalString DecimalPos DecimalZ.
From stdpp Require Import base option list gmap strings.

#[local] Set Warnings "-inexact-float".
#[local] Open Scope string_scope.
#[local] Open Scope Z_scope.

(* ===================================================================== *)
(** * Python values, exceptions and the built-ins the source calls       *)
(* ===================================================================== *)

Module Py.

(** The exceptions raised (explicitly or by a built-in) in the modelled
    code.  The payload is the message, or the offending key or name. *)
Inductive exn : Type :=
| FileNotFoundError (msg : string)
| Exception (msg : string)
| RuntimeError (msg : string)
| ValueError (what : string)
| KeyError (key : string)
| IndexError (what : string)
| UnboundLocalError (name : string)
| ZeroDivisionError (msg : string)
| OverflowError (msg : string).

Inductive result (A : Type) : Type :=
| Ok (a : A)
| Raise (e : exn).
Arguments Ok {A} a.
Arguments Raise {A} e.

#[global] Instance result_ret : MRet result := fun A a => Ok a.
#[global] Instance result_bind : MBind result := fun A B f m =>
  match m with
  | Ok a => f a
  | Raise e => Raise e
  end.

Definition is_ok {A} (r : result A) : bool :=
  match r with Ok _ => true | Raise _ => false end.

(** [option] to [result], naming the exception of the failing built-in. *)
Definition or_raise {A} (e : exn) (o : option A) : result A :=
  match o with Some a => Ok a | None => Raise e end.

(** A Python object as stored in the analyzer's [results] dictionary. *)
Inductive value : Type :=
| VBool (b : bool)
| VInt (n : Z)
| VFloat (x : float).

(** [v is False]: identity with the [False] singleton. *)
Definition is_False (v : value) : bool :=
  match v with
  | VBool false => true
  | _ => false
  end.

(** ** [str] methods *)

(** [str.isspace] on the ASCII range: TAB, LF, VT, FF, CR, FS, GS, RS, US
    and the space. *)
Definition is_space (c : ascii) : bool :=
  let n := N_of_ascii c in
  ((9 <=? n)%N && (n <=? 13)%N) || ((28 <=? n)%N && (n <=? 32)%N).

Fixpoint lstrip_by (p : ascii -> bool) (s : string) : string :=
  match s with
  | EmptyString => EmptyString
  | String c s' => if p c then lstrip_by p s' else s
  end.

Fixpoint rstrip_by (p : ascii -> bool) (s : string) : string :=
  match s with
  | EmptyString => EmptyString
  | String c s' =>
      match rstrip_by p s' with
      | EmptyString => if p c then EmptyString else String c EmptyString
      | r => String c r
      end
  end.

(** [s.strip()] *)
Definition strip (s : string) : string :=
  rstrip_by is_space (lstrip_by is_space s).

(** [s.strip(chars)] for a one-character [chars]. *)
Definition strip_char (c : ascii) (s : string) : string :=
  rstrip_by (Ascii.eqb c) (lstrip_by (Ascii.eqb c) s).

(** [s.split()]: the maximal runs of non-whitespace characters. *)
Fixpoint split_go (s : string) (tok : string) : list string :=
  match s with
  | EmptyString =>
      match tok with EmptyString => [] | _ => [tok] end
  | String c s' =>
      if is_space c then
        match tok with
        | EmptyString => split_go s' EmptyString
        | _ => tok :: split_go s' EmptyString
        end
      else split_go s' (tok ++ String c EmptyString)
  end.

Definition split (s : string) : list string := split_go s EmptyString.

(** [sub in s] *)
Fixpoint contains (sub s : string) : bool :=
  String.prefix sub s ||
  match s with
  | EmptyString => false
  | String _ s' => contains sub s'
  end.

(** [s.replace(old, new)] for a one-character [old]. *)
Fixpoint replace_char (old : ascii) (new s : string) : string :=
  match s with
  | EmptyString => EmptyString
  | String c s' =>
      if Ascii.eqb c old then new ++ replace_char old new s'
      else String c (replace_char old new s')
  end.

(** [s[n:]] for [n >= 0] *)
Fixpoint slice_from (n : nat) (s : string) : string :=
  match n, s with
  | O, _ => s
  | S _, EmptyString => EmptyString
  | S n', String _ s' => slice_from n' s'
  end.

(** [s[0:n]] for [n >= 0] *)
Fixpoint slice_to (n : nat) (s : string) : string :=
  match n, s with
  | O, _ => EmptyString
  | S _, EmptyString => EmptyString
  | S n', String c s' => String c (slice_to n' s')
  end.

(** [sep.join(parts)] *)
Fixpoint join (sep : string) (parts : list string) : string :=
  match parts with
  | [] => EmptyString
  | [p] => p
  | p :: ps => p ++ sep ++ join sep ps
  end.

(** [s.rfind(c)]: the highest index of [c], or -1. *)
Fixpoint rfind_go (c : ascii) (s : string) (i last : Z) : Z :=
  match s with
  | EmptyString => last
  | String d s' => rfind_go c s' (i + 1) (if Ascii.eqb d c then i else last)
  end.

Definition rfind (c : ascii) (s : string) : Z := rfind_go c s 0 (-1).

(** ** [int] and [str] *)

Definition digit_of (c : ascii) : option Z :=
  let n := N_of_ascii c in
  if ((48 <=? n)%N && (n <=? 57)%N) then Some (Z.of_N n - 48) else None.

(** Decimal digits, single underscores allowed between digits. *)
Fixpoint int_digits (s : string) (after_digit : bool) (acc : Z) : option Z :=
  match s with
  | EmptyString => if after_digit then Some acc else None
  | String c s' =>
      if Ascii.eqb c "_" then
        if after_digit then int_digits s' false acc else None
      else
        match digit_of c with
        | Some d => int_digits s' true (10 * acc + d)
        | None => None
        end
  end.

(** The white space that [int] skips around the digits of an ASCII
    string: TAB, LF, VT, FF, CR and the space (the characters FS, GS, RS
    and US, which [str.strip] removes, are not among them). *)
Definition is_int_space (c : ascii) : bool :=
  let n := N_of_ascii c in
  ((9 <=? n)%N && (n <=? 13)%N) || (n =? 32)%N.

(** [int(s)] in base 10: surrounding white space, an optional sign, digits.
    [None] stands for [ValueError]. *)
Definition int (s : string) : option Z :=
  match rstrip_by is_int_space (lstrip_by is_int_space s) with
  | String "+" r => int_digits r false 0
  | String "-" r => option_map Z.opp (int_digits r false 0)
  | r => int_digits r false 0
  end.

(** [str(n)] for an [int]. *)
Definition str (n : Z) : string := NilZero.string_of_int (Z.to_int n).

(** [max(l)] of a non-empty list of [int]. *)
Definition max_list (l : list Z) : option Z :=
  match l with
  | [] => None
  | x :: l' => Some (fold_left Z.max l' x)
  end.

(** ** [os.path] (POSIX flavour) *)

(** The scan of [genericpath._splitext] over the characters between the
    last separator and the last dot: is one of them not a dot? *)
Fixpoint splitext_scan (p : string) (n : nat) (filenameIndex : Z) : bool :=
  match n with
  | O => false
  | S n' =>
      match String.get (Z.to_nat filenameIndex) p with
      | Some c =>
          if Ascii.eqb c "." then splitext_scan p n' (filenameIndex + 1)
          else true
      | None => false
      end
  end.

(** [os.path.splitext(p)] *)
Definition splitext (p : string) : string * string :=
  let sepIndex := rfind "/" p in
  let dotIndex := rfind "." p in
  if (dotIndex >? sepIndex) &&
     splitext_scan p (Z.to_nat (dotIndex - (sepIndex + 1))) (sepIndex + 1)
  then (slice_to (Z.to_nat dotIndex) p, slice_from (Z.to_nat dotIndex) p)
  else (p, EmptyString).

(** [os.path.join(a, b)] *)
Definition path_join (a b : string) : string :=
  if String.prefix "/" b then b
  else
    match a with
    | EmptyString => b
    | _ => if String.eqb (slice_from (String.length a - 1) a) "/"
           then a ++ b else a ++ "/" ++ b
    end.

(** ** Numbers *)

(** [float(n)] for an [int]: the nearest binary64 number, ties to even.
    An [int] of magnitude 2^1024 or more, for which Python raises
    [OverflowError], gives an infinity. *)
Definition float_of_Z (n : Z) : float :=
  SF2Prim (binary_normalize prec emax n 0 false).

(** The integer nearest to [m * 2^e], ties to the even one. *)
Definition round_half_even (m e : Z) : Z :=
  if 0 <=? e then m * 2 ^ e
  else
    let d := 2 ^ (- e) in
    let q := m / d in
    let r := m mod d in
    match Z.compare (2 * r) d with
    | Lt => q
    | Gt => q + 1
    | Eq => if Z.even q then q else q + 1
    end.

(** [round(x)] with one argument: the nearest [int], ties to even; [None]
    stands for the [ValueError] (NaN) or [OverflowError] (infinity). *)
Definition round (x : float) : option Z :=
  match Prim2SF x with
  | S754_zero _ => Some 0
  | S754_finite s m e =>
      let r := round_half_even (Z.pos m) e in
      Some (if s then - r else r)
  | S754_infinity _ => None
  | S754_nan => None
  end.

(** The exception of [round(x)] and [int(x)] on a float that is no
    number or is infinite. *)
Definition not_an_integer (x : float) : exn :=
  if is_nan x then ValueError "cannot convert float NaN to integer"
  else OverflowError "cannot convert float infinity to integer".

(** [math.ceil(x)] *)
Definition ceil (x : float) : option Z :=
  match Prim2SF x with
  | S754_zero _ => Some 0
  | S754_finite s m e =>
      if 0 <=? e then Some ((if s then -1 else 1) * (Z.pos m * 2 ^ e))
      else
        let d := 2 ^ (- e) in
        if s then Some (- (Z.pos m / d))
        else Some (- ((- Z.pos m) / d))
  | S754_infinity _ => None
  | S754_nan => None
  end.

End Py.

Import Py.

(* ===================================================================== *)
(** * Cell parameters and the LAMMPS box                                 *)
(* ===================================================================== *)

Module Cell.

#[local] Open Scope float_scope.

(** Six numbers: [(a, b, c, alpha, beta, gamma)] or
    [(lx, ly, lz, xy, xz, yz)]. *)
Definition six : Type := float * float * float * float * float * float.

Definition pi : float := 3.141592653589793.

(** [math.degrees] and [math.radians] *)
Definition degrees (x : float) : float := x * (180 / pi).
Definition radians (x : float) : float := x * (pi / 180).

(** [x**2]: the correctly rounded square.  (Python leaves it to the [pow]
    of the C library, which may differ from it in the last bit.) *)
Definition sq (x : float) : float := x * x.

Section Trig.

(** [math.cos] and [math.acos] *)
Variables cos acos : float -> float.

(** [LAMMPS.box_to_cell].  The model is total: for a box of width 0 in
    [y] or [z], where the division by [b * c], [c] or [b] raises
    [ZeroDivisionError], it has a NaN or an infinity in the angle. *)
Definition box_to_cell (lx ly lz xy xz yz : float) : six :=
  if (xy =? 0) && (xz =? 0) && (yz =? 0) then
    let a := lx in
    let b := ly in
    let c := lz in
    let alpha := 0.0 in
    let beta := 0.0 in
    let gamma := 0.0 in
    (a, b, c, alpha, beta, gamma)
  else
    let a := lx in
    let b := sqrt (sq ly + sq xy) in
    let c := sqrt (sq lz + sq xz + sq yz) in
    let alpha := degrees (acos ((xy * xz + lx * yz) / (b * c))) in
    let beta := degrees (acos (xz / c)) in
    let gamma := degrees (acos (xy / b)) in
    (a, b, c, alpha, beta, gamma).

(** [LAMMPS.cell_to_box].  The model is total: for a cell that spans no
    volume, where [math.sqrt] raises [ValueError] on a negative number or
    the division by [ly] raises [ZeroDivisionError], it has a NaN or an
    infinity in the box. *)
Definition cell_to_box (a b c alpha beta gamma : float) : six :=
  if (alpha =? 90) && (beta =? 90) && (gamma =? 90) then
    let lx := a in
    let ly := b in
    let lz := c in
    let yz := 0.0 in
    let xz := yz in
    let xy := yz in
    (lx, ly, lz, xy, xz, yz)
  else
    let lx := 0 in
    let xy := b * cos (radians gamma) in
    let xz := c * cos (radians beta) in
    let ly := sqrt (sq b - sq xy) in
    let yz := (b * c * cos (radians alpha) - xy * xz) / ly in
    let lz := sqrt (sq c - sq xz - sq yz) in
    (lx, ly, lz, xy, xz, yz).

(** [box_to_cell] applied to the six results of [cell_to_box] *)
Definition round_trip (a b c alpha beta gamma : float) : six :=
  let '(lx, ly, lz, xy, xz, yz) := cell_to_box a b c alpha beta gamma in
  box_to_cell lx ly lz xy xz yz.

End Trig.

(** Components of a cell and of a box. *)
Definition cell_a (x : six) : float := let '(a, _, _, _, _, _) := x in a.
Definition cell_alpha (x : six) : float :=
  let '(_, _, _, alpha, _, _) := x in alpha.
Definition box_lx (x : six) : float := let '(lx, _, _, _, _, _) := x in lx.
Definition box_ly (x : six) : float := let '(_, ly, _, _, _, _) := x in ly.
Definition box_lz (x : six) : float := let '(_, _, lz, _, _, _) := x in lz.
Definition box_xy (x : six) : float := let '(_, _, _, xy, _, _) := x in xy.
Definition box_xz (x : six) : float := let '(_, _, _, _, xz, _) := x in xz.

(** [|x - y| <= tol] *)
Definition within (tol x y : float) : bool := abs (x - y) <=? tol.

(** A cosine and an arc cosine to evaluate the examples with: the Taylor
    polynomials around 0 of the cosine (degree 22) and of the arc sine
    (degree 31, good for small arguments).  They are not [math.cos] and
    [math.acos] to the last bit: at [radians 90] this cosine is exactly 0
    where [math.cos] gives 6.1e-17, so the examples do not rest on the
    sign of the cosine of a right angle. *)
Fixpoint cos_terms (n : nat) (k term x2 : float) : float :=
  match n with
  | O => 0
  | S n' =>
      term + cos_terms n' (k + 2) (- term * x2 / ((k + 1) * (k + 2))) x2
  end.

Definition cos_series (x : float) : float := cos_terms 12 0 1 (x * x).

Fixpoint asin_terms (n : nat) (k term x2 : float) : float :=
  match n with
  | O => 0
  | S n' =>
      term / k
      + asin_terms n' (k + 2) (term * x2 * k / (k + 1)) x2
  end.

Definition acos_series (x : float) : float :=
  pi / 2 - asin_terms 16 1 x (x * x).

Definition box_yz (x : six) : float := let '(_, _, _, _, _, yz) := x in yz.

End Cell.

(* ===================================================================== *)
(** * Checkpoint files: naming and the choice of the snapshot to read    *)
(* ===================================================================== *)

Module Checkpoint.

(** ['lammps_substep_%s_iter_0' % ('_'.join(history_nodes_ids))] *)
Definition accum_base (history_nodes_ids : list string) : string :=
  "lammps_substep_" ++ join "_" history_nodes_ids ++ "_iter_0".

Definition accum_infile (ids : list string) : string := accum_base ids ++ ".dat".
Definition accum_dump_pattern (ids : list string) : string :=
  accum_base ids ++ ".dump.*".

(** The variables the loop over the matching files assigns.  The loop
    variable is [accum_dump] itself: the source reuses the name of the
    pattern. *)
Record scan : Type := {
  accum_dump : string;
  run_lengths : list Z;
  last_snapshot : option string
}.

(** The step count a file name carries:
[[
   pre, ext = os.path.splitext(accum_dump)
   ext = int(ext.strip('.'))
]]
    ([None]: the [ValueError] that the loop turns into an [Exception]). *)
Definition run_length (filename : string) : option Z :=
  let '(pre, ext) := splitext filename in int (strip_char "." ext).

(** One turn of [for accum_dump in accum_dump_filenames]. *)
Definition scan_step (st : scan) (filename : string) : result scan :=
  let accum_dump := filename in
  match run_length accum_dump with
  | None =>
      Raise (Exception
        ("Lammps_step: could not extract run length from dump file "
           ++ accum_dump))
  | Some ext =>
      let run_lengths := (run_lengths st ++ [ext])%list in
      Ok {| accum_dump := accum_dump;
            run_lengths := run_lengths;
            last_snapshot := option_map str (max_list run_lengths) |}
  end.

Fixpoint scan_all (st : scan) (filenames : list string) : result scan :=
  match filenames with
  | [] => Ok st
  | f :: fs => st' ← scan_step st f; scan_all st' fs
  end.

(** What the resolution hands on: the path given to [read_dump], and the
    values of [accum_dump] and [last_snapshot] afterwards. *)
Record resolved : Type := {
  dump_read : string;
  accum_dump_after : string;
  last_snapshot_after : string
}.

(** The resolution of the checkpoint after a batch has run (it occurs twice
    in [LAMMPS.run], with the same text).  [accum_dump_filenames] is what
    [glob.glob(os.path.join(self.directory, accum_dump))] returned, in the
    order it returned it. *)
Definition latest_snapshot (directory accum_dump : string)
    (accum_dump_filenames : list string) : result resolved :=
  if (length accum_dump_filenames =? 0)%nat then
    Raise (FileNotFoundError
      ("Lammps_step: could not find any file with the pattern " ++ accum_dump))
  else
    st ← scan_all {| accum_dump := accum_dump; run_lengths := [];
                     last_snapshot := None |} accum_dump_filenames;
    last_snapshot ← or_raise (UnboundLocalError "last_snapshot")
                      (last_snapshot st);
    let accum_dump := replace_char "*" last_snapshot (Checkpoint.accum_dump st) in
    Ok {| dump_read := path_join directory accum_dump;
          accum_dump_after := accum_dump;
          last_snapshot_after := last_snapshot |}.

(** The checkpoint file of step count [n] for a chain, as the engine names
    it and as [glob] returns it. *)
Definition dump_file (directory : string) (ids : list string) (n : Z) : string :=
  path_join directory (replace_char "*" (str n) (accum_dump_pattern ids)).

End Checkpoint.

(* ===================================================================== *)
(** * The convergence-controlled loop of [LAMMPS.run]                    *)
(* ===================================================================== *)

Module RunLoop.

#[local] Open Scope float_scope.

(** The local variables of [run] that the [while True] loop reads and
    writes.  [time] is [P['time'].to('fs').magnitude], the node's [time]
    parameter in femtoseconds; [new_nsteps] is unbound until a line with
    ['run'] has been doubled. *)
Record loop_state : Type := {
  history_nodes : list string;
  input_data : list string;
  new_input_data : list string;
  accum_dump : string;
  last_snapshot : string;
  new_nsteps : option Z;
  time : float;
  iteration : Z;
  files : gmap string string
}.

(** What comes back from outside in one turn of the loop: the text of the
    previous dump file ([None] when it cannot be opened), whether
    [local.run] returned a result, what [self.read_dump] raised (if
    anything), [node.get_input(extras)] and [self.analyze(node=node)]. *)
Record turn : Type := {
  accum_dump_text : option string;
  exec_ok : bool;
  read_dump_raised : option exn;
  get_input : list string;
  analysis : gmap string value
}.

Definition getitem (d : gmap string value) (key : string) : result value :=
  or_raise (KeyError key) (d !! key).

(** The acceptance test:
[[
   if analysis['Epe,short_production_warning'] is False:
       if analysis['Epe,few_neff_warning'] is False:
]]
*)
Definition accepted (analysis : gmap string value) : result bool :=
  short ← getitem analysis "Epe,short_production_warning";
  if is_False short then
    few ← getitem analysis "Epe,few_neff_warning";
    mret (is_False few)
  else mret false.

Definition run_separator : string := "              ".

(** The body of [if 'run' in line]: double the second word. *)
Definition double_line (line : string) : result (string * Z) :=
  match split line with
  | w0 :: w1 :: ws =>
      n ← or_raise (ValueError w1) (int w1);
      let new_nsteps := (n * 2)%Z in
      mret (join run_separator (w0 :: str new_nsteps :: ws), new_nsteps)
  | _ => Raise (IndexError "list index out of range")
  end.

(** [for idx, line in enumerate(new_input_data): if 'run' in line: ...] *)
Fixpoint double_run_lines (lines : list string) (new_nsteps : option Z)
    : result (list string * option Z) :=
  match lines with
  | [] => mret ([], new_nsteps)
  | line :: rest =>
      if contains "run" line then
        '(new_line, n) ← double_line line;
        '(rest', n') ← double_run_lines rest (Some n);
        mret (new_line :: rest', n')
      else
        '(rest', n') ← double_run_lines rest new_nsteps;
        mret (line :: rest', n')
  end.

(** How a turn of the loop ends. *)
Inductive outcome : Type :=
| Converged (st : loop_state)   (* [break] *)
| Extended (st : loop_state).   (* falls through to the next turn *)

(** From [analysis = self.analyze(node=node)] to the end of the loop body. *)
Definition decide (initialization_header : list string) (timestep : float)
    (analysis : gmap string value) (st : loop_state) : result outcome :=
  ok ← accepted analysis;
  if ok : bool then
    mret (Converged
      {| history_nodes := [];
         input_data := initialization_header;
         new_input_data := new_input_data st;
         accum_dump := accum_dump st;
         last_snapshot := last_snapshot st;
         new_nsteps := new_nsteps st;
         time := time st;
         iteration := iteration st;
         files := files st |})
  else
    '(lines, n) ← double_run_lines (new_input_data st) (new_nsteps st);
    new_nsteps ← or_raise (UnboundLocalError "new_nsteps") n;
    let new_time := float_of_Z new_nsteps * timestep in
    mret (Extended
      {| history_nodes := history_nodes st;
         input_data := input_data st;
         new_input_data := lines;
         accum_dump := accum_dump st;
         last_snapshot := last_snapshot st;
         new_nsteps := Some new_nsteps;
         time := new_time;
         iteration := (iteration st + 1)%Z;
         files := files st |}).

Definition write_dump_line (dump : string) : string :=
  "write_dump          all custom  " ++ dump
    ++ " id xu yu zu modify flush yes sort id".

(** The loop body up to the analysis: the input of the turn is built and
    written, the engine runs, the dump it wrote is read. *)
Definition prepare (initialization_header : list string) (node_id : string)
    (timestep : float) (st : loop_state) : result (string * loop_state) :=
  let new_input_data :=
    ("read_dump          " ++ accum_dump st ++ " " ++ last_snapshot st
       ++ " x y z") :: new_input_data st in
  let curr_base :=
    "lammps_substep_" ++ node_id ++ "_iter_" ++ str (iteration st) in
  steps ← (if (timestep =? 0)%float
           then Raise (ZeroDivisionError "float division by zero")
           else Ok (time st / timestep)%float);
  nsteps ← or_raise (not_an_integer steps) (round steps);
  let curr_dump := curr_base ++ ".dump." ++ str nsteps in
  let new_input_data :=
    (initialization_header ++ new_input_data ++ [write_dump_line curr_dump])%list in
  let curr_infile := curr_base ++ ".dat" in
  let files := <[curr_infile := join (String "010" EmptyString) new_input_data]> (files st) in
  mret (curr_dump,
        {| history_nodes := history_nodes st;
           input_data := input_data st;
           new_input_data := new_input_data;
           accum_dump := accum_dump st;
           last_snapshot := last_snapshot st;
           new_nsteps := new_nsteps st;
           time := time st;
           iteration := iteration st;
           files := files |}).

(** The variables once the engine has run and the dump it wrote has been
    read: the dump of this turn is the one to restart from, and the input
    of the node has been generated anew. *)
Definition after_run (st st1 : loop_state) (t : turn)
    (curr_dump text : string) : loop_state :=
  {| history_nodes := history_nodes st1;
     input_data := input_data st1;
     new_input_data := get_input t;
     accum_dump := curr_dump;
     last_snapshot := strip_char "." (snd (splitext curr_dump));
     new_nsteps := new_nsteps st1;
     time := time st1;
     iteration := iteration st1;
     files := <[accum_dump st := text]> (files st1) |}.

(** How the loop is left. *)
Inductive exit : Type :=
| Broke (st : loop_state)       (* [break]: converged *)
| ReturnedNone                  (* [return None]: the engine did not run *)
| StillRunning (st : loop_state). (* the given turns are used up *)

(** [while True: ...], driven by the outside world's answers turn by turn.
    The loop has no bound of its own. *)
Fixpoint iterate (initialization_header : list string)
    (directory node_id : string) (timestep : float) (turns : list turn)
    (st : loop_state) : result exit :=
  match turns with
  | [] => mret (StillRunning st)
  | t :: turns' =>
      '(curr_dump, st1) ← prepare initialization_header node_id timestep st;
      text ← or_raise (FileNotFoundError (path_join directory (accum_dump st)))
               (accum_dump_text t);
      if negb (exec_ok t) then mret ReturnedNone
      else
        match read_dump_raised t with
        | Some e => Raise e
        | None =>
            let st2 := after_run st st1 t curr_dump text in
            o ← decide initialization_header timestep (analysis t) st2;
            match o with
            | Converged st3 => mret (Broke st3)
            | Extended st3 =>
                iterate initialization_header directory node_id timestep
                  turns' st3
            end
        end
  end.

(** Both warnings of the potential energy are [False]. *)
Definition Epe_passes (analysis : gmap string value) : Prop :=
  analysis !! "Epe,short_production_warning" = Some (VBool false)
  ∧ analysis !! "Epe,few_neff_warning" = Some (VBool false).

(** The claim's reading of the acceptance test: every entry of the analysis
    whose key ends in one of the two warning names is [False]. *)
Definition is_warning_key (key : string) : bool :=
  let k := String.rev key in
  String.prefix (String.rev ",short_production_warning") k
  || String.prefix (String.rev ",few_neff_warning") k.

Definition all_properties_pass (analysis : gmap string value) : Prop :=
  ∀ key v, is_warning_key key = true → analysis !! key = Some v →
           v = VBool false.

(** An analysis in which the potential energy passes both tests and the
    temperature has too few independent samples. *)
Definition analysis_T_fails : gmap string value :=
  <[ "Epe,short_production_warning" := VBool false ]>
  (<[ "Epe,few_neff_warning" := VBool false ]>
  (<[ "T,short_production_warning" := VBool false ]>
  (<[ "T,few_neff_warning" := VBool true ]> ∅))).

Definition state0 : loop_state :=
  {| history_nodes := ["1"];
     input_data := ["units real"; "run 1000"];
     new_input_data := ["fix 1 all nve"; "run                 5000"];
     accum_dump := "lammps_substep_1_iter_0.dump.1000";
     last_snapshot := "1000";
     new_nsteps := None;
     time := 5000;
     iteration := 0;
     files := ∅ |}.

(** An analysis in which the potential energy has not been sampled for
    long enough. *)
Definition analysis_Epe_short : gmap string value :=
  <[ "Epe,short_production_warning" := VBool true ]>
  (<[ "Epe,few_neff_warning" := VBool false ]> ∅).

(** A state whose pending input has no run line. *)
Definition state_without_run : loop_state :=
  {| history_nodes := ["1"];
     input_data := ["units real"];
     new_input_data := ["fix 1 all nve"];
     accum_dump := "lammps_substep_1_iter_0.dump.1000";
     last_snapshot := "1000";
     new_nsteps := None;
     time := 5000;
     iteration := 1;
     files := ∅ |}.

(** A turn in which the engine runs, the dump is read and the analysis
    asks for a longer run. *)
Definition turn_too_short : turn :=
  {| accum_dump_text := Some "ITEM: TIMESTEP";
     exec_ok := true;
     read_dump_raised := None;
     get_input := ["fix 1 all nve"; "run                 5000"];
     analysis := analysis_Epe_short |}.

End RunLoop.

(* ===================================================================== *)
(** * The statistical analysis of a trajectory                           *)
(* ===================================================================== *)

Module Analyzer.

#[local] Open Scope float_scope.

(** The arguments of one call of [stattools.acf]. *)
Record acf_call : Type := {
  acf_x : list float;
  acf_nlags : Z;
  acf_alpha : float;
  acf_fft : bool;
  acf_unbiased : bool
}.

(** The fields of the table row printed for a property. *)
Record report : Type := {
  rep_column : string;
  rep_value : float;
  rep_stderr : float;
  rep_warn : string;
  rep_t0 : float;
  rep_conv_units : string;
  rep_tau : float;
  rep_tau_units : string;
  rep_acf : string;
  rep_inefficiency : float
}.

(** What the analyzer writes: [print(...)] of a string or of an array, and
    the table row sent to the printer. *)
Inductive output : Type :=
| Printed (s : string)
| PrintedArray (a : list float)
| PrintedIndices (idx : list nat)
| Row (r : report).

(** The [results] dictionary, what has been written so far, and the calls
    of [stattools.acf] made so far (with the column they were made for). *)
Record state : Type := {
  results : gmap string value;
  written : list output;
  acf_calls : list (string * acf_call)
}.

Definition empty_state : state :=
  {| results := ∅; written := []; acf_calls := [] |}.

(** The time axis of the whole trajectory: units and divisor. *)
Definition trajectory_units (len_trj : float) : string * float :=
  if 4000000000 <=? len_trj then ("ms", 1000000000)
  else if 4000000 <=? len_trj then ("ns", 1000000)
  else if 4000 <=? len_trj then ("ps", 1000)
  else ("fs", 1).

(** [# Work out units on convergence time] *)
Definition conv_units (t0 : float) : string * float :=
  if 1000000000 <=? t0 then ("ms", t0 / 1000000000)
  else if 1000000 <=? t0 then ("ns", t0 / 1000000)
  else if 1000 <=? t0 then ("ps", t0 / 1000)
  else ("fs", t0).

(** [# Work out units on autocorrelation time] *)
Definition tau_units (tau : float) : string * float :=
  if 1000000000 <=? tau then ("ms", tau / 1000000000)
  else if 1000000 <=? tau then ("ns", tau / 1000000)
  else if 1000 <=? tau then ("ps", tau / 1000)
  else ("fs", tau).

(** The number of lags asked of the autocorrelation function. *)
Definition acf_lags (inefficiency : float) (len_equil : nat) : option Z :=
  r ← round (inefficiency + 0.5);
  let nlags := (4 * r)%Z in
  let half := (Z.of_nat len_equil / 2)%Z in
  Some (if (nlags >? half)%Z then half else nlags).

(** [# Get the autocorrelation function]: [have_acf], [have_acf_warning],
    [acf_warning] and the call of [stattools.acf] made, if one is. *)
Definition acf_stage (column : string) (inefficiency : float)
    (y_t_equil : list float) (have_acf_warning : bool)
    : result (bool * bool * string * list (string * acf_call)) :=
  if (Z.of_nat (length y_t_equil) <? 10000)%Z then
    mret (false, true, "^", [])
  else
    nlags ← or_raise (not_an_integer (inefficiency + 0.5))
              (acf_lags inefficiency (length y_t_equil));
    mret (true, have_acf_warning, " ",
          [(column,
            {| acf_x := y_t_equil;
               acf_nlags := nlags;
               acf_alpha := 0.05;
               acf_fft := (nlags >? 16)%Z;
               acf_unbiased := false |})]).

(** The bucket boundaries and the number of lags as the specification words
    them, for comparison with the definitions above. *)
Definition spec_units (t : float) : string :=
  if 4000000000 <=? t then "ms"
  else if 4000000 <=? t then "ns"
  else if 4000 <=? t then "ps"
  else "fs".

Definition spec_lags (inefficiency : float) (len_equil : nat) : option Z :=
  r ← ceil (inefficiency + 0.5);
  Some (Z.min (4 * r) (Z.of_nat len_equil / 2)).

(** The table read from the trajectory file: the index (the time of each
    row) and the columns in file order. *)
Record table : Type := {
  index : list float;
  columns : list (string * list float)
}.

(** [LAMMPS.display_title] *)
Definition display_title : gmap string string :=
  list_to_map
    [("T", "Temperature"); ("P", "Pressure"); ("t", "Time");
     ("density", "Density"); ("a", "a lattice parameter");
     ("b", "b lattice parameter"); ("c", "c lattice parameter");
     ("Etot", "Total Energy"); ("Eke", "Kinetic Energy");
     ("Epe", "Potential Energy");
     ("Emol", "Molecular Energy, Valence Terms");
     ("Epair", "Pair (Nonbond) Energy")].

(** The names of the properties that have a title. *)
Definition titled : list string :=
  ["T"; "P"; "t"; "density"; "a"; "b"; "c"; "Etot"; "Eke"; "Epe"; "Emol";
   "Epair"].

(** The endings of the keys that the analysis of a column stores. *)
Definition key_endings : list string :=
  [""; ",stderr"; ",n_sample"; ",short_production_warning";
   ",few_neff_warning"].

(** The lines that the printer gets after the table. *)
Inductive legend : Type :=
| BlankLine
| FewSamples  (* [* this property has less than 100 independent samples] *)
| NoAcf.      (* [^ there are not enough samples ... to plot the ACF] *)

(** [if have_warning or have_acf_warning: ... if have_warning: ...
    if have_acf_warning: ...] *)
Definition legends (have_warning have_acf_warning : bool) : list legend :=
  ((if have_warning || have_acf_warning then [BlankLine] else [])
   ++ (if have_warning then [FewSamples] else [])
   ++ (if have_acf_warning then [NoAcf] else []))%list.

Section Numerics.

(** [pymbar.timeseries.detectEquilibration]: [(t0, g, Neff_max)] *)
Variable detectEquilibration : list float → nat * float * float.
(** [pymbar.timeseries.subsampleCorrelatedData(A_t, g=g)]: indices *)
Variable subsampleCorrelatedData : list float → float → list nat.
(** [numpy.ndarray.mean] and [numpy.ndarray.std] *)
Variables np_mean np_std : list float → float.

(** The lines printed when no sample survives the decorrelation. *)
Definition problem_lines (column : string) (yy y_t_equil : list float)
    (indices : list nat) : list output :=
  [Printed ("Problem with column " ++ column);
   Printed "yy"; PrintedArray yy;
   Printed "y_t_equil"; PrintedArray y_t_equil;
   Printed "indices"; PrintedIndices indices].

(** Whether the loop body ends in [continue]: no sample survives. *)
Definition skipped (yy : list float) : bool :=
  let '(conv, inefficiency, Neff_max) := detectEquilibration yy in
  let y_t_equil := drop conv yy in
  let indices := subsampleCorrelatedData y_t_equil inefficiency in
  (length indices =? 0)%nat.

(** The body of [for column in data.columns[1:]], up to the look-up of
    the title of the figure in [display_title].  (What follows builds the
    graphs with that title and the units, which are in [display_units]
    under the same names.)  [have_warning] and [have_acf_warning] are
    returned as the body leaves them. *)
Definition column_body (dt_fs : float) (st : state)
    (column : string) (yy : list float) : result (state * (bool * bool)) :=
  let have_warning := false in
  let have_acf_warning := false in
  let '(conv, inefficiency, Neff_max) := detectEquilibration yy in
  let tau := dt_fs * (inefficiency - 1) / 2 in
  let tau := if tau <? dt_fs / 2 then dt_fs / 2 else tau in
  let t0 := float_of_Z (Z.of_nat conv) * dt_fs in
  let y_t_equil := drop conv yy in
  let indices := subsampleCorrelatedData y_t_equil inefficiency in
  if (length indices =? 0)%nat then
    (* [continue] *)
    mret ({| results := results st;
             written := (written st
                          ++ problem_lines column yy y_t_equil indices)%list;
             acf_calls := acf_calls st |},
          (have_warning, have_acf_warning))
  else
    y_n ← or_raise (IndexError "index is out of bounds")
            (mapM (λ i : nat, y_t_equil !! i) indices);
    let n_samples := length y_n in
    let mean := np_mean y_n in
    let std := np_std y_n in
    let sem := std / sqrt (float_of_Z (Z.of_nat n_samples)) in
    '(have_acf, have_acf_warning, acf_warning, calls) ←
      acf_stage column inefficiency y_t_equil have_acf_warning;
    let results :=
      <[column ++ ",short_production_warning" := VBool have_acf_warning]>
      (<[column ++ ",n_sample" := VInt (Z.of_nat n_samples)]>
      (<[column ++ ",stderr" := VFloat sem]>
      (<[column := VFloat mean]> (results st)))) in
    let '(conv_units, t_conv) := conv_units t0 in
    let '(tau_units, t_tau) := tau_units tau in
    let '(have_warning, warn) :=
      if (Z.of_nat n_samples <? 100)%Z then (true, "*")
      else (have_warning, " ") in
    let results :=
      <[column ++ ",few_neff_warning" := VBool have_warning]> results in
    let row :=
      Row {| rep_column := column;
             rep_value := mean;
             rep_stderr := sem;
             rep_warn := warn;
             rep_t0 := t_conv;
             rep_conv_units := conv_units;
             rep_tau := t_tau;
             rep_tau_units := tau_units;
             rep_acf := acf_warning;
             rep_inefficiency := inefficiency |} in
    (* [title=LAMMPS.display_title[column]] *)
    title ← or_raise (KeyError column) (display_title !! column);
    mret ({| results := results;
             written := (written st ++ [row])%list;
             acf_calls := (acf_calls st ++ calls)%list |},
          (have_warning, have_acf_warning)).

(** The loop over the columns; [flags] is [None] as long as
    [have_warning] and [have_acf_warning] are unbound. *)
Fixpoint columns_loop (dt_fs : float) (st : state)
    (flags : option (bool * bool)) (columns : list (string * list float))
    : result (state * option (bool * bool)) :=
  match columns with
  | [] => mret (st, flags)
  | (column, yy) :: rest =>
      '(st', flags') ← column_body dt_fs st column yy;
      columns_loop dt_fs st' (Some flags') rest
  end.

(** [LAMMPS.analyze_trajectory] from the time step to [return results],
    with the legends printed after the loop. *)
Definition analyze_file (data : table)
    : result (gmap string value * list output * list legend) :=
  let t := index data in
  t1 ← or_raise (IndexError "index 1 is out of bounds") (t !! 1%nat);
  t0 ← or_raise (IndexError "index 0 is out of bounds") (t !! 0%nat);
  let dt_fs := t1 - t0 in
  '(st, flags) ← columns_loop dt_fs empty_state None (tail (columns data));
  '(have_warning, have_acf_warning) ←
    or_raise (UnboundLocalError "have_warning") flags;
  mret (results st, written st, legends have_warning have_acf_warning).

End Numerics.

(** Stand-ins for the external numerics, to run the analyzer on examples:
    an equilibration detector that keeps the whole series and reports the
    inefficiency 1.75, a subsampling that keeps every second index among
    the first 400, and the first element as mean and deviation. *)
Definition keep_all (yy : list float) : nat * float * float :=
  (0%nat, 1.75, float_of_Z (Z.of_nat (length yy)) / 1.75).

Definition every_second (y : list float) (g : float) : list nat :=
  filter (λ i : nat, Nat.even i) (seq 0 (Nat.min (length y) 400)).

Definition first_or_zero (y : list float) : float :=
  match y with [] => 0 | x :: _ => x end.

Definition long_series : list float := repeat 1.5 (Z.to_nat 10000).

(** The numbers of lags of the calls of the autocorrelation function that
    an analysis made. *)
Definition lags_asked (r : result (state * (bool * bool))) : list Z :=
  match r with
  | Ok (st, _) => map (λ c, acf_nlags c.2) (acf_calls st)
  | Raise _ => []
  end.

(** The times of [n] rows, one femtosecond apart. *)
Definition steps (n : nat) : list float :=
  map (λ k : nat, float_of_Z (Z.of_nat k)) (seq 0 n).

(** A trajectory of two hundred steps with the temperature and the
    pressure, and one in which the potential energy comes first. *)
Definition short_series : list float := repeat 1.5 200.

Definition trajectory_T_P : table :=
  {| index := steps 200;
     columns := [("Step", short_series); ("T", short_series);
                 ("P", short_series)] |}.

Definition trajectory_Epe_first : table :=
  {| index := steps 200;
     columns := [("Epe", short_series); ("T", short_series)] |}.

(** A stand-in for the subsampling that finds no independent sample in a
    series that does not vary, and keeps every second index otherwise. *)
Definition none_if_flat (y : list float) (g : float) : list nat :=
  match y with
  | [] => []
  | x :: rest => if forallb (λ z, z =? x) rest then [] else every_second y g
  end.

(** Four rows: the pressure does not vary, the temperature does. *)
Definition trajectory_flat_P : table :=
  {| index := steps 4;
     columns := [("Step", [1; 2; 3; 4]); ("P", [0; 0; 0; 0]);
                 ("T", [300; 301; 299; 300])] |}.

End Analyzer.

(* ===================================================================== *)
(** * Reading a dump file                                                 *)
(* ===================================================================== *)

Module Dump.

#[local] Open Scope float_scope.

Definition xyz_t : Type := float * float * float.

(** [seamm.data.structure], as far as [read_dump] touches it: the
    periodicity, the atoms' elements and coordinates, and the cell (absent
    until one is set). *)
Record system : Type := {
  periodicity : Z;
  elements : list string;
  coordinates : list xyz_t;
  cell : option Cell.six
}.

(** The local variables of [read_dump]; [rd_cell] is unbound until a box
    section has been processed. *)
Record reader : Type := {
  lineno : Z;
  section : string;
  section_lines : list string;
  xyz : list xyz_t;
  rd_cell : option Cell.six
}.

(** [min(x0, x1, ...)] and [max(x0, x1, ...)] on floats: the first
    argument is kept until a later one compares strictly below (above). *)
Definition min_floats (x0 : float) (xs : list float) : float :=
  fold_left (λ m x, if x <? m then x else m) xs x0.
Definition max_floats (x0 : float) (xs : list float) : float :=
  fold_left (λ m x, if m <? x then x else m) xs x0.

(** Does the line, once stripped, open a section?  ([line[0:5] == 'ITEM:']) *)
Definition is_item (line : string) : bool :=
  String.eqb (slice_to 5 (strip line)) "ITEM:".

(** The name of the section a line opens.  ([line[6:].strip()]) *)
Definition section_of (line : string) : string :=
  strip (slice_from 6 (strip line)).

Section Reader.

(** [math.acos] and the built-in [float(s)] ([None]: [ValueError]) *)
Variable acos : float → float.
Variable float_of_str : string → option float.

Definition to_float (s : string) : result float :=
  or_raise (ValueError ("could not convert string to float: " ++ s))
    (float_of_str s).

Definition line_at (ls : list string) (i : nat) : result string :=
  or_raise (IndexError "list index out of range") (ls !! i).

(** [a, b, c = line.split()] *)
Definition unpack3 (line : string) : result (string * string * string) :=
  match split line with
  | [a; b; c] => mret (a, b, c)
  | _ => Raise (ValueError "wrong number of values to unpack")
  end.

(** [a, b = line.split()] *)
Definition unpack2 (line : string) : result (string * string) :=
  match split line with
  | [a; b] => mret (a, b)
  | _ => Raise (ValueError "wrong number of values to unpack")
  end.

(** [id, x, y, z = tmp.split(); xyz.append((float(x), float(y), float(z)))]
    for every line of the section. *)
Fixpoint read_atoms (xyz : list xyz_t) (section_lines : list string)
    : result (list xyz_t) :=
  match section_lines with
  | [] => mret xyz
  | tmp :: rest =>
      match split tmp with
      | [id; x; y; z] =>
          x ← to_float x; y ← to_float y; z ← to_float z;
          read_atoms (xyz ++ [(x, y, z)])%list rest
      | _ => Raise (ValueError "wrong number of values to unpack")
      end
  end.

(** The triclinic form of the box section: bounds and a tilt factor on
    each of its three lines. *)
Definition triclinic_box (section_lines : list string) : result Cell.six :=
  l0 ← line_at section_lines 0; '(xlo_bound, xhi_bound, xy) ← unpack3 l0;
  l1 ← line_at section_lines 1; '(ylo_bound, yhi_bound, xz) ← unpack3 l1;
  l2 ← line_at section_lines 2; '(zlo, zhi, yz) ← unpack3 l2;
  xlo_bound ← to_float xlo_bound;
  xhi_bound ← to_float xhi_bound;
  ylo_bound ← to_float ylo_bound;
  yhi_bound ← to_float yhi_bound;
  zlo ← to_float zlo;
  zhi ← to_float zhi;
  xy ← to_float xy;
  xz ← to_float xz;
  yz ← to_float yz;
  let xlo := xlo_bound - min_floats 0.0 [xy; xz; xy + xz] in
  let xhi := xhi_bound - max_floats 0.0 [xy; xz; xy + xz] in
  let ylo := ylo_bound - min_floats 0.0 [yz] in
  let yhi := yhi_bound - max_floats 0.0 [yz] in
  mret (Cell.box_to_cell acos (xhi - xlo) (yhi - ylo) (zhi - zlo) xy xz yz).

(** The axis-aligned form: two bounds on each line. *)
Definition orthogonal_box (section_lines : list string) : result Cell.six :=
  l0 ← line_at section_lines 0; '(xlo, xhi) ← unpack2 l0;
  l1 ← line_at section_lines 1; '(ylo, yhi) ← unpack2 l1;
  l2 ← line_at section_lines 2; '(zlo, zhi) ← unpack2 l2;
  xlo ← to_float xlo;
  xhi ← to_float xhi;
  ylo ← to_float ylo;
  yhi ← to_float yhi;
  zlo ← to_float zlo;
  zhi ← to_float zhi;
  mret (xhi - xlo, yhi - ylo, zhi - zlo, 90, 90, 90).

Definition atoms_changed (n_atoms : Z) (declared : string) : exn :=
  RuntimeError
    ("Number of atoms has changed! " ++ str n_atoms ++ " to " ++ declared).

(** [# end a section]: what is done with the lines gathered for [section]
    when the next [ITEM:] line is met. *)
Definition end_section (n_atoms : Z) (rd : reader) : result reader :=
  if contains "BOX BOUNDS" (section rd) then
    cell ← (if (length (split (section rd)) =? 8)%nat
            then triclinic_box (section_lines rd)
            else orthogonal_box (section_lines rd));
    mret {| lineno := lineno rd; section := section rd;
            section_lines := section_lines rd; xyz := xyz rd;
            rd_cell := Some cell |}
  else if String.eqb (section rd) "NUMBER OF ATOMS" then
    l0 ← line_at (section_lines rd) 0;
    n ← or_raise (ValueError ("invalid literal for int(): " ++ l0)) (int l0);
    if negb (n =? n_atoms)%Z then Raise (atoms_changed n_atoms l0)
    else mret rd
  else if contains "ATOMS" (section rd) then
    xyz ← read_atoms (xyz rd) (section_lines rd);
    mret {| lineno := lineno rd; section := section rd;
            section_lines := section_lines rd; xyz := xyz;
            rd_cell := rd_cell rd |}
  else mret rd.

Definition first_line_incorrect (dumpfile line : string) : exn :=
  RuntimeError
    ("Error reading dump file '" ++ dumpfile
       ++ "': The first line is incorrect! (" ++ line ++ ")").

(** The body of [for line in fd]. *)
Definition read_line (dumpfile : string) (n_atoms : Z) (rd : reader)
    (line : string) : result reader :=
  let line := strip line in
  let lineno := (lineno rd + 1)%Z in
  if (lineno =? 1)%Z then
    if negb (String.eqb (slice_to 5 line) "ITEM:") then
      Raise (first_line_incorrect dumpfile line)
    else
      mret {| lineno := lineno; section := strip (slice_from 6 line);
              section_lines := []; xyz := xyz rd; rd_cell := rd_cell rd |}
  else if String.eqb (slice_to 5 line) "ITEM:" then
    rd' ← end_section n_atoms rd;
    mret {| lineno := lineno; section := strip (slice_from 6 line);
            section_lines := []; xyz := xyz rd'; rd_cell := rd_cell rd' |}
  else
    mret {| lineno := lineno; section := section rd;
            section_lines := (section_lines rd ++ [line])%list;
            xyz := xyz rd; rd_cell := rd_cell rd |}.

Fixpoint read_lines (dumpfile : string) (n_atoms : Z) (rd : reader)
    (lines : list string) : result reader :=
  match lines with
  | [] => mret rd
  | line :: rest =>
      rd' ← read_line dumpfile n_atoms rd line;
      read_lines dumpfile n_atoms rd' rest
  end.

Definition reader0 : reader :=
  {| lineno := 0; section := ""; section_lines := []; xyz := [];
     rd_cell := None |}.

(** Everything [read_dump] does before it touches the system: the scan of
    the file and [# Clean up the last section]. *)
Definition parse (dumpfile : string) (n_atoms : Z) (lines : list string)
    : result reader :=
  rd ← read_lines dumpfile n_atoms reader0 lines;
  if contains "ATOMS" (section rd) then
    xyz ← read_atoms (xyz rd) (section_lines rd);
    mret {| lineno := lineno rd; section := section rd;
            section_lines := section_lines rd; xyz := xyz;
            rd_cell := rd_cell rd |}
  else mret rd.

(** The two assignments that end [read_dump]. *)
Definition update (s : system) (rd : reader) : result system :=
  cell' ← (if (periodicity s =? 3)%Z then
             c ← or_raise (UnboundLocalError "cell") (rd_cell rd);
             mret (Some c)
           else mret (cell s));
  mret {| periodicity := periodicity s;
          elements := elements s;
          coordinates := xyz rd;
          cell := cell' |}.

(** [LAMMPS.read_dump] on the lines of the file [dumpfile]: the system
    afterwards and the exception raised, if any.  Nothing is assigned
    before the last two statements, so a raise leaves the system as it
    was. *)
Definition read_dump (s : system) (dumpfile : string) (lines : list string)
    : system * option exn :=
  let n_atoms := Z.of_nat (length (elements s)) in
  match parse dumpfile n_atoms lines ≫= update s with
  | Ok s' => (s', None)
  | Raise e => (s, Some e)
  end.




Definition atom_line (line : string) (p : xyz_t) : Prop :=
  is_item line = false
  ∧ ∃ id x y z, split (strip line) = [id; x; y; z]
      ∧ float_of_str x = Some p.1.1 ∧ float_of_str y = Some p.1.2
      ∧ float_of_str z = Some p.2.

End Reader.


(** The part of [float(s)] that reads plain integers. *)
Definition float_of_int_literal (s : string) : option float :=
  option_map float_of_Z (int s).

Definition nl : string := String "010" EmptyString.

(** The section headers of a dump written by
    [write_dump all custom ... id xu yu zu] for a periodic box. *)
Definition item_timestep : string := "ITEM: TIMESTEP" ++ nl.
Definition item_number_of_atoms : string := "ITEM: NUMBER OF ATOMS" ++ nl.
Definition item_box : string := "ITEM: BOX BOUNDS pp pp pp" ++ nl.
Definition item_atoms : string := "ITEM: ATOMS id xu yu zu" ++ nl.

(** Two dumps of a three-atom system, one with each form of the box
    section, and one that declares four atoms. *)

Definition dump_orthogonal : list string :=
  [item_timestep; "1000" ++ nl;
   item_number_of_atoms; "3" ++ nl;
   item_box;
   "0 10" ++ nl; "0 12" ++ nl; "0 14" ++ nl;
   item_atoms;
   "1 1 2 3" ++ nl; "2 4 5 6" ++ nl; "3 7 8 9" ++ nl].



Definition water (p : Z) : system :=
  {| periodicity := p;
     elements := ["O"; "H"; "H"];
     coordinates := [(0, 0, 0); (1, 0, 0); (0, 1, 0)];
     cell := Some (20, 20, 20, 90, 90, 90) |}.

End Dump.

(* ===================================================================== *)
(** * The box limits of the structure file                               *)
(* ===================================================================== *)

Module Structure.

#[local] Open Scope float_scope.

(** The entries of the energy expression that the box block reads. *)
Record eex : Type := {
  periodicity : Z;
  cell : option Cell.six;
  atoms : list (float * float * float * Z)
}.

(** The two line formats of the block, before the numbers are printed:
    ['{} {} xlo xhi'] (and its y and z forms) and ['{} {} {} xy xz yz']. *)
Inductive line : Type :=
| Bounds (lo hi : float) (label : string)
| Tilt (xy xz yz : float).

Definition is_tilt (l : line) : bool :=
  match l with Tilt _ _ _ => true | Bounds _ _ _ => false end.

(** The extent of the atoms as the loop of the non-periodic branch computes
    it; each upper bound falls back to the lower one, as written there. *)
Definition extent_step (acc : float * float * float * float * float * float)
    (atom : float * float * float * Z)
    : float * float * float * float * float * float :=
  let '(xlo, xhi, ylo, yhi, zlo, zhi) := acc in
  let '(x, y, z, index) := atom in
  let xlo := if x <? xlo then x else xlo in
  let xhi := if xhi <? x then x else xlo in
  let ylo := if y <? ylo then y else ylo in
  let yhi := if yhi <? y then y else ylo in
  let zlo := if z <? zlo then z else zlo in
  let zhi := if zhi <? z then z else zlo in
  (xlo, xhi, ylo, yhi, zlo, zhi).

Section Box.

(** [math.cos] *)
Variable cos : float → float.

(** [# Find the box limits]: the lines this block of [structure_data]
    appends.  It is the only place where a tilt line is written. *)
Definition box_limits (e : eex) (triclinic : bool) : result (list line) :=
  if (periodicity e =? 3)%Z then
    '(a, b, c, alpha, beta, gamma) ← or_raise (KeyError "cell") (cell e);
    let '(lx, ly, lz, xy, xz, yz) :=
      Cell.cell_to_box cos a b c alpha beta gamma in
    let lines :=
      [Bounds 0.0 lx "xlo xhi"; Bounds 0.0 ly "ylo yhi";
       Bounds 0.0 lz "zlo zhi"] in
    let xy := if 1.0e-06 <? abs xy then xy else 0.0 in
    let xz := if 1.0e-06 <? abs xy then xz else 0.0 in
    let yz := if 1.0e-06 <? abs xy then yz else 0.0 in
    if triclinic || (0.0 <? xy) || (0.0 <? xz) || (0.0 <? yz) then
      mret (lines ++ [Tilt xy xz yz])%list
    else mret lines
  else
    '(x, y, z, index) ← or_raise (IndexError "list index out of range")
                          (atoms e !! 0%nat);
    let '(xlo, xhi, ylo, yhi, zlo, zhi) :=
      fold_left extent_step (atoms e) (x, x, y, y, z, z) in
    mret [Bounds (xlo - 10.0) (xhi + 10.0) "xlo xhi";
          Bounds (ylo - 10.0) (yhi + 10.0) "ylo yhi";
          Bounds (zlo - 10.0) (zhi + 10.0) "zlo zhi"].

End Box.

(** A 3-periodic cell tilted in the xz plane only. *)
Definition tilted_xz : eex :=
  {| periodicity := 3;
     cell := Some (10, 10, 10, 90, 80, 90);
     atoms := [(0, 0, 0, 1%Z)] |}.

(** A 3-periodic rhombohedral cell whose three angles are 100 degrees:
    the three tilt factors are negative, by more than 1.7. *)
Definition rhombohedral : eex :=
  {| periodicity := 3;
     cell := Some (10, 10, 10, 100, 100, 100);
     atoms := [(0, 0, 0, 1%Z)] |}.

(** The [x], [y] and [z] ranges that the loop of the non-periodic branch
    ends with, before the margin is added. *)
Definition extent (atoms : list (float * float * float * Z))
    : option (float * float * float * float * float * float) :=
  match atoms with
  | [] => None
  | (x, y, z, _) :: _ => Some (fold_left extent_step atoms (x, x, y, y, z, z))
  end.

(** Three atoms in a row along x, the middle one listed second. *)
Definition row_of_atoms : eex :=
  {| periodicity := 0;
     cell := None;
     atoms := [(0, 0, 0, 1%Z); (100, 0, 0, 1%Z); (50, 0, 0, 1%Z)] |}.

End Structure.

(* ===================================================================== *)
(** * Predicates on text, to state what the built-ins do                 *)
(* ===================================================================== *)

Module Text.

(** Every character of [s] satisfies [p]. *)
Fixpoint all_chars (p : ascii → bool) (s : string) : bool :=
  match s with
  | EmptyString => true
  | String c s' => p c && all_chars p s'
  end.

(** [c] does not occur in [s]. *)
Definition lacks (c : ascii) (s : string) : bool :=
  all_chars (λ d, negb (Ascii.eqb d c)) s.

(** A word: not empty and without whitespace, what [split] returns. *)
Definition is_word (s : string) : bool :=
  match s with
  | EmptyString => false
  | _ => all_chars (λ c, negb (is_space c)) s
  end.

(** The characters of the decimal form of an integer. *)
Definition is_sign_or_digit (c : ascii) : bool :=
  Ascii.eqb c "-" || match digit_of c with Some _ => true | None => false end.

(** Words that follow each other, each after its blanks. *)
Fixpoint spaced (ps : list (string * string)) : string :=
  match ps with
  | [] => ""
  | (sp, w) :: rest => sp ++ w ++ spaced rest
  end.

End Text.

(* ===================================================================== *)
(** * How the extension of a segment changes its input                   *)
(* ===================================================================== *)

Module Doubling.

(** How a line is changed by the doubling of the run lines: not at all, or
    in its second word, which becomes twice the integer it was. *)
Definition doubled (line line' : string) : Prop :=
  (contains "run" line = false ∧ line' = line)
  ∨ (contains "run" line = true
     ∧ ∃ w0 w1 ws n, split line = w0 :: w1 :: ws ∧ int w1 = Some n
                     ∧ split line' = w0 :: str (2 * n) :: ws).

End Doubling.

(* ===================================================================== *)
(** * The analysis of a node: one trajectory file after the other        *)
(* ===================================================================== *)

Module Analyze.

Import Py.

Section Files.

(** [self.analyze_trajectory(filename)] *)
Variable analyze_trajectory : string → result (gmap string value).

(** [for filename in filenames: data = self.analyze_trajectory(filename);
    node.analyze(data=data)].  [data] is [None] as long as the name is
    unbound; [seen] is what [node.analyze] has been given, in order. *)
Fixpoint files_loop (filenames : list string)
    (data : option (gmap string value)) (seen : list (gmap string value))
    : result (option (gmap string value) * list (gmap string value)) :=
  match filenames with
  | [] => mret (data, seen)
  | filename :: rest =>
      d ← analyze_trajectory filename;
      files_loop rest (Some d) (seen ++ [d])%list
  end.

(** [LAMMPS.analyze], for the file names that [glob.glob] returned:
    what it returns and what [node.analyze] has been given. *)
Definition analyze (filenames : list string)
    : result (gmap string value * list (gmap string value)) :=
  '(data, seen) ← files_loop filenames None [];
  data ← or_raise (UnboundLocalError "data") data;
  mret (data, seen).

End Files.

(** Two trajectory files of one node, of which the first shows too short
    a run and the second an acceptable one. *)
Definition two_files (filename : string) : result (gmap string value) :=
  if String.eqb filename "trajectory_nve_1.seamm_trj"
  then Ok RunLoop.analysis_Epe_short
  else Ok RunLoop.analysis_T_fails.

End Analyze.

(* ===================================================================== *)
(** * Serial or parallel: the plan made at the start of [run]            *)
(* ===================================================================== *)

Module Mpi.

Import Py.

(** The value of an option: a string when it comes from the command line
    or a configuration file, a boolean for a flag. *)
Inductive opt : Type :=
| OStr (s : string)
| OInt (n : Z)
| OBool (b : bool).

(** What stops the plan. *)
Inductive error : Type :=
| InvalidLiteral (s : string)   (* [ValueError] of [int] *)
| ZeroDivisionError
| OverflowError.

Inductive attempt (A : Type) : Type :=
| Done (a : A)
| Fails (e : error).
Arguments Done {A} a.
Arguments Fails {A} e.

#[global] Instance attempt_ret : MRet attempt := fun A a => Done a.
#[global] Instance attempt_bind : MBind attempt := fun A B f m =>
  match m with
  | Done a => f a
  | Fails e => Fails e
  end.

(** [int(v)] *)
Definition int_of (v : opt) : attempt Z :=
  match v with
  | OStr s => match int s with Some n => Done n | None => Fails (InvalidLiteral s) end
  | OInt n => Done n
  | OBool b => Done (if b then 1 else 0)
  end.

(** [v == 'default'] *)
Definition is_default (v : opt) : bool :=
  match v with
  | OStr s => String.eqb s "default"
  | _ => false
  end.

(** [cpuinfo.get_cpu_info()]: the fields that are read. *)
Record cpu : Type := {
  count : Z;
  arch : string
}.

(** The number of processes asked for:
[[
   if 'seamm_mpi_np' in o: np = o.seamm_mpi_np
   elif 'lammps_mpi_np' in o: np = o.lammps_mpi_np
   else: np = 'default'
   if np == 'default':
       np = int(round(n_atoms / o.lammps_atoms_per_core))
       if np < 1: np = 1
   else:
       np = int(np)
]]
    [lammps_atoms_per_core] is declared with [type=int] and a default, so
    it is always there and an [int].  The quotient of the two integers is
    that of their floats, both being below 2^53. *)
Definition requested (o : gmap string opt) (n_atoms atoms_per_core : Z)
    : attempt Z :=
  let np :=
    match o !! "seamm_mpi_np" with
    | Some v => v
    | None =>
        match o !! "lammps_mpi_np" with
        | Some v => v
        | None => OStr "default"
        end
    end in
  if is_default np then
    if atoms_per_core =? 0 then Fails ZeroDivisionError
    else
      match round (float_of_Z n_atoms / float_of_Z atoms_per_core) with
      | Some np => Done (if np <? 1 then 1 else np)
      | None => Fails OverflowError
      end
  else int_of np.

(** The largest number of processes allowed:
[[
   if 'seamm_mpi_max_np' in o: max_np = int(o.seamm_mpi_max_np)
   elif 'lammps_mpi_max_np' in o: max_np = int(o.lammps_mpi_max_np)
   else: max_np = 'default'
   if max_np == 'default':
       info = cpuinfo.get_cpu_info()
       max_np = info['count']
       if info['arch'][0:3] == 'X86':
           max_np = int(max_np / 2)
]]
    [int(max_np / 2)] truncates towards zero. *)
Definition limit (o : gmap string opt) (info : cpu) : attempt Z :=
  match o !! "seamm_mpi_max_np" with
  | Some v => int_of v
  | None =>
      match o !! "lammps_mpi_max_np" with
      | Some v => int_of v
      | None =>
          let max_np := count info in
          if String.eqb (slice_to 3 (arch info)) "X86"
          then Done (Z.quot max_np 2)
          else Done max_np
      end
  end.

(** The variables [use_mpi], [np] and [mpiexec] when the headers are
    printed; [None] for a name that is not bound. *)
Record plan_t : Type := {
  use_mpi : bool;
  np : option Z;
  mpiexec : option opt
}.

Definition has (o : gmap string opt) (key : string) : bool :=
  match o !! key with Some _ => true | None => false end.

(** From [use_mpi = ...] to the headers. *)
Definition plan (o : gmap string opt) (n_atoms atoms_per_core : Z)
    (info : cpu) : attempt plan_t :=
  let use_mpi := has o "lammps_use_mpi" || has o "seamm_use_mpi" in
  '(use_mpi, np) ←
    (if use_mpi then
       np ← requested o n_atoms atoms_per_core;
       if np =? 1 then mret (false, Some np)
       else
         max_np ← limit o info;
         mret (true, Some (if np >? max_np then max_np else np))
     else mret (false, None));
  if use_mpi : bool then
    match o !! "lammps_mpiexec" with
    | Some v => mret {| use_mpi := true; np := np; mpiexec := Some v |}
    | None =>
        match o !! "seamm_mpiexec" with
        | Some v => mret {| use_mpi := true; np := np; mpiexec := Some v |}
        | None => mret {| use_mpi := false; np := np; mpiexec := None |}
        end
    end
  else mret {| use_mpi := false; np := np; mpiexec := None |}.

(** The command that runs the engine on an input file. *)
Definition command (p : plan_t) (lammps_mpi lammps_serial : opt)
    (infile : string) : option (list opt) :=
  if use_mpi p then
    exe ← mpiexec p;
    n ← np p;
    Some [exe; OStr "-np"; OStr (str n); lammps_mpi; OStr "-in"; OStr infile]
  else Some [lammps_serial; OStr "-in"; OStr infile].

(** The options of a run without any MPI flag on the command line: both
    flags are there and [False]; four processes are asked for. *)
Definition flags_off : gmap string opt :=
  <[ "seamm_use_mpi" := OBool false ]>
  (<[ "lammps_use_mpi" := OBool false ]>
  (<[ "lammps_mpi_np" := OStr "4" ]>
  (<[ "lammps_mpiexec" := OStr "mpiexec" ]> ∅))).

Definition laptop : cpu := {| count := 8; arch := "X86_64" |}.

(** A virtual machine with one processor. *)
Definition one_core : cpu := {| count := 1; arch := "X86_64" |}.

End Mpi.

(* ===================================================================== *)
(** * The fix that holds bonds and angles rigid                          *)
(* ===================================================================== *)

Module Shake.

Import Py.

(** [l[i]]: a negative index counts from the end. *)
Definition item {A : Type} (l : list A) (i : Z) : result A :=
  let n := Z.of_nat (length l) in
  or_raise (IndexError "list index out of range")
    (if 0 <=? i then l !! Z.to_nat i
     else if 0 <=? n + i then l !! Z.to_nat (n + i)
     else None).

(** [d[k] = 1] on a dictionary of which only the keys are read later:
    the keys in the order of their first insertion. *)
Definition set_key (keys : list Z) (k : Z) : list Z :=
  if bool_decide (k ∈ keys) then keys else (keys ++ [k])%list.

(** The entries of the energy expression that are read. *)
Record eex_t : Type := {
  n_bonds : option Z;
  bonds : list (Z * Z * Z);          (* [(i, j, index)] *)
  n_angles : option Z;
  angles : list (Z * Z * Z * Z);     (* [(i, j, k, index)] *)
  elements : list string
}.

(** The parameters of the initialization step that are read. *)
Record parameters : Type := {
  rigid_waters : bool;
  fix_XH_bond_lengths : string
}.

(** ['n_bonds' in eex and eex['n_bonds'] > 0] *)
Definition has_bonds (eex : eex_t) : bool :=
  match n_bonds eex with Some n => 0 <? n | None => false end.

Definition has_angles (eex : eex_t) : bool :=
  match n_angles eex with Some n => 0 <? n | None => false end.

Definition mem (i : Z) (atoms : list Z) : bool := bool_decide (i ∈ atoms).

(** [for i, j, index in eex['bonds']: if i in atoms and j in atoms: ...] *)
Definition water_bonds (atoms : list Z) (eex : eex_t) (bond_types : list Z)
    : list Z :=
  fold_left
    (λ bt '(i, j, index),
       if mem i atoms && mem j atoms then set_key bt index else bt)
    (bonds eex) bond_types.

Definition water_angles (atoms : list Z) (eex : eex_t) (angle_types : list Z)
    : list Z :=
  fold_left
    (λ ats '(i, j, k, index),
       if mem i atoms && mem j atoms && mem k atoms then set_key ats index
       else ats)
    (angles eex) angle_types.

(** [for i, j, k in waters: ...]: the atoms so far, then both scans. *)
Fixpoint waters_loop (waters : list (Z * Z * Z)) (eex : eex_t)
    (atoms bond_types angle_types : list Z) : list Z * list Z :=
  match waters with
  | [] => (bond_types, angle_types)
  | (i, j, k) :: rest =>
      let atoms := (atoms ++ [i; j; k])%list in
      let bond_types :=
        if has_bonds eex then water_bonds atoms eex bond_types
        else bond_types in
      let angle_types :=
        if has_angles eex then water_angles atoms eex angle_types
        else angle_types in
      waters_loop rest eex atoms bond_types angle_types
  end.

(** [(elements[i] == 'C' and elements[j] == 'H') or
     (elements[i] == 'H' and elements[j] == 'C')], with the look-ups in
    the order in which they are made. *)
Definition is_CH (elements : list string) (i j : Z) : result bool :=
  ei ← item elements i;
  if String.eqb ei "C" then
    ej ← item elements j;
    mret (String.eqb ej "H")
  else if String.eqb ei "H" then
    ej ← item elements j;
    mret (String.eqb ej "C")
  else mret false.

(** [elements[i] == 'H' or elements[j] == 'H'] *)
Definition is_XH (elements : list string) (i j : Z) : result bool :=
  ei ← item elements i;
  if String.eqb ei "H" then mret true
  else
    ej ← item elements j;
    mret (String.eqb ej "H").

(** [for i, j, index in eex['bonds']: if test: bond_types[index] = 1] *)
Fixpoint scan_bonds (test : Z → Z → result bool) (bs : list (Z * Z * Z))
    (bond_types : list Z) : result (list Z) :=
  match bs with
  | [] => mret bond_types
  | (i, j, index) :: rest =>
      b ← test i j;
      scan_bonds test rest (if b : bool then set_key bond_types index
                            else bond_types)
  end.

(** The keys of [bond_types] and [angle_types] before the result is put
    together; [waters] is what [Water.find_waters] returned. *)
Definition select (P : parameters) (eex : eex_t) (waters : list (Z * Z * Z))
    : result (list Z * list Z) :=
  let '(bond_types, angle_types) :=
    if rigid_waters P then waters_loop waters eex [] [] []
    else ([], []) in
  if has_bonds eex then
    let fix_bonds := fix_XH_bond_lengths P in
    if String.eqb fix_bonds "CH" then
      bond_types ← scan_bonds (is_CH (elements eex)) (bonds eex) bond_types;
      mret (bond_types, angle_types)
    else if String.eqb fix_bonds "all" then
      bond_types ← scan_bonds (is_XH (elements eex)) (bonds eex) bond_types;
      mret (bond_types, angle_types)
    else mret (bond_types, angle_types)
  else mret (bond_types, angle_types).

(** [for t in types.keys(): result += ' ' + str(t)] *)
Definition listed (types : list Z) (result : string) : string :=
  fold_left (λ r t, r ++ " " ++ str t) types result.

(** [# And the result is ....] *)
Definition render (bond_types angle_types : list Z) : string :=
  match bond_types with
  | [] => ""
  | _ =>
      let result :=
        listed bond_types
          "fix                 {} all rattle 0.001 20 1000 b " in
      match angle_types with
      | [] => result
      | _ => listed angle_types (result ++ " a ")
      end
  end.

(** [LAMMPS.shake_fix] *)
Definition shake_fix (P : parameters) (eex : eex_t)
    (waters : list (Z * Z * Z)) : result string :=
  '(bond_types, angle_types) ← select P eex waters;
  mret (render bond_types angle_types).

(** One water molecule (atoms 0 to 2) and one methane-like carbon with a
    hydrogen: bond types 1 (O-H) and 2 (C-H), angle type 1 (H-O-H). *)
Definition water_and_CH : eex_t :=
  {| n_bonds := Some 3;
     bonds := [(0, 1, 1); (0, 2, 1); (3, 4, 2)];
     n_angles := Some 1;
     angles := [(1, 0, 2, 1)];
     elements := ["O"; "H"; "H"; "C"; "H"] |}.

(** The same molecule water without any bond in the energy expression. *)
Definition angles_only : eex_t :=
  {| n_bonds := None;
     bonds := [];
     n_angles := Some 1;
     angles := [(1, 0, 2, 1)];
     elements := ["O"; "H"; "H"] |}.

End Shake.

(* ===================================================================== *)
(** * tk_nve: the dialog of the NVE step                                 *)
(* ===================================================================== *)

Module TkNVE.

Import Py.

(** What the [get] of a widget returns: the text of a choice, or a value
    with its units. *)
Inductive shown : Type :=
| Text (s : string)
| Pair (value units : string).

(** A parameter of the node. *)
Record parameter : Type := {
  value : string;
  units : string;
  enumeration : list string
}.

Record parameters : Type := {
  time : parameter;
  timestep : parameter;
  sampling : parameter
}.

(** The widgets [self['time']], [self['timestep']], [self['sampling']]. *)
Record widgets : Type := {
  time_widget : shown;
  timestep_widget : shown;
  sampling_widget : shown
}.

(** The parameters of the node and the arguments with which
    [self.dialog.deactivate] has been called. *)
Record gui : Type := {
  P : parameters;
  deactivated : list (option string)
}.

Definition first_char (s : string) : option string :=
  match s with
  | String a _ => Some (String a "")
  | EmptyString => None
  end.

Definition second_char (s : string) : option string :=
  match s with
  | String _ (String b _) => Some (String b "")
  | _ => None
  end.

(** [value, units = w.get()] *)
Definition unpack (w : shown) : result (string * string) :=
  match w with
  | Pair v u => Ok (v, u)
  | Text (String a (String b "")) => Ok (String a "", String b "")
  | Text (String _ (String _ (String _ _))) =>
      Raise (ValueError "too many values to unpack (expected 2)")
  | Text _ => Raise (ValueError "not enough values to unpack")
  end.

(** [tmp in p.enumeration] *)
Definition chosen (tmp : shown) (p : parameter) : bool :=
  match tmp with
  | Text s => bool_decide (s ∈ enumeration p)
  | Pair _ _ => false
  end.

(** [tmp[0]] and [tmp[1]] *)
Definition item0 (tmp : shown) : result string :=
  match tmp with
  | Pair v _ => Ok v
  | Text s => or_raise (IndexError "string index out of range") (first_char s)
  end.

Definition item1 (tmp : shown) : result string :=
  match tmp with
  | Pair _ u => Ok u
  | Text s => or_raise (IndexError "string index out of range") (second_char s)
  end.

(** [if tmp in p.enumeration: p.value = tmp
     else: p.value = tmp[0]; p.units = tmp[1]]: the parameter afterwards
    and the exception raised on the way, if one is. *)
Definition store (tmp : shown) (p : parameter) : parameter * option exn :=
  if chosen tmp p then
    match tmp with
    | Text s => ({| value := s; units := units p;
                    enumeration := enumeration p |}, None)
    | Pair _ _ => (p, None)
    end
  else
    match item0 tmp with
    | Raise e => (p, Some e)
    | Ok v =>
        let p := {| value := v; units := units p;
                    enumeration := enumeration p |} in
        match item1 tmp with
        | Raise e => (p, Some e)
        | Ok u => ({| value := value p; units := u;
                      enumeration := enumeration p |}, None)
        end
    end.

(** [TkNVE.handle_dialog]: the state afterwards and the exception raised,
    if one is. *)
Definition handle_dialog (result : option string) (w : widgets) (g : gui)
    : gui * option exn :=
  let deactivate :=
    {| P := P g; deactivated := (deactivated g ++ [result])%list |} in
  match result with
  | None => (deactivate, None)
  | Some r =>
      if String.eqb r "Cancel" then (deactivate, None)
      else if String.eqb r "Help" then (g, None)
      else if negb (String.eqb r "OK") then
        (deactivate,
         Some (RuntimeError
                 ("Don't recognize dialog result '" ++ r ++ "'")))
      else
        let g := deactivate in
        match unpack (time_widget w) with
        | Raise e => (g, Some e)
        | Ok (v, u) =>
            let t := {| value := v; units := u;
                        enumeration := enumeration (time (P g)) |} in
            let '(ts, e) := store (timestep_widget w) (timestep (P g)) in
            match e with
            | Some e =>
                ({| P := {| time := t; timestep := ts;
                            sampling := sampling (P g) |};
                    deactivated := deactivated g |}, Some e)
            | None =>
                let '(s, e) := store (sampling_widget w) (sampling (P g)) in
                ({| P := {| time := t; timestep := ts; sampling := s |};
                    deactivated := deactivated g |}, e)
            end
        end
  end.

(** The dialog as it opens on a fresh NVE step, and an edit in which the
    time step is picked from the list. *)
Definition fresh : gui :=
  {| P := {| time := {| value := "100"; units := "ps"; enumeration := [] |};
             timestep := {| value := "1.0"; units := "fs";
                            enumeration := ["normal"; "accurate but slow";
                                            "coarse but fast"] |};
             sampling := {| value := "50"; units := "fs";
                            enumeration := ["none"] |} |};
     deactivated := [] |}.

Definition edited : widgets :=
  {| time_widget := Pair "200" "ps";
     timestep_widget := Text "normal";
     sampling_widget := Pair "20" "fs" |}.

End TkNVE.

(* ===================================================================== *)
(** * The walk over the steps of the sub-flowchart                       *)
(* ===================================================================== *)

Module Flow.

Import Py.

(** What the outside world answers when an input is run: whether
    [local.run] returned a result, the dump files that [glob.glob] finds
    afterwards and the exception that [read_dump] raises, if one. *)
Record world : Type := {
  exec_ok : bool;
  glob : list string;
  read_dump_raised : option exn
}.

(** A step of the sub-flowchart. *)
Inductive node : Type :=
| Initialization
    (id : string)                          (* [node._id[1]] *)
    (lines : list string)                  (* [node.get_input()[0]] *)
    (structure_data : result (list string))
    (shake : result string)                (* [self.shake_fix(P, eex)] *)
| Step
    (id : string)
    (new_input_data : list string)         (* [node.get_input(extras)] *)
    (run_control : option string)          (* [P['run_control']], if any *)
    (time timestep : float)                (* both in fs *)
    (accum_run : world)                    (* the run of what has piled up *)
    (turns : list RunLoop.turn).           (* the turns of the loop *)

(** The lists of [run] live in a store: [input_data] and
    [initialization_header] are references into it, and may be the same
    one.  [files] and [initialization_header] are unbound ([None]) until
    an initialization step is met, [new_nsteps] until a loop has doubled
    a run line. *)
Record flow : Type := {
  heap : list (list string);
  input_data : nat;
  initialization_header : option nat;
  extras : gmap string string;
  history_nodes : list string;
  files : option (gmap string string);
  new_nsteps : option Z
}.

(** [input_data = []; extras = {}; history_nodes = []] *)
Definition start : flow :=
  {| heap := [[]];
     input_data := 0;
     initialization_header := None;
     extras := ∅;
     history_nodes := [];
     files := None;
     new_nsteps := None |}.

(** The list that a reference names. *)
Definition deref (h : list (list string)) (r : nat) : list string :=
  default [] (h !! r).

(** [l += more] and [l.append(x)]: the list is changed in place. *)
Definition extend (r : nat) (more : list string) (h : list (list string))
    : list (list string) :=
  alter (λ l, (l ++ more)%list) r h.

(** How a step, or the whole walk, ends. *)
Inductive went : Type :=
| Next (st : flow)      (* on to the next node *)
| ReturnedNone          (* [return None]: the engine did not run *)
| Unfinished.           (* the loop wants more turns than were given *)

(** [if isinstance(node, lammps_step.Initialization): ...] *)
Definition initialize (id : string) (lines : list string)
    (structure_data : result (list string)) (shake : result string)
    (st : flow) : result went :=
  structure ← structure_data;
  let files : gmap string string :=
    {[ "structure.dat" := join (String "010" "") structure ]} in
  (* [initialization_header = lines]: the list that [get_input] made *)
  let header := length (heap st) in
  let heap := (heap st ++ [lines])%list in
  (* [input_data += lines] *)
  let heap := extend (input_data st) lines heap in
  shake ← shake;
  let extras :=
    if String.eqb shake "" then extras st
    else <[ "shake" := shake ]> (extras st) in
  mret (Next {| heap := heap;
                input_data := input_data st;
                initialization_header := Some header;
                extras := extras;
                history_nodes := (history_nodes st ++ [id])%list;
                files := Some files;
                new_nsteps := new_nsteps st |}).

(** [input_data += new_input_data; history_nodes.append(node)] *)
Definition pile_up (id : string) (new_input_data : list string) (st : flow)
    : flow :=
  {| heap := extend (input_data st) new_input_data (heap st);
     input_data := input_data st;
     initialization_header := initialization_header st;
     extras := extras st;
     history_nodes := (history_nodes st ++ [id])%list;
     files := files st;
     new_nsteps := new_nsteps st |}.

(** What has piled up is given its [write_dump] line, written to the
    input file of the chain and run; the last snapshot is found and read.
    (This text occurs twice in [run].) *)
Definition run_accumulated (directory : string) (w : world) (st : flow)
    : result (option (list (list string) * gmap string string
                      * Checkpoint.resolved)) :=
  let history_nodes_ids := history_nodes st in
  let accum_infile := Checkpoint.accum_infile history_nodes_ids in
  let accum_dump := Checkpoint.accum_dump_pattern history_nodes_ids in
  (* [input_data.append('write_dump ...')] *)
  let heap :=
    extend (input_data st) [RunLoop.write_dump_line accum_dump] (heap st) in
  files ← or_raise (UnboundLocalError "files") (files st);
  let files :=
    <[ accum_infile := join (String "010" "") (deref heap (input_data st)) ]>
      files in
  if negb (exec_ok w) then mret None
  else
    r ← Checkpoint.latest_snapshot directory accum_dump (glob w);
    match read_dump_raised w with
    | Some e => Raise e
    | None => mret (Some (heap, files, r))
    end.

(** [if 'Until properties converge' in P['run_control']: ...]: the run of
    what has piled up, then the loop.  When the loop is left by [break],
    [input_data] is made to name the list that [initialization_header]
    names.  The loop starts with [new_nsteps] as an earlier loop left it.
    ([initialization_header] is bound wherever [files] is.) *)
Definition converge (directory id : string) (new_input_data : list string)
    (time timestep : float) (w : world) (turns : list RunLoop.turn)
    (st : flow) : result went :=
  a ← run_accumulated directory w st;
  match a with
  | None => mret ReturnedNone
  | Some (heap, files, r) =>
      header ← or_raise (UnboundLocalError "initialization_header")
                 (initialization_header st);
      let loop :=
        {| RunLoop.history_nodes := history_nodes st;
           RunLoop.input_data := deref heap (input_data st);
           RunLoop.new_input_data := new_input_data;
           RunLoop.accum_dump := Checkpoint.accum_dump_after r;
           RunLoop.last_snapshot := Checkpoint.last_snapshot_after r;
           RunLoop.new_nsteps := new_nsteps st;
           RunLoop.time := time;
           RunLoop.iteration := 0;
           RunLoop.files := files |} in
      e ← RunLoop.iterate (deref heap header) directory id timestep turns
            loop;
      match e with
      | RunLoop.Broke loop' =>
          (* [history_nodes = []; input_data = initialization_header] *)
          mret (Next {| heap := heap;
                        input_data := header;
                        initialization_header := Some header;
                        extras := extras st;
                        history_nodes := [];
                        files := Some (RunLoop.files loop');
                        new_nsteps := RunLoop.new_nsteps loop' |})
      | RunLoop.ReturnedNone => mret ReturnedNone
      | RunLoop.StillRunning _ => mret Unfinished
      end
  end.

(** Whether a step asks for the loop. *)
Definition until_converged (run_control : option string) : bool :=
  match run_control with
  | Some rc => contains "Until properties converge" rc
  | None => false
  end.

(** The body of [while node is not None]. *)
Definition visit (directory : string) (n : node) (st : flow) : result went :=
  match n with
  | Initialization id lines structure_data shake =>
      initialize id lines structure_data shake st
  | Step id new_input_data run_control time timestep w turns =>
      if until_converged run_control then
        converge directory id new_input_data time timestep w turns st
      else mret (Next (pile_up id new_input_data st))
  end.

Fixpoint walk (directory : string) (nodes : list node) (st : flow)
    : result went :=
  match nodes with
  | [] => mret (Next st)
  | n :: rest =>
      w ← visit directory n st;
      match w with
      | Next st' => walk directory rest st'
      | ReturnedNone => mret ReturnedNone
      | Unfinished => mret Unfinished
      end
  end.

(** [for past_node in history_nodes: self.analyze(node=past_node)];
    [trajectories] gives the trajectory files found for a node. *)
Fixpoint analyze_all (analyze_trajectory : string → result (gmap string value))
    (trajectories : string → list string) (past : list string)
    : result unit :=
  match past with
  | [] => mret ()
  | n :: rest =>
      _ ← Analyze.analyze analyze_trajectory (trajectories n);
      analyze_all analyze_trajectory trajectories rest
  end.

(** [if len(history_nodes) > 0: ...] after the walk. *)
Definition finish (directory : string) (w : world)
    (analyze_trajectory : string → result (gmap string value))
    (trajectories : string → list string) (st : flow) : result went :=
  if (0 <? length (history_nodes st))%nat then
    a ← run_accumulated directory w st;
    match a with
    | None => mret ReturnedNone
    | Some (heap, files, r) =>
        _ ← analyze_all analyze_trajectory trajectories (history_nodes st);
        mret (Next {| heap := heap;
                      input_data := input_data st;
                      initialization_header := initialization_header st;
                      extras := extras st;
                      history_nodes := history_nodes st;
                      files := Some files;
                      new_nsteps := new_nsteps st |})
    end
  else mret (Next st).

(** [LAMMPS.run] from [input_data = []] on. *)
Definition run (directory : string) (nodes : list node) (w : world)
    (analyze_trajectory : string → result (gmap string value))
    (trajectories : string → list string) : result went :=
  r ← walk directory nodes start;
  match r with
  | Next st => finish directory w analyze_trajectory trajectories st
  | ReturnedNone => mret ReturnedNone
  | Unfinished => mret Unfinished
  end.

(** The references of a state name lists of the store. *)
Definition valid (st : flow) : Prop :=
  (input_data st < length (heap st))%nat
  ∧ ∀ h, initialization_header st = Some h → (h < length (heap st))%nat.

(** A step that only piles up its input. *)
Definition plain (n : node) : Prop :=
  match n with
  | Initialization _ _ _ _ => False
  | Step _ _ run_control _ _ _ _ => until_converged run_control = false
  end.

Definition id_of (n : node) : string :=
  match n with
  | Initialization id _ _ _ => id
  | Step id _ _ _ _ _ _ => id
  end.

(** The input of a step that piles up. *)
Definition input_of (n : node) : list string :=
  match n with
  | Initialization _ _ _ _ => []
  | Step _ new_input_data _ _ _ _ _ => new_input_data
  end.

(** A sub-flowchart: initialization, a minimization, a run until
    convergence that is accepted at its first turn, a second run. *)
Definition quiet : world :=
  {| exec_ok := true;
     glob := ["/work/lammps_substep_1_2_iter_0.dump.1000"];
     read_dump_raised := None |}.

Definition accepted_turn : RunLoop.turn :=
  {| RunLoop.accum_dump_text := Some "ITEM: TIMESTEP";
     RunLoop.exec_ok := true;
     RunLoop.read_dump_raised := None;
     RunLoop.get_input := ["fix 1 all nve"; "run                 5000"];
     RunLoop.analysis := RunLoop.analysis_T_fails |}.

Definition minimization : node :=
  Step "2" ["minimize 1.0e-4 1.0e-6 100 1000"] None 0 1 quiet [].

Definition nve_until_converged : node :=
  Step "3" ["fix 1 all nve"; "run                 5000"]
    (Some "Until properties converge") 5000 1 quiet [accepted_turn].

Definition nvt : node :=
  Step "4" ["fix 2 all nvt temp 300 300 100"; "run 1000"]
    (Some "For a fixed length of simulated time") 1000 1 quiet [].

Definition second_nve : node :=
  Step "5" ["fix 1 all nve"; "run                 5000"]
    (Some "Until properties converge") 5000 1 quiet [accepted_turn].

Definition example : list node :=
  [Initialization "1" ["units real"; "read_data structure.dat"]
     (Ok ["Structure file for LAMMPS generated by a MolSSI flowchart"])
     (Ok "");
   minimization; nve_until_converged; nvt].

End Flow.

(* ===================================================================== *)
(** * The structure file: counts, bonds and their coefficients           *)
(* ===================================================================== *)

Module DataFile.

Import Py.

Definition spaces (n : nat) : string := string_of_list_ascii (repeat " "%char n).

(** ['{:wd}'.format(n)]: the decimal form, moved to the right of a field
    of [w] characters; a longer one is not cut. *)
Definition fmt_d (w : nat) (n : Z) : string :=
  let s := str n in spaces (w - String.length s) ++ s.

(** One entry of [eex['bond parameters']]:
    [form, values, types, parameters_type, real_types]. *)
Record parameters_t : Type := {
  form : string;
  values : gmap string string;
  types : list string;
  real_types : list string
}.

(** The entries of the energy expression that are read for the bonds;
    [None] for a key that is not there. *)
Record eex_t : Type := {
  n_bonds : option Z;
  n_bond_types : option Z;
  bonds : list (Z * Z * Z);               (* [(i, j, index)] *)
  bond_parameters : list parameters_t
}.

(** ['n_bonds' in eex and eex['n_bonds'] > 0] *)
Definition has_bonds (eex : eex_t) : bool :=
  match n_bonds eex with Some n => 0 <? n | None => false end.

(** The count lines of the bonds at the head of the file. *)
Definition count_lines (eex : eex_t) : result (list string) :=
  match n_bonds eex with
  | Some n =>
      if 0 <? n then
        n_types ← or_raise (KeyError "n_bond_types") (n_bond_types eex);
        mret [fmt_d 10 n ++ " bonds"; fmt_d 10 n_types ++ " bond types"]
      else mret []
  | None => mret []
  end.

(** [zip(range(1, n + 1), xs)] *)
Definition numbered {A : Type} (n : Z) (xs : list A) : list (Z * A) :=
  zip (map Z.of_nat (seq 1 (Z.to_nat n))) xs.

(** ['{:6d} {:6d} {:6d} {:6d}'.format(counter, index, i, j)] *)
Definition bond_line (counter : Z) (bond : Z * Z * Z) : string :=
  let '(i, j, index) := bond in
  fmt_d 6 counter ++ " " ++ fmt_d 6 index ++ " " ++ fmt_d 6 i ++ " "
    ++ fmt_d 6 j.

Definition value_of (p : parameters_t) (key : string) : result string :=
  or_raise (KeyError key) (values p !! key).

(** [' # {}-{} --> {}-{}'.format(types[0], types[1], real_types[0],
    real_types[1])] *)
Definition comment (p : parameters_t) : result string :=
  t0 ← Shake.item (types p) 0;
  t1 ← Shake.item (types p) 1;
  r0 ← Shake.item (real_types p) 0;
  r1 ← Shake.item (real_types p) 1;
  mret (" # " ++ t0 ++ "-" ++ t1 ++ " --> " ++ r0 ++ "-" ++ r1).

(** The body of the loop over the bond parameters: the line appended, if
    one is. *)
Definition coeff_line (counter : Z) (p : parameters_t)
    : result (option string) :=
  if String.eqb (form p) "quadratic_bond" then
    K2 ← value_of p "K2";
    R0 ← value_of p "R0";
    c ← comment p;
    mret (Some (fmt_d 6 counter ++ " " ++ K2 ++ " " ++ R0 ++ c))
  else if String.eqb (form p) "quartic_bond" then
    R0 ← value_of p "R0";
    K2 ← value_of p "K2";
    K3 ← value_of p "K3";
    K4 ← value_of p "K4";
    c ← comment p;
    mret (Some (fmt_d 6 counter ++ " class2 " ++ R0 ++ " " ++ K2 ++ " "
                  ++ K3 ++ " " ++ K4 ++ c))
  else mret None.

Fixpoint coeff_lines (ps : list (Z * parameters_t)) : result (list string) :=
  match ps with
  | [] => mret []
  | (counter, p) :: rest =>
      l ← coeff_line counter p;
      ls ← coeff_lines rest;
      mret (match l with Some l => l :: ls | None => ls end)
  end.

(** The lines under ['Bond Coeffs']. *)
Definition bond_coeffs (eex : eex_t) : result (list string) :=
  n_types ← or_raise (KeyError "n_bond_types") (n_bond_types eex);
  coeff_lines (numbered n_types (bond_parameters eex)).

(** [# bonds]: what the block appends to [lines]. *)
Definition bonds_section (eex : eex_t) : result (list string) :=
  match n_bonds eex with
  | Some n =>
      if 0 <? n then
        let bond_lines :=
          map (λ '(counter, bond), bond_line counter bond)
            (numbered n (bonds eex)) in
        coeffs ← bond_coeffs eex;
        mret ([""; "Bonds"; ""] ++ bond_lines
                ++ [""; "Bond Coeffs"; ""] ++ coeffs)%list
      else mret []
  | None => mret []
  end.

(** The bond forms for which a coefficient line is written. *)
Definition written_form (p : parameters_t) : bool :=
  String.eqb (form p) "quadratic_bond" || String.eqb (form p) "quartic_bond".

(** Two bond types, the second of a form that [bond_style] knows and the
    loop does not. *)
Definition harmonic_OH : parameters_t :=
  {| form := "quadratic_bond";
     values := <[ "K2" := "540.6336" ]> (<[ "R0" := "0.9572" ]> ∅);
     types := ["o*"; "h*"];
     real_types := ["o"; "h"] |}.

Definition morse_CH : parameters_t :=
  {| form := "morse";
     values := <[ "D" := "100.0" ]> ∅;
     types := ["c"; "h"];
     real_types := ["c"; "h"] |}.

Definition with_morse : eex_t :=
  {| n_bonds := Some 3;
     n_bond_types := Some 2;
     bonds := [(1, 2, 1); (1, 3, 1); (4, 5, 2)];
     bond_parameters := [harmonic_OH; morse_CH] |}.

End DataFile.

(* ===================================================================== *)
(** * Properties                                                          *)
(* ===================================================================== *)

(** ** The order of binary64 numbers *)

Section FloatOrder.

#[local] Open Scope float_scope.

Lemma SFcompare_antisym (x y : spec_float) :
  SFcompare y x = option_map CompOpp (SFcompare x y).
Proof.
  destruct x as [sx|sx| |sx mx ex], y as [sy|sy| |sy my ey];
    try destruct sx; try destruct sy; simpl; try reflexivity;
    change (Pos.compare_cont Eq ?a ?b) with (Pos.compare a b);
    rewrite (Z.compare_antisym ex ey), (Pos.compare_antisym mx my);
    destruct (ex ?= ey)%Z; simpl; try reflexivity;
    destruct (mx ?= my)%positive; reflexivity.
Qed.

Lemma SFleb_trans (x y z : spec_float) :
  SFleb x y = true → SFleb y z = true → SFleb x z = true.
Proof.
  unfold SFleb.
  destruct x as [sx|sx| |sx mx ex], y as [sy|sy| |sy my ey],
           z as [sz|sz| |sz mz ez];
    try destruct sx; try destruct sy; try destruct sz; simpl;
    try discriminate; try reflexivity;
    change (Pos.compare_cont Eq ?a ?b) with (Pos.compare a b);
    destruct (Z.compare_spec ex ey), (Z.compare_spec ey ez),
             (Z.compare_spec ex ez);
    simpl; try discriminate; try reflexivity; try lia; subst;
    destruct (Pos.compare_spec mx my), (Pos.compare_spec my mz),
             (Pos.compare_spec mx mz);
    simpl; try discriminate; try reflexivity; lia.
Qed.

(** [x <= y] excludes [y < x]. *)
Lemma leb_not_gtb (x y : float) : (x <=? y) = true → (y <? x) = false.
Proof.
  rewrite leb_spec, ltb_spec. unfold SFleb, SFltb.
  rewrite (SFcompare_antisym (Prim2SF x) (Prim2SF y)).
  destruct (SFcompare (Prim2SF x) (Prim2SF y)) as [[ | | ]|];
    simpl; congruence.
Qed.

Lemma leb_trans (x y z : float) :
  (x <=? y) = true → (y <=? z) = true → (x <=? z) = true.
Proof. rewrite !leb_spec. apply SFleb_trans. Qed.

End FloatOrder.

(** ** Checkpoint resolution *)

(** After the loop over the matching files, [accum_dump] is the file
    enumerated last, whatever the step counts are. *)
Lemma scan_all_accum_dump (fs : list string) (f : string)
    (st st' : Checkpoint.scan) :
  Checkpoint.scan_all st (fs ++ [f])%list = Ok st' →
  Checkpoint.accum_dump st' = f.
Proof.
  revert st. induction fs as [|g fs IH]; intros st H; simpl in H.
  - unfold Checkpoint.scan_step in H.
    destruct (Checkpoint.run_length f); simpl in H; [|discriminate].
    injection H as <-. reflexivity.
  - destruct (Checkpoint.scan_step st g) as [st1|e]; simpl in H; [|discriminate].
    exact (IH st1 H).
Qed.

(** The path handed to [read_dump] is built from the file enumerated last:
    the step count substituted into it is the largest one, but the name it
    is substituted into is no longer the pattern. *)
Lemma latest_snapshot_follows_enumeration (directory pattern : string)
    (fs : list string) (f : string) (r : Checkpoint.resolved) :
  Checkpoint.latest_snapshot directory pattern (fs ++ [f])%list = Ok r →
  Checkpoint.dump_read r
  = path_join directory
      (replace_char "*" (Checkpoint.last_snapshot_after r) f).
Proof.
  unfold Checkpoint.latest_snapshot.
  destruct (length (fs ++ [f])%list =? 0)%nat; [discriminate|].
  destruct (Checkpoint.scan_all _ _) as [st|e] eqn:E; simpl; [|discriminate].
  apply scan_all_accum_dump in E.
  destruct (Checkpoint.last_snapshot st) as [ls|]; simpl; [|discriminate].
  intros H. injection H as <-. simpl. now rewrite E.
Qed.

(** When every enumerated name carries a step count, the resolution
    returns, and what it reads is the name enumerated last. *)
Lemma scan_all_returns (fs : list string) (st : Checkpoint.scan) :
  Forall (λ f, is_Some (Checkpoint.run_length f)) fs →
  is_Some (Checkpoint.last_snapshot st) ∨ fs ≠ [] →
  ∃ st', Checkpoint.scan_all st fs = Ok st'
         ∧ is_Some (Checkpoint.last_snapshot st').
Proof.
  intros H. revert st. induction H as [|f fs [n Hn] _ IH]; intros st Hst.
  - destruct Hst as [Hst|Hst]; [|contradiction].
    exists st. split; [reflexivity|exact Hst].
  - cbn [Checkpoint.scan_all]. unfold Checkpoint.scan_step. rewrite Hn.
    cbn [mbind result_bind]. apply IH. left. cbn [Checkpoint.last_snapshot].
    destruct (Checkpoint.run_lengths st); cbn; eauto.
Qed.

Lemma latest_snapshot_reads_last (directory pattern : string)
    (fs : list string) (f : string) :
  Forall (λ f, is_Some (Checkpoint.run_length f)) (fs ++ [f])%list →
  ∃ r, Checkpoint.latest_snapshot directory pattern (fs ++ [f])%list = Ok r
       ∧ Checkpoint.dump_read r
         = path_join directory
             (replace_char "*" (Checkpoint.last_snapshot_after r) f).
Proof.
  intros H.
  destruct (scan_all_returns (fs ++ [f])%list
              {| Checkpoint.accum_dump := pattern;
                 Checkpoint.run_lengths := [];
                 Checkpoint.last_snapshot := None |} H)
    as (st' & Hst & [ls Hls]).
  { right. destruct fs; discriminate. }
  assert (E : ∃ r, Checkpoint.latest_snapshot directory pattern
                     (fs ++ [f])%list = Ok r).
  { unfold Checkpoint.latest_snapshot.
    destruct (fs ++ [f])%list eqn:E; [destruct fs; discriminate|].
    cbn [length Nat.eqb]. rewrite Hst. cbn [mbind result_bind].
    rewrite Hls. cbn [or_raise mbind result_bind]. eauto. }
  destruct E as [r Hr]. exists r. split; [exact Hr|].
  exact (latest_snapshot_follows_enumeration _ _ _ _ _ Hr).
Qed.

(** C1.  Two checkpoint files of one chain, with step counts 1000 and 500,
    enumerated in that order: the file handed to [read_dump] is the one of
    step count 500, although [last_snapshot] is 1000.  Enumerated in the
    other order, the file of step count 1000 is read: the choice follows
    the order of enumeration. *)
Theorem C1_snapshot_read_follows_enumeration_order :
  Checkpoint.latest_snapshot "/work" (Checkpoint.accum_dump_pattern ["1"])
    [Checkpoint.dump_file "/work" ["1"] 1000;
     Checkpoint.dump_file "/work" ["1"] 500]
  = Ok {| Checkpoint.dump_read := "/work/lammps_substep_1_iter_0.dump.500";
          Checkpoint.accum_dump_after := "/work/lammps_substep_1_iter_0.dump.500";
          Checkpoint.last_snapshot_after := "1000" |}
  ∧
  Checkpoint.latest_snapshot "/work" (Checkpoint.accum_dump_pattern ["1"])
    [Checkpoint.dump_file "/work" ["1"] 500;
     Checkpoint.dump_file "/work" ["1"] 1000]
  = Ok {| Checkpoint.dump_read := "/work/lammps_substep_1_iter_0.dump.1000";
          Checkpoint.accum_dump_after := "/work/lammps_substep_1_iter_0.dump.1000";
          Checkpoint.last_snapshot_after := "1000" |}.
Proof. split; vm_compute; reflexivity. Qed.

(** ** Cell and box *)

(** C2.  The round trip of the orthogonal cell (10, 10, 10, 90, 90, 90)
    gives a box without tilt, and from it the cell (10, 10, 10, 0, 0, 0):
    the three angles come back as 0, not 90.  The round trip of
    (10, 10, 10, 80, 90, 90) gives a cell whose first length is 0, which
    is not within 1e-6 of 10.  Both hold whatever [cos] and [acos] are. *)
Theorem C2_round_trip_does_not_recover_cell (cos acos : float → float) :
  Cell.cell_to_box cos 10 10 10 90 90 90 = (10, 10, 10, 0, 0, 0)%float
  ∧ Cell.round_trip cos acos 10 10 10 90 90 90 = (10, 10, 10, 0, 0, 0)%float
  ∧ Cell.within 1.0e-6 (Cell.cell_alpha (Cell.round_trip cos acos 10 10 10 90 90 90)) 90
    = false
  ∧ Cell.cell_a (Cell.round_trip cos acos 10 10 10 80 90 90) = 0%float
  ∧ Cell.within 1.0e-6 (Cell.cell_a (Cell.round_trip cos acos 10 10 10 80 90 90)) 10
    = false.
Proof.
  assert (Ha : Cell.cell_a (Cell.round_trip cos acos 10 10 10 80 90 90) = 0%float).
  { unfold Cell.round_trip, Cell.cell_to_box.
    change (80 =? 90)%float with false. cbv beta iota zeta delta [andb].
    unfold Cell.box_to_cell.
    destruct (_ && _); reflexivity. }
  repeat split; try reflexivity.
  - exact Ha.
  - rewrite Ha. reflexivity.
Qed.

(** ** The acceptance test of the convergence loop *)

Section Acceptance.

Import RunLoop.

Lemma is_False_spec (v : value) : is_False v = true ↔ v = VBool false.
Proof. destruct v as [[|]| |]; simpl; split; congruence. Qed.

Lemma accepted_true (analysis : gmap string value) :
  accepted analysis = Ok true ↔ RunLoop.Epe_passes analysis.
Proof.
  unfold accepted, getitem, RunLoop.Epe_passes.
  destruct (analysis !! "Epe,short_production_warning") as [short|];
    simpl; [|split; [discriminate|intros [? _]; discriminate]].
  destruct (is_False short) eqn:Hs.
  - apply is_False_spec in Hs as ->.
    destruct (analysis !! "Epe,few_neff_warning") as [few|];
      simpl; [|split; [discriminate|intros [_ ?]; discriminate]].
    unfold mret, result_ret. split.
    + intros H. injection H as H. apply is_False_spec in H as ->. done.
    + intros [_ H]. injection H as ->. done.
  - split; [discriminate|].
    intros [H _]. injection H as ->. discriminate.
Qed.

Lemma decide_converged (header : list string) (timestep : float)
    (analysis : gmap string value) (st st' : loop_state) :
  decide header timestep analysis st = Ok (Converged st') →
  RunLoop.Epe_passes analysis ∧ history_nodes st' = [] ∧ input_data st' = header
  ∧ iteration st' = iteration st.
Proof.
  unfold decide. destruct (accepted analysis) as [[|]|e] eqn:E; simpl.
  - intros H. injection H as <-. simpl.
    apply accepted_true in E. done.
  - destruct (double_run_lines _ _) as [[lines n]|e]; simpl; [|discriminate].
    destruct n; simpl; discriminate.
  - discriminate.
Qed.

Lemma decide_extended (header : list string) (timestep : float)
    (analysis : gmap string value) (st st' : loop_state) :
  decide header timestep analysis st = Ok (Extended st') →
  accepted analysis = Ok false
  ∧ iteration st' = (iteration st + 1)%Z
  ∧ history_nodes st' = history_nodes st
  ∧ ∃ n, double_run_lines (new_input_data st) (new_nsteps st)
           = Ok (new_input_data st', Some n)
         ∧ new_nsteps st' = Some n
         ∧ time st' = (float_of_Z n * timestep)%float.
Proof.
  unfold decide. destruct (accepted analysis) as [[|]|e] eqn:E; simpl;
    try discriminate.
  destruct (double_run_lines _ _) as [[lines n]|e]; simpl; [|discriminate].
  destruct n as [n|]; simpl; [|discriminate].
  intros H. injection H as <-. simpl. eauto 10.
Qed.

(** The acceptance test fails, without raising, when the first warning of
    the potential energy is there and is not [False], or when both are
    there and the second is not [False]. *)
Lemma accepted_false (analysis : gmap string value) (short : value) :
  analysis !! "Epe,short_production_warning" = Some short →
  short ≠ VBool false
  ∨ (∃ few, analysis !! "Epe,few_neff_warning" = Some few
            ∧ few ≠ VBool false) →
  accepted analysis = Ok false.
Proof.
  intros Hs H. unfold accepted, getitem. rewrite Hs.
  cbn [or_raise mbind result_bind].
  destruct (is_False short) eqn:E; [|reflexivity].
  apply is_False_spec in E as ->.
  destruct H as [H|(few & Hf & Hne)]; [contradiction|].
  rewrite Hf. cbn [or_raise mbind result_bind mret result_ret].
  destruct (is_False few) eqn:E; [|reflexivity].
  apply is_False_spec in E. contradiction.
Qed.

(** A turn that is not accepted extends: the run lines are doubled, the
    time of the step follows, the iteration is counted. *)
Lemma decide_extends (header : list string) (timestep : float)
    (analysis : gmap string value) (st : loop_state) (lines : list string)
    (n : Z) :
  accepted analysis = Ok false →
  double_run_lines (new_input_data st) (new_nsteps st) = Ok (lines, Some n) →
  decide header timestep analysis st
  = Ok (Extended
      {| history_nodes := history_nodes st;
         input_data := input_data st;
         new_input_data := lines;
         accum_dump := accum_dump st;
         last_snapshot := last_snapshot st;
         new_nsteps := Some n;
         time := (float_of_Z n * timestep)%float;
         iteration := (iteration st + 1)%Z;
         files := files st |}).
Proof.
  intros Ha Hd. unfold decide. rewrite Ha. cbn [mbind result_bind].
  rewrite Hd. reflexivity.
Qed.

Lemma double_run_lines_no_run (lines : list string) (n0 : option Z) :
  Forall (λ l, contains "run" l = false) lines →
  double_run_lines lines n0 = Ok (lines, n0).
Proof.
  induction 1 as [|l ls Hl _ IH]; [reflexivity|].
  cbn [double_run_lines]. rewrite Hl, IH. reflexivity.
Qed.

(** The doubling on an input with one run line: the second word of the
    line is replaced by twice its value, and nothing else changes. *)
Lemma double_run_lines_one (pre post : list string) (line w0 w1 : string)
    (ws : list string) (n : Z) (n0 : option Z) :
  Forall (λ l, contains "run" l = false) pre →
  contains "run" line = true →
  split line = w0 :: w1 :: ws → int w1 = Some n →
  Forall (λ l, contains "run" l = false) post →
  double_run_lines (pre ++ line :: post) n0
  = Ok ((pre ++ join run_separator (w0 :: str (n * 2) :: ws) :: post)%list,
        Some (n * 2)%Z).
Proof.
  intros Hpre Hrun Hsplit Hint Hpost.
  induction Hpre as [|l ls Hl _ IH].
  - cbn [app double_run_lines]. rewrite Hrun. unfold double_line.
    rewrite Hsplit, Hint. cbn [or_raise mbind result_bind mret result_ret].
    rewrite (double_run_lines_no_run post _ Hpost). reflexivity.
  - cbn [app double_run_lines]. rewrite Hl, IH. reflexivity.
Qed.

(** The loop is left by [break] only on a turn whose analysis passes the
    two tests on the potential energy, and then with an empty history. *)
Lemma iterate_broke (header : list string) (directory node_id : string)
    (timestep : float) (turns : list turn) (st st' : loop_state) :
  iterate header directory node_id timestep turns st = Ok (Broke st') →
  history_nodes st' = []
  ∧ ∃ t, t ∈ turns ∧ RunLoop.Epe_passes (analysis t).
Proof.
  revert st. induction turns as [|t turns IH]; intros st; simpl.
  - discriminate.
  - destruct (prepare header node_id timestep st) as [[curr_dump st1]|e];
      simpl; [|discriminate].
    destruct (accum_dump_text t); simpl; [|discriminate].
    destruct (exec_ok t); simpl; [|discriminate].
    destruct (read_dump_raised t); [discriminate|].
    destruct (decide _ _ _ _) as [[st3|st3]|e] eqn:D; simpl; [| |discriminate].
    + intros H. injection H as <-.
      apply decide_converged in D as (HE & Hh & _).
      split; [exact Hh|]. exists t. split; [left|exact HE].
    + intros H. apply IH in H as (Hh & t' & Hin & HE).
      split; [exact Hh|]. exists t'. split; [right; exact Hin|exact HE].
Qed.

(** A turn in which the engine ran and its dump was read ends with the
    acceptance test: the loop is left when the test passes and goes on
    from the extended state otherwise. *)
Lemma iterate_turn (header : list string) (directory node_id : string)
    (timestep : float) (t : turn) (turns : list turn) (st st1 : loop_state)
    (curr_dump text : string) :
  prepare header node_id timestep st = Ok (curr_dump, st1) →
  accum_dump_text t = Some text → exec_ok t = true →
  read_dump_raised t = None →
  iterate header directory node_id timestep (t :: turns) st
  = o ← decide header timestep (analysis t)
          (after_run st st1 t curr_dump text);
    match o with
    | Converged st3 => Ok (Broke st3)
    | Extended st3 => iterate header directory node_id timestep turns st3
    end.
Proof.
  intros Hp Ht He Hr. cbn [iterate]. rewrite Hp. cbn [mbind result_bind].
  rewrite Ht. cbn [or_raise mbind result_bind]. rewrite He, Hr. reflexivity.
Qed.

End Acceptance.

(** C3 (as stated, refuted).  An analysis in which the potential energy
    passes both tests while the temperature reports too few independent
    samples is accepted: the turn ends converged, with the history reset,
    although not every analyzed property passes. *)
Lemma C3_counterexample_only_Epe_is_tested :
  RunLoop.decide ["units real"] 1 RunLoop.analysis_T_fails RunLoop.state0
  = Ok (RunLoop.Converged
      {| RunLoop.history_nodes := [];
         RunLoop.input_data := ["units real"];
         RunLoop.new_input_data := RunLoop.new_input_data RunLoop.state0;
         RunLoop.accum_dump := RunLoop.accum_dump RunLoop.state0;
         RunLoop.last_snapshot := RunLoop.last_snapshot RunLoop.state0;
         RunLoop.new_nsteps := None;
         RunLoop.time := 5000;
         RunLoop.iteration := 0;
         RunLoop.files := ∅ |})
  ∧ RunLoop.analysis_T_fails !! "T,few_neff_warning" = Some (VBool true)
  ∧ ¬ RunLoop.all_properties_pass RunLoop.analysis_T_fails.
Proof.
  split; [vm_compute; reflexivity|].
  assert (H : RunLoop.analysis_T_fails !! "T,few_neff_warning"
              = Some (VBool true)) by (vm_compute; reflexivity).
  split; [exact H|].
  intros Hall. specialize (Hall "T,few_neff_warning" (VBool true) eq_refl H).
  discriminate.
Qed.

(** C3 (amended).  A turn of the convergence loop ends converged exactly
    when the analysis holds [False] under both
    ['Epe,short_production_warning'] and ['Epe,few_neff_warning']; the
    history is then empty, the pending input is the initialization header
    and the iteration count is unchanged.  When the first of the two is
    there and is not [False], or both are there and the second is not
    [False], the turn extends instead, whatever the other properties
    report: on an input with one run line whose second word is the number
    [n], that word becomes [2 n], the other lines and words are kept, the
    time of the step becomes [2 n] time steps and the iteration count
    goes up by one.  A turn that ends extended has not passed the test.
    In the loop, a turn in which the engine ran leaves the loop in the
    first case and is followed by the next turn, from the extended state,
    in the second; the loop is left by [break] only on an analysis that
    passes the two tests on the potential energy. *)
Theorem C3_converged_iff_Epe_passes (header : list string)
    (timestep : float) :
  (∀ analysis st,
     (∃ st', RunLoop.decide header timestep analysis st
             = Ok (RunLoop.Converged st'))
     ↔ RunLoop.Epe_passes analysis)
  ∧ (∀ analysis st st',
       RunLoop.decide header timestep analysis st
       = Ok (RunLoop.Converged st') →
       RunLoop.history_nodes st' = [] ∧ RunLoop.input_data st' = header
       ∧ RunLoop.iteration st' = RunLoop.iteration st)
  ∧ (∀ analysis st short pre line post w0 w1 ws n,
       analysis !! "Epe,short_production_warning" = Some short →
       short ≠ VBool false
       ∨ (∃ few, analysis !! "Epe,few_neff_warning" = Some few
                 ∧ few ≠ VBool false) →
       RunLoop.new_input_data st = (pre ++ line :: post)%list →
       Forall (λ l, contains "run" l = false) pre →
       contains "run" line = true →
       split line = w0 :: w1 :: ws → int w1 = Some n →
       Forall (λ l, contains "run" l = false) post →
       RunLoop.decide header timestep analysis st
       = Ok (RunLoop.Extended
           {| RunLoop.history_nodes := RunLoop.history_nodes st;
              RunLoop.input_data := RunLoop.input_data st;
              RunLoop.new_input_data :=
                (pre ++ join RunLoop.run_separator
                          (w0 :: str (n * 2) :: ws) :: post)%list;
              RunLoop.accum_dump := RunLoop.accum_dump st;
              RunLoop.last_snapshot := RunLoop.last_snapshot st;
              RunLoop.new_nsteps := Some (n * 2)%Z;
              RunLoop.time := (float_of_Z (n * 2) * timestep)%float;
              RunLoop.iteration := (RunLoop.iteration st + 1)%Z;
              RunLoop.files := RunLoop.files st |}))
  ∧ (∀ analysis st lines n,
       RunLoop.accepted analysis = Ok false →
       RunLoop.double_run_lines (RunLoop.new_input_data st)
         (RunLoop.new_nsteps st) = Ok (lines, Some n) →
       ∃ st', RunLoop.decide header timestep analysis st
              = Ok (RunLoop.Extended st')
              ∧ RunLoop.new_input_data st' = lines
              ∧ RunLoop.new_nsteps st' = Some n
              ∧ RunLoop.iteration st' = (RunLoop.iteration st + 1)%Z)
  ∧ (∀ analysis st st',
       RunLoop.decide header timestep analysis st
       = Ok (RunLoop.Extended st') →
       ¬ RunLoop.Epe_passes analysis
       ∧ RunLoop.iteration st' = (RunLoop.iteration st + 1)%Z
       ∧ RunLoop.history_nodes st' = RunLoop.history_nodes st
       ∧ ∃ n, RunLoop.double_run_lines (RunLoop.new_input_data st)
                (RunLoop.new_nsteps st)
              = Ok (RunLoop.new_input_data st', Some n))
  ∧ (∀ directory node_id t turns st st1 curr_dump text,
       RunLoop.prepare header node_id timestep st = Ok (curr_dump, st1) →
       RunLoop.accum_dump_text t = Some text →
       RunLoop.exec_ok t = true →
       RunLoop.read_dump_raised t = None →
       RunLoop.iterate header directory node_id timestep (t :: turns) st
       = o ← RunLoop.decide header timestep (RunLoop.analysis t)
               (RunLoop.after_run st st1 t curr_dump text);
         match o with
         | RunLoop.Converged st3 => Ok (RunLoop.Broke st3)
         | RunLoop.Extended st3 =>
             RunLoop.iterate header directory node_id timestep turns st3
         end)
  ∧ (∀ directory node_id turns st st',
       RunLoop.iterate header directory node_id timestep turns st
       = Ok (RunLoop.Broke st') →
       RunLoop.history_nodes st' = []
       ∧ ∃ t, t ∈ turns ∧ RunLoop.Epe_passes (RunLoop.analysis t)).
Proof.
  split; [|split; [|split; [|split; [|split; [|split]]]]].
  - intros analysis st. split.
    + intros [st' H]. apply decide_converged in H. tauto.
    + intros H. apply accepted_true in H.
      unfold RunLoop.decide. rewrite H. simpl. eauto.
  - intros analysis st st' H. apply decide_converged in H. tauto.
  - intros analysis st short pre line post w0 w1 ws n Hs Hw Hin Hpre Hrun
      Hsplit Hint Hpost.
    apply decide_extends; [exact (accepted_false _ _ Hs Hw)|].
    rewrite Hin. now apply (double_run_lines_one pre post line w0 w1).
  - intros analysis st lines n Ha Hd. eexists.
    split; [exact (decide_extends _ _ _ _ _ _ Ha Hd)|]. done.
  - intros analysis st st' H.
    apply decide_extended in H as (Ha & Hi & Hh & n & Hd & _).
    split; [|eauto].
    intros HE. apply accepted_true in HE. congruence.
  - intros directory node_id t turns st st1 curr_dump text.
    apply iterate_turn.
  - intros directory node_id turns st st'. apply iterate_broke.
Qed.

(** ** The analyzer: units, autocorrelation stage and warnings *)

Section AnalyzerFacts.

Import Analyzer.
#[local] Open Scope float_scope.

(** The three thresholds of a unit classification, checked in descending
    order, cut the numbers into four ranges. *)
Lemma buckets (hi mid lo t : float) (ms ns ps fs : string * float) :
  (mid <=? hi) = true → (lo <=? mid) = true →
  ms.1 = "ms" → ns.1 = "ns" → ps.1 = "ps" → fs.1 = "fs" →
  let u := (if hi <=? t then ms else if mid <=? t then ns
            else if lo <=? t then ps else fs).1 in
  (u = "ms" ↔ (hi <=? t) = true)
  ∧ (u = "ns" ↔ (mid <=? t) = true ∧ (hi <=? t) = false)
  ∧ (u = "ps" ↔ (lo <=? t) = true ∧ (mid <=? t) = false)
  ∧ (u = "fs" ↔ (lo <=? t) = false).
Proof.
  intros Hmh Hlm Hms Hns Hps Hfs.
  pose proof (leb_trans mid hi t Hmh) as T1.
  pose proof (leb_trans lo mid t Hlm) as T2.
  destruct (hi <=? t) eqn:E1, (mid <=? t) eqn:E2, (lo <=? t) eqn:E3;
    cbv zeta; rewrite ?Hms, ?Hns, ?Hps, ?Hfs;
    try (specialize (T1 eq_refl)); try (specialize (T2 eq_refl));
    try discriminate; repeat split; intros; try discriminate;
    try tauto; try (destruct_and?; discriminate).
Qed.

Lemma acf_stage_short (column : string) (g : float) (y : list float)
    (w : bool) :
  (Z.of_nat (length y) < 10000)%Z →
  acf_stage column g y w = Ok (false, true, "^", []).
Proof.
  intros H. unfold acf_stage.
  destruct (Z.ltb_spec (Z.of_nat (length y)) 10000); [reflexivity|lia].
Qed.

Lemma acf_stage_long (column : string) (g : float) (y : list float)
    (w : bool) (r : Z) :
  (10000 <= Z.of_nat (length y))%Z →
  round (g + 0.5) = Some r →
  let nlags := Z.min (4 * r) (Z.of_nat (length y) / 2) in
  acf_stage column g y w
  = Ok (true, w, " ",
        [(column, {| acf_x := y; acf_nlags := nlags; acf_alpha := 0.05;
                     acf_fft := (nlags >? 16)%Z;
                     acf_unbiased := false |})]).
Proof.
  intros H Hr. unfold acf_stage, acf_lags.
  destruct (Z.ltb_spec (Z.of_nat (length y)) 10000); [lia|].
  rewrite Hr. simpl.
  replace (if (4 * r >? Z.of_nat (length y) / 2)%Z
           then (Z.of_nat (length y) / 2)%Z else (4 * r)%Z)
    with (Z.min (4 * r) (Z.of_nat (length y) / 2)); [reflexivity|].
  destruct (Z.gtb_spec (4 * r) (Z.of_nat (length y) / 2)); lia.
Qed.

Variable detectEquilibration : list float → nat * float * float.
Variable subsampleCorrelatedData : list float → float → list nat.
Variables np_mean np_std : list float → float.

#[local] Abbreviation column_body :=
  (column_body detectEquilibration subsampleCorrelatedData np_mean np_std).
#[local] Abbreviation columns_loop :=
  (columns_loop detectEquilibration subsampleCorrelatedData np_mean np_std).

(** A column with a title whose decorrelated subsequence is not empty:
    the body returns; the entries written to [results], the calls of the
    autocorrelation function and the row printed, given what the
    autocorrelation stage returns. *)
Lemma column_body_ok (dt_fs : float) (st : state) (column : string)
    (yy : list float) (conv : nat) (g Neff : float) (y_n : list float)
    (have_acf w : bool) (mark : string) (calls : list (string * acf_call))
    (title : string) :
  detectEquilibration yy = (conv, g, Neff) →
  subsampleCorrelatedData (drop conv yy) g ≠ [] →
  mapM (λ i : nat, drop conv yy !! i)
    (subsampleCorrelatedData (drop conv yy) g) = Some y_n →
  acf_stage column g (drop conv yy) false = Ok (have_acf, w, mark, calls) →
  display_title !! column = Some title →
  ∃ st', column_body dt_fs st column yy
         = Ok (st', ((Z.of_nat (length y_n) <? 100)%Z, w))
    ∧ results st'
      = <[column ++ ",few_neff_warning" :=
            VBool (Z.of_nat (length y_n) <? 100)%Z]>
        (<[column ++ ",short_production_warning" := VBool w]>
        (<[column ++ ",n_sample" := VInt (Z.of_nat (length y_n))]>
        (<[column ++ ",stderr" :=
             VFloat (np_std y_n / sqrt (float_of_Z (Z.of_nat (length y_n))))]>
        (<[column := VFloat (np_mean y_n)]> (results st)))))
    ∧ acf_calls st' = (acf_calls st ++ calls)%list
    ∧ ∃ r, written st' = (written st ++ [Row r])%list
           ∧ rep_column r = column.
Proof.
  intros Hde Hne Hmap Hacf Htitle. unfold Analyzer.column_body.
  rewrite Hde.
  destruct (subsampleCorrelatedData (drop conv yy) g) as [|i idx] eqn:Hidx;
    [congruence|].
  cbn [length Nat.eqb]. rewrite Hmap. cbn [or_raise mbind result_bind].
  rewrite Hacf. cbn [mbind result_bind].
  destruct (conv_units _) as [cu tc], (tau_units _) as [tu tt].
  rewrite Htitle. cbn [or_raise mbind result_bind mret result_ret].
  destruct (Z.of_nat (length y_n) <? 100)%Z; eexists;
    (split; [reflexivity|]); (split; [reflexivity|]);
    (split; [reflexivity|]); eexists; split; reflexivity.
Qed.

(** A column without a title whose decorrelated subsequence is not empty:
    the look-up of the title raises, and no result is returned. *)
Lemma column_body_untitled (dt_fs : float) (st : state) (column : string)
    (yy : list float) (conv : nat) (g Neff : float) (y_n : list float)
    (have_acf w : bool) (mark : string) (calls : list (string * acf_call)) :
  detectEquilibration yy = (conv, g, Neff) →
  subsampleCorrelatedData (drop conv yy) g ≠ [] →
  mapM (λ i : nat, drop conv yy !! i)
    (subsampleCorrelatedData (drop conv yy) g) = Some y_n →
  acf_stage column g (drop conv yy) false = Ok (have_acf, w, mark, calls) →
  display_title !! column = None →
  column_body dt_fs st column yy = Raise (KeyError column).
Proof.
  intros Hde Hne Hmap Hacf Htitle. unfold Analyzer.column_body.
  rewrite Hde.
  destruct (subsampleCorrelatedData (drop conv yy) g) as [|i idx] eqn:Hidx;
    [congruence|].
  cbn [length Nat.eqb]. rewrite Hmap. cbn [or_raise mbind result_bind].
  rewrite Hacf. cbn [mbind result_bind].
  destruct (conv_units _) as [cu tc], (tau_units _) as [tu tt].
  rewrite Htitle. now destruct (Z.of_nat (length y_n) <? 100)%Z.
Qed.

(** A column whose decorrelation yields no index: the body ends in
    [continue], whether the column has a title or not. *)
Lemma column_body_skipped (dt_fs : float) (st : state) (column : string)
    (yy : list float) :
  subsampleCorrelatedData (drop (detectEquilibration yy).1.1 yy)
    (detectEquilibration yy).1.2 = [] →
  column_body dt_fs st column yy
  = Ok ({| results := results st;
           written := (written st ++
             problem_lines column yy
               (drop (detectEquilibration yy).1.1 yy) [])%list;
           acf_calls := acf_calls st |}, (false, false)).
Proof.
  intros Hidx. unfold Analyzer.column_body.
  destruct (detectEquilibration yy) as [[conv g] Neff].
  cbn [fst snd] in *. rewrite Hidx. reflexivity.
Qed.

Lemma warning_keys_differ (column : string) :
  column ++ ",few_neff_warning" ≠ column ++ ",short_production_warning".
Proof. intros H. apply (inj (String.app column)) in H. discriminate. Qed.

(** C4 (amended).  The convergence time and the autocorrelation time are
    reported in milliseconds from 10^9, in nanoseconds from 10^6, in
    picoseconds from 10^3 and in femtoseconds below; both times are
    classified with the same boundaries. *)
Theorem C4_time_units_boundaries (t : float) :
  ((conv_units t).1 = "ms" ↔ (1000000000 <=? t) = true)
  ∧ ((conv_units t).1 = "ns"
     ↔ (1000000 <=? t) = true ∧ (1000000000 <=? t) = false)
  ∧ ((conv_units t).1 = "ps"
     ↔ (1000 <=? t) = true ∧ (1000000 <=? t) = false)
  ∧ ((conv_units t).1 = "fs" ↔ (1000 <=? t) = false)
  ∧ tau_units t = conv_units t.
Proof.
  pose proof (buckets 1000000000 1000000 1000 t
                ("ms", t / 1000000000) ("ns", t / 1000000)
                ("ps", t / 1000) ("fs", t)
                eq_refl eq_refl eq_refl eq_refl eq_refl eq_refl) as H.
  cbv zeta in H. destruct H as (H1 & H2 & H3 & H4).
  unfold tau_units, conv_units. repeat split; try tauto.
Qed.

(** The 4-fold boundaries are those of the time axis of the whole
    trajectory. *)
Lemma trajectory_units_boundaries (len_trj : float) :
  ((trajectory_units len_trj).1 = "ms" ↔ (4000000000 <=? len_trj) = true)
  ∧ ((trajectory_units len_trj).1 = "ns"
     ↔ (4000000 <=? len_trj) = true ∧ (4000000000 <=? len_trj) = false)
  ∧ ((trajectory_units len_trj).1 = "ps"
     ↔ (4000 <=? len_trj) = true ∧ (4000000 <=? len_trj) = false)
  ∧ ((trajectory_units len_trj).1 = "fs" ↔ (4000 <=? len_trj) = false).
Proof.
  exact (buckets 4000000000 4000000 4000 len_trj
           ("ms", 1000000000) ("ns", 1000000) ("ps", 1000) ("fs", 1)
           eq_refl eq_refl eq_refl eq_refl eq_refl eq_refl).
Qed.

(** C5 (amended).  For a property with a display title whose
    decorrelated subsequence is not empty: when the equilibrated tail has
    fewer than 10,000 samples no autocorrelation function is computed and
    [short_production_warning] is true; when it has at least 10,000 (and
    the inefficiency is a finite number) the autocorrelation function is
    computed once, over the tail, with
    [min(4 * round(g + 0.5), len(tail) // 2)] lags and [alpha = 0.05], and
    [short_production_warning] is false.  In both cases the body of the
    loop returns, with the flag [have_acf_warning] equal to the warning
    stored. *)
Theorem C5_acf_stage (dt_fs : float) (st : state) (column : string)
    (yy : list float) (conv : nat) (g Neff : float) (y_n : list float)
    (title : string) :
  detectEquilibration yy = (conv, g, Neff) →
  subsampleCorrelatedData (drop conv yy) g ≠ [] →
  mapM (λ i : nat, drop conv yy !! i)
    (subsampleCorrelatedData (drop conv yy) g) = Some y_n →
  display_title !! column = Some title →
  let tail := drop conv yy in
  let len := Z.of_nat (length tail) in
  ((len < 10000)%Z →
     ∃ st' few, column_body dt_fs st column yy = Ok (st', (few, true))
       ∧ acf_calls st' = acf_calls st
       ∧ results st' !! (column ++ ",short_production_warning")
         = Some (VBool true))
  ∧ (∀ r, (10000 <= len)%Z → round (g + 0.5) = Some r →
     let nlags := Z.min (4 * r) (len / 2) in
     ∃ st' few, column_body dt_fs st column yy = Ok (st', (few, false))
       ∧ acf_calls st'
         = (acf_calls st ++
            [(column, {| acf_x := tail; acf_nlags := nlags;
                         acf_alpha := 0.05; acf_fft := (nlags >? 16)%Z;
                         acf_unbiased := false |})])%list
       ∧ results st' !! (column ++ ",short_production_warning")
         = Some (VBool false)).
Proof.
  intros Hde Hne Hmap Htitle tail len. split.
  - intros Hlen.
    destruct (column_body_ok dt_fs st column yy conv g Neff y_n
                false true "^" [] title Hde Hne Hmap
                (acf_stage_short column g tail false Hlen) Htitle)
      as (st' & Hok & Hres & Hcalls & _).
    exists st', (Z.of_nat (length y_n) <? 100)%Z.
    split; [exact Hok|]. split.
    + rewrite Hcalls. apply app_nil_r.
    + rewrite Hres, lookup_insert_ne by apply warning_keys_differ.
      apply lookup_insert_eq.
  - intros r Hlen Hr nlags.
    destruct (column_body_ok dt_fs st column yy conv g Neff y_n
                true false " " _ title Hde Hne Hmap
                (acf_stage_long column g tail false r Hlen Hr) Htitle)
      as (st' & Hok & Hres & Hcalls & _).
    exists st', (Z.of_nat (length y_n) <? 100)%Z.
    split; [exact Hok|]. split; [exact Hcalls|].
    rewrite Hres, lookup_insert_ne by apply warning_keys_differ.
    apply lookup_insert_eq.
Qed.

(** C6.  For a property with a display title whose decorrelated
    subsequence has [n_samples] observations (at least one), the body of
    the loop returns with [few_neff_warning] set in the results, and it
    is true exactly when [n_samples < 100]; the flag [have_warning] that
    the body leaves is that value. *)
Theorem C6_few_neff_warning (dt_fs : float) (st : state) (column : string)
    (yy : list float) (conv : nat) (g Neff : float) (y_n : list float)
    (have_acf w : bool) (mark : string) (calls : list (string * acf_call))
    (title : string) :
  detectEquilibration yy = (conv, g, Neff) →
  subsampleCorrelatedData (drop conv yy) g ≠ [] →
  mapM (λ i : nat, drop conv yy !! i)
    (subsampleCorrelatedData (drop conv yy) g) = Some y_n →
  acf_stage column g (drop conv yy) false = Ok (have_acf, w, mark, calls) →
  display_title !! column = Some title →
  let n_samples :=
    Z.of_nat (length (subsampleCorrelatedData (drop conv yy) g)) in
  ∃ st' b, column_body dt_fs st column yy = Ok (st', (b, w))
    ∧ results st' !! (column ++ ",few_neff_warning") = Some (VBool b)
    ∧ results st' !! (column ++ ",n_sample") = Some (VInt n_samples)
    ∧ (b = true ↔ (n_samples < 100)%Z).
Proof.
  intros Hde Hne Hmap Hacf Htitle n_samples.
  destruct (column_body_ok dt_fs st column yy conv g Neff y_n
              have_acf w mark calls title Hde Hne Hmap Hacf Htitle)
    as (st' & Hok & Hres & _).
  assert (Hn : n_samples = Z.of_nat (length y_n)).
  { unfold n_samples. f_equal. exact (length_mapM _ _ _ Hmap). }
  exists st', (Z.of_nat (length y_n) <? 100)%Z.
  split; [exact Hok|]. rewrite Hres. split; [apply lookup_insert_eq|]. split.
  - do 2 (rewrite lookup_insert_ne
            by (intros H; apply (inj (String.app column)) in H;
                discriminate)).
    rewrite Hn. apply lookup_insert_eq.
  - rewrite Hn. apply Z.ltb_lt.
Qed.

(** C7.  A property whose decorrelation yields no index, with or without
    a display title, adds nothing to [results] and makes no call of the
    autocorrelation function; the lines printed for it start with one
    that names the property; no exception is raised.  The loop goes on
    with the remaining properties from that state: the property that
    comes next, if it has a title and samples, is analysed, its five
    entries are added to the results as they were before the skipped
    property, its row is printed after the lines of the skipped property,
    and the loop goes on from there. *)
Theorem C7_zero_samples_skipped (dt_fs : float) (st : state)
    (fl : option (bool * bool)) (column : string) (yy : list float) :
  let conv := (detectEquilibration yy).1.1 in
  let g := (detectEquilibration yy).1.2 in
  subsampleCorrelatedData (drop conv yy) g = [] →
  let st' := {| results := results st;
                written := (written st ++
                  problem_lines column yy (drop conv yy) [])%list;
                acf_calls := acf_calls st |} in
  column_body dt_fs st column yy = Ok (st', (false, false))
  ∧ Printed ("Problem with column " ++ column) ∈ written st'
  ∧ (∀ rest,
       columns_loop dt_fs st fl ((column, yy) :: rest)
       = columns_loop dt_fs st' (Some (false, false)) rest)
  ∧ (∀ next yy2 conv2 g2 Neff2 y_n have_acf w mark calls title rest,
       detectEquilibration yy2 = (conv2, g2, Neff2) →
       subsampleCorrelatedData (drop conv2 yy2) g2 ≠ [] →
       mapM (λ i : nat, drop conv2 yy2 !! i)
         (subsampleCorrelatedData (drop conv2 yy2) g2) = Some y_n →
       acf_stage next g2 (drop conv2 yy2) false
       = Ok (have_acf, w, mark, calls) →
       display_title !! next = Some title →
       ∃ st2 r,
         columns_loop dt_fs st fl ((column, yy) :: (next, yy2) :: rest)
         = columns_loop dt_fs st2
             (Some ((Z.of_nat (length y_n) <? 100)%Z, w)) rest
         ∧ results st2
           = <[next ++ ",few_neff_warning" :=
                 VBool (Z.of_nat (length y_n) <? 100)%Z]>
             (<[next ++ ",short_production_warning" := VBool w]>
             (<[next ++ ",n_sample" := VInt (Z.of_nat (length y_n))]>
             (<[next ++ ",stderr" :=
                  VFloat (np_std y_n
                          / sqrt (float_of_Z (Z.of_nat (length y_n))))]>
             (<[next := VFloat (np_mean y_n)]> (results st)))))
         ∧ written st2 = (written st' ++ [Row r])%list
         ∧ rep_column r = next
         ∧ acf_calls st2 = (acf_calls st ++ calls)%list).
Proof.
  intros conv g Hidx st'.
  pose proof (column_body_skipped dt_fs st column yy Hidx) as H.
  fold conv in H. fold st' in H.
  split; [exact H|]. split; [|split].
  - unfold st', problem_lines. cbn [written].
    apply elem_of_app. right. left.
  - intros rest. cbn [Analyzer.columns_loop]. rewrite H. reflexivity.
  - intros next yy2 conv2 g2 Neff2 y_n have_acf w mark calls title rest
      Hde Hne Hmap Hacf Htitle.
    destruct (column_body_ok dt_fs st' next yy2 conv2 g2 Neff2 y_n
                have_acf w mark calls title Hde Hne Hmap Hacf Htitle)
      as (st2 & Hok & Hres & Hcalls & r & Hw & Hr).
    exists st2, r. split; [|split; [exact Hres|split; [exact Hw|]]].
    + cbn [Analyzer.columns_loop]. rewrite H. cbn [mbind result_bind].
      rewrite Hok. reflexivity.
    + split; [exact Hr|exact Hcalls].
Qed.

End AnalyzerFacts.

(** C4 (as stated, refuted).  A convergence time of 1000 fs is reported in
    picoseconds, and an autocorrelation time of 10^9 fs in milliseconds;
    under the boundaries of the claim they would stay in femtoseconds and
    in nanoseconds. *)
Lemma C4_counterexample_boundaries_are_not_fourfold :
  (Analyzer.conv_units 1000).1 = "ps"
  ∧ Analyzer.spec_units 1000 = "fs"
  ∧ (Analyzer.tau_units 1000000000).1 = "ms"
  ∧ Analyzer.spec_units 1000000000 = "ns".
Proof. repeat split; vm_compute; reflexivity. Qed.

(** C5 (as stated, refuted).  On a series of 10,000 samples with the
    inefficiency 1.75 the autocorrelation function is asked for
    [4 * round(2.25) = 8] lags; [4 * ceil(2.25)] would be 12. *)
Lemma C5_counterexample_lags_are_rounded :
  Analyzer.lags_asked
    (Analyzer.column_body Analyzer.keep_all Analyzer.every_second
       Analyzer.first_or_zero Analyzer.first_or_zero 100
       Analyzer.empty_state "Epe" Analyzer.long_series) = [8]
  ∧ Analyzer.spec_lags 1.75 (length Analyzer.long_series) = Some 12.
Proof. split; vm_compute; reflexivity. Qed.

(** The autocorrelation stage at work on the series of 10,000 samples. *)
Lemma C5_witness_long_series :
  ∃ st' few,
    Analyzer.column_body Analyzer.keep_all Analyzer.every_second
      Analyzer.first_or_zero Analyzer.first_or_zero 100
      Analyzer.empty_state "Epe" Analyzer.long_series
    = Ok (st', (few, false))
    ∧ Analyzer.acf_calls st'
      = [("Epe", {| Analyzer.acf_x := Analyzer.long_series;
                    Analyzer.acf_nlags := 8;
                    Analyzer.acf_alpha := 0.05;
                    Analyzer.acf_fft := false;
                    Analyzer.acf_unbiased := false |})]
    ∧ Analyzer.results st' !! "Epe,short_production_warning"
      = Some (VBool false).
Proof.
  assert (H2 : Analyzer.every_second (drop 0 Analyzer.long_series) 1.75 ≠ []).
  { intros E. apply (f_equal length) in E. vm_compute in E. discriminate. }
  assert (H3 : mapM (λ i : nat, drop 0 Analyzer.long_series !! i)
                 (Analyzer.every_second (drop 0 Analyzer.long_series) 1.75)
               = Some (repeat 1.5%float 200)).
  { vm_compute. reflexivity. }
  destruct (C5_acf_stage Analyzer.keep_all Analyzer.every_second
              Analyzer.first_or_zero Analyzer.first_or_zero 100
              Analyzer.empty_state "Epe" Analyzer.long_series 0 1.75 _ _
              "Potential Energy" eq_refl H2 H3 eq_refl) as [_ H].
  apply (H 2); vm_compute; [discriminate|reflexivity].
Defined.

(** The sufficiency warning on the same series: 200 independent samples,
    no warning. *)
Lemma C6_witness_long_series :
  ∃ st' b,
    Analyzer.column_body Analyzer.keep_all Analyzer.every_second
      Analyzer.first_or_zero Analyzer.first_or_zero 100
      Analyzer.empty_state "Epe" Analyzer.long_series
    = Ok (st', (b, false))
    ∧ Analyzer.results st' !! "Epe,few_neff_warning" = Some (VBool b)
    ∧ Analyzer.results st' !! "Epe,n_sample" = Some (VInt 200)
    ∧ (b = true ↔ (200 < 100)%Z).
Proof.
  assert (H2 : Analyzer.every_second (drop 0 Analyzer.long_series) 1.75 ≠ []).
  { intros E. apply (f_equal length) in E. vm_compute in E. discriminate. }
  assert (H3 : mapM (λ i : nat, drop 0 Analyzer.long_series !! i)
                 (Analyzer.every_second (drop 0 Analyzer.long_series) 1.75)
               = Some (repeat 1.5%float 200)).
  { vm_compute. reflexivity. }
  exact (C6_few_neff_warning Analyzer.keep_all Analyzer.every_second
           Analyzer.first_or_zero Analyzer.first_or_zero 100
           Analyzer.empty_state "Epe" Analyzer.long_series 0 1.75 _ _
           _ _ _ _ "Potential Energy" eq_refl H2 H3 eq_refl eq_refl).
Defined.

(** A trajectory of four rows in which the pressure does not vary and the
    temperature does: nothing of the pressure survives the decorrelation,
    the lines that name it are printed, and the temperature, which comes
    next, is analysed. *)
Lemma C7_witness_flat_pressure :
  ∃ st2,
    Analyzer.columns_loop Analyzer.keep_all Analyzer.none_if_flat
      Analyzer.first_or_zero Analyzer.first_or_zero 1
      Analyzer.empty_state None
      (tail (Analyzer.columns Analyzer.trajectory_flat_P))
    = Ok (st2, Some (true, true))
    ∧ Analyzer.results st2 !! "P" = None
    ∧ Analyzer.results st2 !! "P,few_neff_warning" = None
    ∧ Analyzer.results st2 !! "T" = Some (VFloat 300)
    ∧ Analyzer.results st2 !! "T,n_sample" = Some (VInt 2)
    ∧ Analyzer.Printed "Problem with column P" ∈ Analyzer.written st2.
Proof.
  destruct (C7_zero_samples_skipped Analyzer.keep_all Analyzer.none_if_flat
              Analyzer.first_or_zero Analyzer.first_or_zero 1
              Analyzer.empty_state None "P" [0; 0; 0; 0]%float eq_refl)
    as (_ & Hp & _ & Hnext).
  destruct (Hnext "T" [300; 301; 299; 300]%float 0%nat 1.75%float
              (4 / 1.75)%float [300; 299]%float false true "^" []
              "Temperature" [] eq_refl ltac:(discriminate) eq_refl
              eq_refl eq_refl)
    as (st2 & r & Hloop & Hres & Hw & _).
  exists st2. split; [exact Hloop|]. rewrite Hres, Hw.
  split; [vm_compute; reflexivity|]. split; [vm_compute; reflexivity|].
  split; [vm_compute; reflexivity|]. split; [vm_compute; reflexivity|].
  apply elem_of_app. left. exact Hp.
Defined.

(** ** The dump reader *)

Section DumpFacts.

Import Dump.
#[local] Open Scope float_scope.

Variable acos : float → float.
Variable float_of_str : string → option float.

#[local] Abbreviation read_dump := (read_dump acos float_of_str).
#[local] Abbreviation parse := (parse acos float_of_str).
#[local] Abbreviation read_lines := (read_lines acos float_of_str).
#[local] Abbreviation read_line := (read_line acos float_of_str).
#[local] Abbreviation end_section := (end_section acos float_of_str).
#[local] Abbreviation read_atoms := (read_atoms float_of_str).

Lemma read_line_first (d : string) (n : Z) (l : string) :
  is_item l = true →
  read_line d n reader0 l
  = Ok {| lineno := 1; section := section_of l; section_lines := [];
          xyz := []; rd_cell := None |}.
Proof.
  unfold is_item, Dump.read_line. intros H. cbn [lineno reader0].
  change (0 + 1 =? 1)%Z with true. cbv iota. rewrite H. reflexivity.
Qed.


Lemma read_line_data (d : string) (n : Z) (rd : reader) (l : string) :
  (0 < lineno rd)%Z → is_item l = false →
  read_line d n rd l
  = Ok {| lineno := (lineno rd + 1)%Z; section := section rd;
          section_lines := (section_lines rd ++ [strip l])%list;
          xyz := xyz rd; rd_cell := rd_cell rd |}.
Proof.
  unfold is_item, Dump.read_line. intros Hn H.
  destruct (Z.eqb_spec (lineno rd + 1) 1); [lia|].
  rewrite H. reflexivity.
Qed.

(** Lines that open no section are gathered, stripped, in order. *)
Lemma read_lines_data (d : string) (n : Z) (ls : list string) (rd : reader) :
  (0 < lineno rd)%Z → Forall (λ l, is_item l = false) ls →
  read_lines d n rd ls
  = Ok {| lineno := (lineno rd + Z.of_nat (length ls))%Z;
          section := section rd;
          section_lines := (section_lines rd ++ map strip ls)%list;
          xyz := xyz rd; rd_cell := rd_cell rd |}.
Proof.
  intros Hn H. revert rd Hn.
  induction H as [|l ls Hl _ IH]; intros rd Hn.
  - cbn [Dump.read_lines length map]. destruct rd; cbn.
    rewrite Z.add_0_r, app_nil_r. reflexivity.
  - cbn [Dump.read_lines]. rewrite (read_line_data d n rd l Hn Hl).
    cbn [mbind result_bind]. rewrite IH by (cbn; lia).
    cbn [lineno section section_lines xyz rd_cell length map].
    rewrite <- app_assoc. do 2 f_equal. lia.
Qed.

Lemma read_atoms_ok (ls : list string) (ps xyz0 : list xyz_t) :
  Forall2 (atom_line float_of_str) ls ps →
  read_atoms xyz0 (map strip ls) = Ok (xyz0 ++ ps)%list.
Proof.
  intros H. revert xyz0.
  induction H as [|l [[px py] pz] ls ps Hl _ IH]; intros xyz0.
  - cbn. rewrite app_nil_r. reflexivity.
  - destruct Hl as (_ & id & x & y & z & Hs & Hx & Hy & Hz).
    cbn [map Dump.read_atoms]. rewrite Hs.
    unfold to_float. cbn in Hx, Hy, Hz. rewrite Hx, Hy, Hz.
    cbn [or_raise mbind result_bind]. rewrite IH, <- app_assoc.
    reflexivity.
Qed.

Lemma atom_lines_no_item (ls : list string) (ps : list xyz_t) :
  Forall2 (atom_line float_of_str) ls ps →
  Forall (λ l, is_item l = false) ls.
Proof. induction 1 as [|l p ls ps [Hl _] _ IH]; constructor; auto. Qed.








Lemma bind_Ok {A B : Type} (a : A) (f : A → result B) : (Ok a ≫= f) = f a.
Proof. reflexivity. Qed.




(** C9.  On a system whose periodicity is not 3, [read_dump] leaves the
    cell, the periodicity and the elements as they were, whether it
    returns or raises; when the file parses, it returns, and the only
    change is that the coordinates are those read from the file. *)
Theorem C9_cell_kept_unless_periodic (s : system) (d : string)
    (lines : list string) :
  periodicity s ≠ 3%Z →
  let r := read_dump s d lines in
  cell r.1 = cell s
  ∧ periodicity r.1 = periodicity s
  ∧ elements r.1 = elements s
  ∧ (∀ rd, parse d (Z.of_nat (length (elements s))) lines = Ok rd →
       r = ({| periodicity := periodicity s; elements := elements s;
               coordinates := xyz rd; cell := cell s |}, None)).
Proof.
  intros Hp r. subst r. unfold Dump.read_dump.
  destruct (Dump.parse _ _ _ _ _) as [rd|e]; cbn [mbind result_bind].
  - unfold update. destruct (Z.eqb_spec (periodicity s) 3); [contradiction|].
    cbn. repeat split; try reflexivity.
    intros rd' H. injection H as <-. reflexivity.
  - cbn. repeat split; try reflexivity. discriminate.
Qed.

(** On a 3-periodic system a dump that is read to the end sets the cell
    to the one of its box section. *)
Lemma read_dump_sets_cell_when_periodic (s : system) (d : string)
    (lines : list string) (rd : reader) (c : Cell.six) :
  periodicity s = 3%Z →
  parse d (Z.of_nat (length (elements s))) lines = Ok rd →
  rd_cell rd = Some c →
  read_dump s d lines
  = ({| periodicity := 3; elements := elements s;
        coordinates := xyz rd; cell := Some c |}, None).
Proof.
  intros Hp Hparse Hc. unfold Dump.read_dump. rewrite Hparse.
  cbn [mbind result_bind]. unfold update. rewrite Hp, Hc. reflexivity.
Qed.

End DumpFacts.


(** A dump with a box of 10 by 12 by 14 read into a system that is not
    periodic: the coordinates are replaced, the cell stays. *)
Lemma C9_witness_molecule :
  let r := Dump.read_dump Cell.acos_series Dump.float_of_int_literal
             (Dump.water 0) "md.dump" Dump.dump_orthogonal in
  Dump.cell r.1 = Some (20, 20, 20, 90, 90, 90)%float
  ∧ Dump.periodicity r.1 = 0%Z
  ∧ Dump.elements r.1 = ["O"; "H"; "H"]
  ∧ r = ({| Dump.periodicity := 0; Dump.elements := ["O"; "H"; "H"];
            Dump.coordinates := [(1, 2, 3); (4, 5, 6); (7, 8, 9)]%float;
            Dump.cell := Some (20, 20, 20, 90, 90, 90)%float |}, None).
Proof.
  pose proof (C9_cell_kept_unless_periodic Cell.acos_series
                Dump.float_of_int_literal (Dump.water 0) "md.dump"
                Dump.dump_orthogonal ltac:(discriminate)) as H.
  cbv zeta in H. destruct H as (H1 & H2 & H3 & H4).
  cbv zeta. split; [exact H1|]. split; [exact H2|]. split; [exact H3|].
  lazymatch eval vm_compute in
    (Dump.parse Cell.acos_series Dump.float_of_int_literal "md.dump"
       (Z.of_nat (length (Dump.elements (Dump.water 0)))) Dump.dump_orthogonal)
  with
  | Ok ?rd => exact (H4 rd ltac:(vm_compute; reflexivity))
  end.
Defined.

(** ** The box limits of the structure file *)

(** C10.  For a 3-periodic energy expression whose cell converts to a box
    with [|xy| <= 1e-6], [structure_data] without [triclinic] writes the
    three bounds lines and no tilt line, whatever [xz] and [yz] are. *)
Theorem C10_no_tilt_line_when_xy_is_small (cos : float → float)
    (e : Structure.eex) (a b c alpha beta gamma : float) :
  Structure.periodicity e = 3%Z →
  Structure.cell e = Some (a, b, c, alpha, beta, gamma) →
  let box := Cell.cell_to_box cos a b c alpha beta gamma in
  (abs (Cell.box_xy box) <=? 1.0e-06)%float = true →
  Structure.box_limits cos e false
  = Ok [Structure.Bounds 0 (Cell.box_lx box) "xlo xhi";
        Structure.Bounds 0 (Cell.box_ly box) "ylo yhi";
        Structure.Bounds 0 (Cell.box_lz box) "zlo zhi"]
  ∧ ∀ lines, Structure.box_limits cos e false = Ok lines →
             Forall (λ l, Structure.is_tilt l = false) lines.
Proof.
  intros Hp Hc box Hxy.
  assert (H : Structure.box_limits cos e false
              = Ok [Structure.Bounds 0 (Cell.box_lx box) "xlo xhi";
                    Structure.Bounds 0 (Cell.box_ly box) "ylo yhi";
                    Structure.Bounds 0 (Cell.box_lz box) "zlo zhi"]).
  { unfold Structure.box_limits. rewrite Hp, Hc.
    change (3 =? 3)%Z with true. cbv iota.
    cbn [or_raise mbind result_bind]. fold box.
    destruct box as [[[[[lx ly] lz] xy] xz] yz].
    cbn [Cell.box_xy Cell.box_lx Cell.box_ly Cell.box_lz] in *.
    apply leb_not_gtb in Hxy. rewrite Hxy.
    change (1.0e-06 <? abs 0)%float with false. cbv iota.
    change (0 <? 0)%float with false. reflexivity. }
  split; [exact H|].
  intros lines H'. rewrite H in H'. injection H' as <-.
  repeat constructor.
Qed.

(** A cell tilted by ten degrees in the xz plane: [xz] is about 1.74, and
    yet no tilt line is written. *)
Lemma C10_witness_tilted_xz :
  Structure.box_limits Cell.cos_series Structure.tilted_xz false
  = Ok [Structure.Bounds 0 0 "xlo xhi"; Structure.Bounds 0 10 "ylo yhi";
        Structure.Bounds 0 9.8480775301220813 "zlo zhi"]
  ∧ (1 <? Cell.box_xz (Cell.cell_to_box Cell.cos_series 10 10 10 90 80 90))%float
    = true.
Proof.
  split; [|vm_compute; reflexivity].
  refine (proj1 (C10_no_tilt_line_when_xy_is_small Cell.cos_series
                   Structure.tilted_xz 10 10 10 90 80 90 eq_refl eq_refl _)).
  vm_compute. reflexivity.
Defined.

(** ** Facts about the built-ins *)

Section TextFacts.

Import Text.

Lemma all_chars_app (p : ascii → bool) (s t : string) :
  all_chars p (s ++ t) = all_chars p s && all_chars p t.
Proof.
  induction s as [|c s IH]; [reflexivity|].
  change (String c s ++ t) with (String c (s ++ t)).
  cbn [all_chars]. rewrite IH. apply andb_assoc.
Qed.

Lemma all_chars_impl (p q : ascii → bool) (s : string) :
  (∀ c, p c = true → q c = true) →
  all_chars p s = true → all_chars q s = true.
Proof.
  intros Hpq. induction s as [|c s IH]; [reflexivity|]. cbn [all_chars].
  intros [Hc Hs]%andb_true_iff. rewrite (Hpq c Hc), (IH Hs). reflexivity.
Qed.

Lemma lstrip_by_none (p : ascii → bool) (s : string) :
  all_chars (λ c, negb (p c)) s = true → lstrip_by p s = s.
Proof.
  destruct s as [|c s]; [reflexivity|]. cbn [all_chars lstrip_by].
  intros [Hc _]%andb_true_iff. apply negb_true_iff in Hc. now rewrite Hc.
Qed.

Lemma rstrip_by_none (p : ascii → bool) (s : string) :
  all_chars (λ c, negb (p c)) s = true → rstrip_by p s = s.
Proof.
  induction s as [|c s IH]; [reflexivity|]. cbn [all_chars rstrip_by].
  intros [Hc Hs]%andb_true_iff. apply negb_true_iff in Hc.
  rewrite (IH Hs), Hc. now destruct s.
Qed.

Lemma strip_none (s : string) :
  all_chars (λ c, negb (is_space c)) s = true → strip s = s.
Proof.
  intros H. unfold strip. rewrite (lstrip_by_none _ _ H).
  exact (rstrip_by_none _ _ H).
Qed.

(** *** [int] after [str] *)

Lemma digits_of_uint (d : Decimal.uint) :
  all_chars (λ c, match digit_of c with Some _ => true | None => false end)
    (NilEmpty.string_of_uint d) = true.
Proof. induction d; cbn [NilEmpty.string_of_uint all_chars]; auto. Qed.

Lemma int_digits_acc (d : Decimal.uint) (acc : positive) :
  int_digits (NilEmpty.string_of_uint d) true (Z.pos acc)
  = Some (Z.pos (Pos.of_uint_acc d acc)).
Proof.
  revert acc.
  induction d as [|d IH|d IH|d IH|d IH|d IH|d IH|d IH|d IH|d IH|d IH];
    intros acc; cbn [NilEmpty.string_of_uint int_digits Pos.of_uint_acc];
    [reflexivity|..];
    (change (Ascii.eqb _ "_") with false; cbv iota;
     match goal with
     | |- context [digit_of ?c] =>
         let v := eval vm_compute in (digit_of c) in
         change (digit_of c) with v
     end; cbv iota;
     match goal with
     | |- int_digits _ true ?z = Some (Z.pos (Pos.of_uint_acc d ?a)) =>
         replace z with (Z.pos a) by lia
     end; apply IH).
Qed.

Lemma int_digits_uint (d : Decimal.uint) (b : bool) :
  d ≠ Decimal.Nil →
  int_digits (NilEmpty.string_of_uint d) b 0 = Some (Z.of_N (Pos.of_uint d)).
Proof.
  revert b.
  induction d as [|d IH|d IH|d IH|d IH|d IH|d IH|d IH|d IH|d IH|d IH];
    intros b Hd; [contradiction|..];
    cbn [NilEmpty.string_of_uint int_digits Pos.of_uint];
    change (Ascii.eqb _ "_") with false; cbv iota;
    match goal with
    | |- context [digit_of ?c] =>
        let v := eval vm_compute in (digit_of c) in
        change (digit_of c) with v
    end; cbv iota.
  - destruct d; [reflexivity|..]; apply IH; discriminate.
  - exact (int_digits_acc d 1).
  - exact (int_digits_acc d 2).
  - exact (int_digits_acc d 3).
  - exact (int_digits_acc d 4).
  - exact (int_digits_acc d 5).
  - exact (int_digits_acc d 6).
  - exact (int_digits_acc d 7).
  - exact (int_digits_acc d 8).
  - exact (int_digits_acc d 9).
Qed.

Lemma digit_is_sign_or_digit (c : ascii) :
  match digit_of c with Some _ => true | None => false end = true →
  is_sign_or_digit c = true.
Proof.
  unfold is_sign_or_digit. destruct (digit_of c); [|discriminate].
  intros _. apply orb_true_r.
Qed.

Lemma str_chars (n : Z) : all_chars is_sign_or_digit (str n) = true.
Proof.
  assert (D : ∀ d, all_chars is_sign_or_digit (NilEmpty.string_of_uint d)
                   = true).
  { intros d. apply (all_chars_impl _ _ _ digit_is_sign_or_digit),
      digits_of_uint. }
  unfold str. destruct n as [|p|p]; cbn [Z.to_int NilZero.string_of_int].
  - reflexivity.
  - unfold NilZero.string_of_uint.
    destruct (Pos.to_uint p); try reflexivity; apply D.
  - unfold NilZero.string_of_uint.
    change (all_chars is_sign_or_digit
              (String "-" match Pos.to_uint p with
                          | Decimal.Nil => "0"
                          | _ => NilEmpty.string_of_uint (Pos.to_uint p)
                          end) = true).
    cbn [all_chars]. destruct (Pos.to_uint p); try reflexivity; apply D.
Qed.

Lemma sign_or_digit_no_int_space (c : ascii) :
  is_sign_or_digit c = true → negb (is_int_space c) = true.
Proof.
  destruct c as [[] [] [] [] [] [] [] []]; vm_compute; congruence.
Qed.

Lemma sign_or_digit_no_space (c : ascii) :
  is_sign_or_digit c = true → negb (is_space c) = true.
Proof.
  destruct c as [[] [] [] [] [] [] [] []]; vm_compute; congruence.
Qed.

Lemma sign_or_digit_no_dot (c : ascii) :
  is_sign_or_digit c = true → negb (Ascii.eqb c ".") = true.
Proof.
  destruct c as [[] [] [] [] [] [] [] []]; vm_compute; congruence.
Qed.

Lemma sign_or_digit_no_slash (c : ascii) :
  is_sign_or_digit c = true → negb (Ascii.eqb c "/") = true.
Proof.
  destruct c as [[] [] [] [] [] [] [] []]; vm_compute; congruence.
Qed.

Lemma sign_or_digit_no_star (c : ascii) :
  is_sign_or_digit c = true → negb (Ascii.eqb c "*") = true.
Proof.
  destruct c as [[] [] [] [] [] [] [] []]; vm_compute; congruence.
Qed.

Lemma str_not_empty (n : Z) : str n ≠ "".
Proof.
  unfold str. destruct n as [|p|p]; cbn [Z.to_int NilZero.string_of_int];
    [discriminate| |].
  - unfold NilZero.string_of_uint. destruct (Pos.to_uint p); discriminate.
  - discriminate.
Qed.

(** The decimal form of an integer reads back as that integer. *)
Lemma int_str (n : Z) : int (str n) = Some n.
Proof.
  unfold int.
  rewrite (lstrip_by_none is_int_space (str n)), (rstrip_by_none is_int_space)
    by exact (all_chars_impl _ _ _ sign_or_digit_no_int_space (str_chars n)).
  unfold str. destruct n as [|p|p]; cbn [Z.to_int NilZero.string_of_int].
  - reflexivity.
  - pose proof (DecimalPos.Unsigned.to_uint_nonnil p) as Hnil.
    pose proof (DecimalPos.Unsigned.of_to p) as Hof.
    pose proof (digits_of_uint (Pos.to_uint p)) as Hd.
    unfold NilZero.string_of_uint.
    destruct (Pos.to_uint p) as [|d|d|d|d|d|d|d|d|d|d] eqn:E;
      [contradiction|..];
      match goal with
      | |- match NilEmpty.string_of_uint ?u with _ => _ end = _ =>
          change (int_digits (NilEmpty.string_of_uint u) false 0
                  = Some (Z.pos p));
          rewrite (int_digits_uint u false) by discriminate;
          rewrite Hof; reflexivity
      end.
  - pose proof (DecimalPos.Unsigned.to_uint_nonnil p) as Hnil.
    pose proof (DecimalPos.Unsigned.of_to p) as Hof.
    unfold NilZero.string_of_uint.
    destruct (Pos.to_uint p) as [|d|d|d|d|d|d|d|d|d|d] eqn:E;
      [contradiction|..];
      match goal with
      | |- context [NilEmpty.string_of_uint ?u] =>
          change (option_map Z.opp
                    (int_digits (NilEmpty.string_of_uint u) false 0)
                  = Some (Z.neg p));
          rewrite (int_digits_uint u false) by discriminate;
          rewrite Hof; reflexivity
      end.
Qed.

End TextFacts.

(** *** [rfind], slices and [os.path.splitext] *)

Section PathFacts.

Import Text.

Lemma append_assoc (a b c : string) : (a ++ b) ++ c = a ++ (b ++ c).
Proof.
  induction a as [|d a IH]; [reflexivity|].
  change (String d (a ++ b) ++ c = String d (a ++ (b ++ c))).
  change (String d ((a ++ b) ++ c) = String d (a ++ (b ++ c))).
  now rewrite IH.
Qed.

Lemma rfind_go_lacks (c : ascii) (s : string) (i last : Z) :
  lacks c s = true → rfind_go c s i last = last.
Proof.
  revert i last. induction s as [|d s IH]; intros i last; [reflexivity|].
  unfold lacks. cbn [all_chars rfind_go].
  intros [Hd Hs]%andb_true_iff. apply negb_true_iff in Hd. rewrite Hd.
  now apply IH.
Qed.

Lemma rfind_go_app (c : ascii) (a b : string) (i last : Z) :
  rfind_go c (a ++ b) i last
  = rfind_go c b (i + Z.of_nat (String.length a)) (rfind_go c a i last).
Proof.
  revert i last. induction a as [|d a IH]; intros i last.
  - cbn [String.length rfind_go]. change ("" ++ b) with b. f_equal. lia.
  - change (String d a ++ b) with (String d (a ++ b)).
    cbn [rfind_go String.length]. rewrite IH. f_equal. lia.
Qed.

Lemma rfind_go_bound (c : ascii) (s : string) (i last : Z) :
  last < i →
  rfind_go c s i last < i + Z.of_nat (String.length s).
Proof.
  revert i last. induction s as [|d s IH]; intros i last H.
  - cbn. lia.
  - cbn [rfind_go String.length]. destruct (Ascii.eqb d c).
    + pose proof (IH (i + 1) i ltac:(lia)). lia.
    + pose proof (IH (i + 1) last ltac:(lia)). lia.
Qed.

Lemma rfind_go_lower (c : ascii) (s : string) (i last : Z) :
  last < i → last ≤ rfind_go c s i last.
Proof.
  revert i last. induction s as [|d s IH]; intros i last H.
  - cbn. lia.
  - cbn [rfind_go]. destruct (Ascii.eqb d c).
    + pose proof (IH (i + 1) i ltac:(lia)). lia.
    + exact (IH (i + 1) last ltac:(lia)).
Qed.

Lemma slice_to_app (a b : string) : slice_to (String.length a) (a ++ b) = a.
Proof.
  induction a as [|c a IH]; [now destruct b|].
  change (String c a ++ b) with (String c (a ++ b)).
  cbn [String.length slice_to]. now rewrite IH.
Qed.

Lemma slice_from_app (a b : string) :
  slice_from (String.length a) (a ++ b) = b.
Proof.
  induction a as [|c a IH]; [reflexivity|].
  change (String c a ++ b) with (String c (a ++ b)).
  cbn [String.length slice_from]. exact IH.
Qed.

Lemma get_app_here (a b : string) (c : ascii) :
  String.get (String.length a) (a ++ String c b) = Some c.
Proof.
  induction a as [|d a IH]; [reflexivity|].
  change (String d a ++ String c b) with (String d (a ++ String c b)).
  cbn [String.length String.get]. exact IH.
Qed.

Lemma get_before (p : string) (j : nat) (c : ascii) :
  String.get j p = Some c → ∀ i, (i ≤ j)%nat → is_Some (String.get i p).
Proof.
  revert j. induction p as [|d p IH]; intros j H i Hi.
  - destruct j; discriminate.
  - destruct i as [|i]; [cbn; eauto|].
    destruct j as [|j]; [lia|]. cbn [String.get] in *.
    apply (IH j H). lia.
Qed.

(** The scan of [splitext] succeeds when a character other than the dot
    lies at the end of the range it looks at. *)
Lemma splitext_scan_hit (p : string) (ch : ascii) (n i : nat) :
  String.get (i + n) p = Some ch → Ascii.eqb ch "." = false →
  splitext_scan p (S n) (Z.of_nat i) = true.
Proof.
  revert i. induction n as [|n IH]; intros i Hg Hc.
  - rewrite Nat.add_0_r in Hg. cbn [splitext_scan].
    rewrite Nat2Z.id, Hg, Hc. reflexivity.
  - change (splitext_scan p (S (S n)) (Z.of_nat i))
      with (match String.get (Z.to_nat (Z.of_nat i)) p with
            | Some c => if Ascii.eqb c "."
                        then splitext_scan p (S n) (Z.of_nat i + 1)
                        else true
            | None => false
            end).
    rewrite Nat2Z.id.
    destruct (get_before p (i + S n) ch Hg i ltac:(lia)) as [c ->].
    destruct (Ascii.eqb c "."); [|reflexivity].
    replace (Z.of_nat i + 1) with (Z.of_nat (S i)) by lia.
    apply IH; [|exact Hc]. now replace (S i + n)%nat with (i + S n)%nat by lia.
Qed.

(** The extension of a name that ends in a dot followed by text without
    dot or slash, when the character before that dot is neither. *)
Lemma splitext_last_dot (pre0 suf : string) (ch : ascii) :
  Ascii.eqb ch "." = false → Ascii.eqb ch "/" = false →
  lacks "." suf = true → lacks "/" suf = true →
  splitext ((pre0 ++ String ch "") ++ String "." suf)
  = (pre0 ++ String ch "", String "." suf).
Proof.
  intros Hdot Hsl Hsd Hss. unfold splitext.
  set (pre := pre0 ++ String ch "").
  assert (Hlen : String.length pre = S (String.length pre0)).
  { unfold pre. clear. induction pre0 as [|c p IH]; [reflexivity|].
    change (String c p ++ String ch "") with (String c (p ++ String ch "")).
    cbn [String.length]. now rewrite IH. }
  assert (Hd : rfind "." (pre ++ String "." suf)
               = Z.of_nat (String.length pre)).
  { unfold rfind. rewrite rfind_go_app. cbn [rfind_go].
    change (Ascii.eqb "." ".") with true. cbv iota.
    rewrite rfind_go_lacks by exact Hss || exact Hsd. lia. }
  assert (Hs : rfind "/" (pre ++ String "." suf) = rfind "/" pre0).
  { unfold rfind, pre. rewrite !rfind_go_app. cbn [rfind_go].
    rewrite Hsl. change (Ascii.eqb "." "/") with false. cbv iota.
    now rewrite rfind_go_lacks by exact Hss. }
  rewrite Hd, Hs.
  pose proof (rfind_go_bound "/" pre0 0 (-1) ltac:(lia)) as Hub.
  pose proof (rfind_go_lower "/" pre0 0 (-1) ltac:(lia)) as Hlb.
  fold (rfind "/" pre0) in Hub, Hlb.
  set (s := rfind "/" pre0) in *.
  assert (Hgt : (Z.of_nat (String.length pre) >? s) = true).
  { apply Z.gtb_lt. lia. }
  rewrite Hgt. cbn [andb].
  replace (Z.to_nat (Z.of_nat (String.length pre) - (s + 1)))
    with (S (Z.to_nat (Z.of_nat (String.length pre0) - (s + 1)))) by lia.
  replace (s + 1) with (Z.of_nat (Z.to_nat (s + 1))) at 2 by lia.
  rewrite (splitext_scan_hit _ ch).
  - rewrite Nat2Z.id, slice_to_app, slice_from_app. reflexivity.
  - replace (Z.to_nat (s + 1)
             + Z.to_nat (Z.of_nat (String.length pre0) - (s + 1)))%nat
      with (String.length pre0) by lia.
    unfold pre. rewrite append_assoc.
    exact (get_app_here pre0 (String "." suf) ch).
  - exact Hdot.
Qed.

Lemma strip_char_none (c : ascii) (s : string) :
  lacks c s = true → strip_char c (String c s) = s.
Proof.
  intros H. unfold strip_char. cbn [lstrip_by]. rewrite Ascii.eqb_refl.
  assert (H' : all_chars (λ d, negb (Ascii.eqb c d)) s = true).
  { apply (all_chars_impl (λ d, negb (Ascii.eqb d c))); [|exact H].
    intros d Hd. now rewrite Ascii.eqb_sym. }
  rewrite (lstrip_by_none _ _ H'). exact (rstrip_by_none _ _ H').
Qed.

Lemma replace_char_lacks (c : ascii) (new s : string) :
  lacks c s = true → replace_char c new s = s.
Proof.
  induction s as [|d s IH]; [reflexivity|]. unfold lacks.
  cbn [all_chars replace_char].
  intros [Hd Hs]%andb_true_iff. apply negb_true_iff in Hd.
  rewrite Hd. f_equal. now apply IH.
Qed.

Lemma str_lacks_dot (n : Z) : lacks "." (str n) = true.
Proof. exact (all_chars_impl _ _ _ sign_or_digit_no_dot (str_chars n)). Qed.

Lemma str_lacks_slash (n : Z) : lacks "/" (str n) = true.
Proof. exact (all_chars_impl _ _ _ sign_or_digit_no_slash (str_chars n)). Qed.

Lemma str_lacks_star (n : Z) : lacks "*" (str n) = true.
Proof. exact (all_chars_impl _ _ _ sign_or_digit_no_star (str_chars n)). Qed.

(** A name made of a base, [".dump."] and the decimal form of a step count
    carries that step count. *)
Lemma run_length_of_dump_name (base : string) (n : Z) :
  splitext (base ++ ".dump." ++ str n) = (base ++ ".dump", "." ++ str n)
  ∧ strip_char "." (snd (splitext (base ++ ".dump." ++ str n))) = str n
  ∧ Checkpoint.run_length (base ++ ".dump." ++ str n) = Some n.
Proof.
  assert (E : base ++ ".dump." ++ str n
              = ((base ++ ".dum") ++ String "p" "") ++ String "." (str n)).
  { rewrite !append_assoc. reflexivity. }
  assert (S : splitext (base ++ ".dump." ++ str n)
              = (base ++ ".dump", "." ++ str n)).
  { rewrite E, (splitext_last_dot _ _ "p" eq_refl eq_refl
                  (str_lacks_dot n) (str_lacks_slash n)).
    rewrite append_assoc. reflexivity. }
  split; [exact S|]. split.
  - rewrite S. exact (strip_char_none "." (str n) (str_lacks_dot n)).
  - unfold Checkpoint.run_length. rewrite S.
    change ("." ++ str n) with (String "." (str n)).
    rewrite (strip_char_none "." (str n) (str_lacks_dot n)).
    apply int_str.
Qed.

End PathFacts.

(** ** More on the checkpoint resolution *)

Section CheckpointFacts.

Import Text Checkpoint.

Lemma fold_left_max_spec (l : list Z) (x : Z) :
  let m := fold_left Z.max l x in
  (m = x ∨ m ∈ l) ∧ x ≤ m ∧ ∀ y, y ∈ l → y ≤ m.
Proof.
  revert x. induction l as [|a l IH]; intros x; cbn [fold_left].
  - split; [now left|]. split; [lia|]. intros y Hy. inversion Hy.
  - destruct (IH (Z.max x a)) as (Hm & Hle & Hall).
    split; [|split].
    + destruct Hm as [Hm|Hm]; [|right; now right].
      destruct (Z.max_spec x a) as [[_ E]|[_ E]]; rewrite E in Hm |- *.
      * right. rewrite Hm. left.
      * now left.
    + lia.
    + intros y Hy. apply elem_of_cons in Hy as [->|Hy]; [lia|auto].
Qed.

(** [max(l)] is an element of [l] that no element exceeds. *)
Lemma max_list_spec (l : list Z) (m : Z) :
  max_list l = Some m → m ∈ l ∧ ∀ y, y ∈ l → y ≤ m.
Proof.
  destruct l as [|x l]; [discriminate|]. cbn [max_list].
  intros H. injection H as H. subst m.
  destruct (fold_left_max_spec l x) as (Hm & Hle & Hall). split.
  - destruct Hm as [->|Hm]; [left|now right].
  - intros y Hy. apply elem_of_cons in Hy as [->|Hy]; auto.
Qed.

Lemma scan_all_app (st : scan) (a b : list string) :
  scan_all st (a ++ b)%list = st' ← scan_all st a; scan_all st' b.
Proof.
  revert st. induction a as [|f a IH]; intros st; [reflexivity|].
  cbn [app scan_all]. destruct (scan_step st f); cbn; [apply IH|reflexivity].
Qed.

(** The loop over names that all carry a step count. *)
Lemma scan_all_lengths (fs : list string) (ns : list Z) (f : string) (n : Z)
    (st : scan) :
  Forall2 (λ f n, run_length f = Some n) fs ns →
  run_length f = Some n →
  scan_all st (fs ++ [f])%list
  = Ok {| accum_dump := f;
          run_lengths := (run_lengths st ++ ns ++ [n])%list;
          last_snapshot :=
            option_map str (max_list (run_lengths st ++ ns ++ [n])%list) |}.
Proof.
  intros H Hf. revert st. induction H as [|g k fs ns Hg _ IH]; intros st.
  - cbn [app scan_all]. unfold scan_step. rewrite Hf. reflexivity.
  - cbn [app scan_all]. unfold scan_step at 1. rewrite Hg.
    cbn [mbind result_bind]. rewrite IH. cbn [run_lengths].
    now rewrite <- !app_assoc.
Qed.

Lemma replace_char_app (c : ascii) (new a b : string) :
  replace_char c new (a ++ b) = replace_char c new a ++ replace_char c new b.
Proof.
  induction a as [|d a IH]; [reflexivity|].
  change (String d a ++ b) with (String d (a ++ b)). cbn [replace_char].
  rewrite IH. destruct (Ascii.eqb d c); [|reflexivity].
  now rewrite append_assoc.
Qed.

(** The name of a checkpoint file carries the step count put into it,
    whatever the directory and the chain. *)
Lemma run_length_dump_file (directory : string) (ids : list string) (n : Z) :
  run_length (dump_file directory ids n) = Some n.
Proof.
  unfold dump_file, accum_dump_pattern.
  change (accum_base ids ++ ".dump.*")
    with (accum_base ids ++ (".dump." ++ "*")).
  rewrite <- append_assoc, !replace_char_app.
  change (replace_char "*" (str n) ".dump.") with ".dump.".
  change (replace_char "*" (str n) "*") with (str n ++ "").
  assert (E : str n ++ "" = str n).
  { generalize (str n). intros s. induction s as [|c s IH]; [reflexivity|].
    change (String c (s ++ "") = String c s). now rewrite IH. }
  rewrite E. set (b := replace_char "*" (str n) (accum_base ids)).
  unfold path_join.
  destruct (String.prefix "/" ((b ++ ".dump.") ++ str n)).
  - rewrite append_assoc. apply run_length_of_dump_name.
  - destruct directory as [|c dir].
    + rewrite append_assoc. apply run_length_of_dump_name.
    + set (d := String c dir).
      destruct (String.eqb _ "/").
      * replace (d ++ (b ++ ".dump.") ++ str n)
          with ((d ++ b) ++ ".dump." ++ str n) by now rewrite !append_assoc.
        apply run_length_of_dump_name.
      * replace (d ++ "/" ++ (b ++ ".dump.") ++ str n)
          with ((d ++ "/" ++ b) ++ ".dump." ++ str n)
          by now rewrite !append_assoc.
        apply run_length_of_dump_name.
Qed.

(** X1.  For the checkpoint files of a chain with the step counts
    [ns ++ [n]], enumerated in that order, the resolution returns;
    [last_snapshot] is the decimal form of the largest step count, which
    does not depend on the order of enumeration, while the name kept in
    [accum_dump] is the one enumerated last. *)
Theorem X1_last_snapshot_is_largest_step_count (directory : string)
    (ids : list string) (ns : list Z) (n : Z) :
  ∃ r m,
    latest_snapshot directory (accum_dump_pattern ids)
      (map (dump_file directory ids) (ns ++ [n])%list) = Ok r
    ∧ last_snapshot_after r = str m
    ∧ m ∈ (ns ++ [n])%list ∧ (∀ k, k ∈ (ns ++ [n])%list → k ≤ m)
    ∧ accum_dump_after r
      = replace_char "*" (str m) (dump_file directory ids n).
Proof.
  assert (F : Forall2 (λ f k, run_length f = Some k)
                (map (dump_file directory ids) ns) ns).
  { induction ns as [|k ns IH]; constructor;
      [apply run_length_dump_file|exact IH]. }
  pose proof (scan_all_lengths _ _ _ n
                {| accum_dump := accum_dump_pattern ids; run_lengths := [];
                   last_snapshot := None |} F
                (run_length_dump_file directory ids n)) as S.
  cbn [run_lengths app] in S.
  destruct (max_list (ns ++ [n])%list) as [m|] eqn:M;
    [|destruct ns; discriminate].
  exists {| dump_read :=
              path_join directory
                (replace_char "*" (str m) (dump_file directory ids n));
            accum_dump_after :=
              replace_char "*" (str m) (dump_file directory ids n);
            last_snapshot_after := str m |}, m.
  destruct (max_list_spec _ _ M) as [Hin Hmax].
  split; [|repeat split; assumption].
  unfold latest_snapshot. rewrite map_app. cbn [map].
  destruct (map (dump_file directory ids) ns ++ [dump_file directory ids n])%list
    eqn:E; [destruct (map _ ns); discriminate|].
  cbn [length Nat.eqb]. rewrite S. reflexivity.
Qed.

(** X2.  When some enumerated name carries no step count, the resolution
    raises the exception that names the first such file in the order of
    enumeration; the names after it are not looked at. *)
Theorem X2_first_malformed_name_is_reported (directory pattern : string)
    (good : list string) (ns : list Z) (bad : string) (rest : list string) :
  Forall2 (λ f n, run_length f = Some n) good ns →
  run_length bad = None →
  latest_snapshot directory pattern (good ++ bad :: rest)%list
  = Raise (Exception
      ("Lammps_step: could not extract run length from dump file " ++ bad)).
Proof.
  intros Hgood Hbad.
  assert (G : ∃ st', scan_all {| accum_dump := pattern; run_lengths := [];
                                 last_snapshot := None |} good = Ok st').
  { generalize {| accum_dump := pattern; run_lengths := [];
                  last_snapshot := None |}.
    induction Hgood as [|g k good ns Hg _ IH]; intros st; [now exists st|].
    cbn [scan_all]. unfold scan_step at 1. rewrite Hg.
    cbn [mbind result_bind]. apply IH. }
  unfold latest_snapshot.
  destruct (good ++ bad :: rest)%list eqn:E; [destruct good; discriminate|].
  cbn [length Nat.eqb]. rewrite <- E, scan_all_app.
  destruct G as [st' ->]. cbn [mbind result_bind scan_all].
  unfold scan_step. rewrite Hbad. reflexivity.
Qed.

(** X3.  With a single match (the usual case) whose name holds no ['*'],
    the file handed to [read_dump] is that match joined to the directory,
    which is the match itself when it is an absolute path, and
    [last_snapshot] is its step count. *)
Theorem X3_single_match_is_read (directory pattern f : string) (n : Z) :
  run_length f = Some n → lacks "*" f = true →
  latest_snapshot directory pattern [f]
  = Ok {| dump_read := path_join directory f;
          accum_dump_after := f;
          last_snapshot_after := str n |}
  ∧ (String.prefix "/" f = true → path_join directory f = f).
Proof.
  intros Hn Hstar. split.
  - unfold latest_snapshot. cbn [length Nat.eqb scan_all]. unfold scan_step.
    rewrite Hn. cbn [mbind result_bind or_raise last_snapshot accum_dump
                     run_lengths app max_list fold_left option_map].
    rewrite (replace_char_lacks _ _ _ Hstar). reflexivity.
  - intros H. unfold path_join. now rewrite H.
Qed.

End CheckpointFacts.

Lemma X2_witness_backup_file :
  Checkpoint.latest_snapshot "/work" "lammps_substep_1_iter_0.dump.*"
    ["/work/lammps_substep_1_iter_0.dump.500";
     "/work/lammps_substep_1_iter_0.dump.bak";
     "/work/lammps_substep_1_iter_0.dump.old"]
  = Raise (Exception
      ("Lammps_step: could not extract run length from dump file "
         ++ "/work/lammps_substep_1_iter_0.dump.bak")).
Proof.
  exact (X2_first_malformed_name_is_reported "/work"
           "lammps_substep_1_iter_0.dump.*"
           ["/work/lammps_substep_1_iter_0.dump.500"] [500]
           "/work/lammps_substep_1_iter_0.dump.bak"
           ["/work/lammps_substep_1_iter_0.dump.old"]
           ltac:(repeat constructor) eq_refl).
Defined.

Lemma X3_witness_one_file :
  Checkpoint.latest_snapshot "/work" "lammps_substep_1_iter_0.dump.*"
    ["/work/lammps_substep_1_iter_0.dump.1000"]
  = Ok {| Checkpoint.dump_read := "/work/lammps_substep_1_iter_0.dump.1000";
          Checkpoint.accum_dump_after :=
            "/work/lammps_substep_1_iter_0.dump.1000";
          Checkpoint.last_snapshot_after := "1000" |}.
Proof.
  exact (proj1 (X3_single_match_is_read "/work"
                  "lammps_substep_1_iter_0.dump.*"
                  "/work/lammps_substep_1_iter_0.dump.1000" 1000
                  eq_refl eq_refl)).
Defined.

(** ** More on the convergence loop *)

Section SplitFacts.

Import Text.

Lemma split_go_word (w s tok : string) :
  all_chars (λ c, negb (is_space c)) w = true →
  split_go (w ++ s) tok = split_go s (tok ++ w).
Proof.
  revert tok. induction w as [|c w IH]; intros tok H.
  - change ("" ++ s) with s. f_equal.
    clear. induction tok as [|d tok IH]; [reflexivity|].
    change (String d tok = String d (tok ++ "")). now rewrite <- IH.
  - cbn [all_chars] in H. apply andb_true_iff in H as [Hc Hw].
    apply negb_true_iff in Hc.
    change (String c w ++ s) with (String c (w ++ s)).
    cbn [split_go]. rewrite Hc, (IH _ Hw), append_assoc. reflexivity.
Qed.

Lemma split_go_spaces (sp s tok : string) :
  all_chars is_space sp = true → sp ≠ "" → tok ≠ "" →
  split_go (sp ++ s) tok = tok :: split_go s "".
Proof.
  intros Hsp Hne Htok.
  assert (G : ∀ sp, all_chars is_space sp = true →
                    split_go (sp ++ s) "" = split_go s "").
  { clear. induction sp as [|c sp IH]; intros H; [reflexivity|].
    cbn [all_chars] in H. apply andb_true_iff in H as [Hc Hs].
    change (String c sp ++ s) with (String c (sp ++ s)).
    cbn [split_go]. rewrite Hc. now apply IH. }
  destruct sp as [|c sp]; [contradiction|].
  cbn [all_chars] in Hsp. apply andb_true_iff in Hsp as [Hc Hs].
  change (String c sp ++ s) with (String c (sp ++ s)).
  cbn [split_go]. rewrite Hc. destruct tok; [contradiction|].
  now rewrite (G sp Hs).
Qed.

(** Words joined by a separator made of spaces are found again by
    [split]. *)
Lemma split_join (sep : string) (ws : list string) :
  all_chars is_space sep = true → sep ≠ "" →
  Forall (λ w, is_word w = true) ws →
  split (join sep ws) = ws.
Proof.
  intros Hsep Hne H. unfold split.
  induction H as [|w ws Hw Hws IH]; [reflexivity|].
  assert (Hw' : all_chars (λ c, negb (is_space c)) w = true ∧ w ≠ "").
  { destruct w; [discriminate|]. split; [exact Hw|discriminate]. }
  destruct Hw' as [Hchars Hnonempty].
  destruct ws as [|w2 ws].
  - cbn [join].
    assert (E : w ++ "" = w).
    { clear. induction w as [|c w IH]; [reflexivity|].
      change (String c (w ++ "") = String c w). now rewrite IH. }
    transitivity (split_go (w ++ "") ""); [now rewrite E|].
    rewrite (split_go_word w "" "" Hchars).
    change ("" ++ w) with w. cbn [split_go]. now destruct w.
  - change (join sep (w :: w2 :: ws)) with (w ++ sep ++ join sep (w2 :: ws)).
    rewrite (split_go_word _ _ _ Hchars). change ("" ++ w) with w.
    rewrite (split_go_spaces _ _ _ Hsep Hne Hnonempty). now rewrite IH.
Qed.

Lemma split_go_words (s tok : string) :
  all_chars (λ c, negb (is_space c)) tok = true →
  Forall (λ w, is_word w = true) (split_go s tok).
Proof.
  revert tok. induction s as [|c s IH]; intros tok Htok; cbn [split_go].
  - destruct tok; constructor; [exact Htok|constructor].
  - destruct (is_space c) eqn:Hc.
    + destruct tok; [now apply IH|].
      constructor; [exact Htok|now apply IH].
    + apply IH. rewrite all_chars_app, Htok. cbn. now rewrite Hc.
Qed.

(** What [split] returns are words. *)
Lemma split_words (s : string) : Forall (λ w, is_word w = true) (split s).
Proof. now apply split_go_words. Qed.

Lemma str_is_word (n : Z) : is_word (str n) = true.
Proof.
  pose proof (str_not_empty n) as Hne.
  pose proof (all_chars_impl _ _ _ sign_or_digit_no_space (str_chars n)) as H.
  unfold is_word. destruct (str n); [contradiction|exact H].
Qed.

Lemma str_inj (a b : Z) : str a = str b → a = b.
Proof.
  intros H. pose proof (int_str a) as Ha. rewrite H, int_str in Ha.
  now injection Ha.
Qed.

End SplitFacts.

Section LoopFacts.

Import Text RunLoop Doubling.

Lemma double_line_ok (line line' : string) (m : Z) :
  double_line line = Ok (line', m) →
  ∃ w0 w1 ws n, split line = w0 :: w1 :: ws ∧ int w1 = Some n
                ∧ m = (2 * n)%Z ∧ split line' = w0 :: str (2 * n) :: ws.
Proof.
  unfold double_line. pose proof (split_words line) as Hw.
  destruct (split line) as [|w0 [|w1 ws]]; try discriminate.
  destruct (int w1) as [n|] eqn:Hi; [|discriminate].
  cbn [or_raise mbind result_bind mret result_ret].
  intros H. injection H as <- <-. exists w0, w1, ws, n.
  replace (n * 2)%Z with (2 * n)%Z by lia.
  split; [reflexivity|]. split; [exact Hi|]. split; [reflexivity|].
  inversion Hw as [|? ? H0 Hrest]; subst.
  inversion Hrest as [|? ? H1 Hws]; subst.
  refine (split_join run_separator (w0 :: str (2 * n) :: ws) eq_refl _ _);
    [discriminate|].
  repeat constructor; [exact H0|apply str_is_word|exact Hws].
Qed.

(** X4.  When the doubling of the run lines returns, the lines are as many
    as before; each line without ['run'] is unchanged, and each line with
    ['run'] splits into the same words as before except for the second,
    which is the decimal form of twice its former value.  [new_nsteps]
    keeps its value when no line holds ['run']. *)
Theorem X4_double_run_lines_changes_only_step_counts (lines lines' : list string)
    (n0 n' : option Z) :
  double_run_lines lines n0 = Ok (lines', n') →
  Forall2 doubled lines lines'
  ∧ length lines' = length lines
  ∧ (Forall (λ l, contains "run" l = false) lines → lines' = lines ∧ n' = n0).
Proof.
  intros H.
  assert (F : Forall2 doubled lines lines'
              ∧ (Forall (λ l, contains "run" l = false) lines →
                 lines' = lines ∧ n' = n0)).
  { revert lines' n0 n' H.
    induction lines as [|line rest IH]; intros lines' n0 n' H.
    - cbn in H. injection H as <- <-. split; [constructor|done].
    - cbn [double_run_lines] in H.
      destruct (contains "run" line) eqn:Hc.
      + destruct (double_line line) as [[new_line n]|e] eqn:D;
          cbn [mbind result_bind] in H; [|discriminate].
        destruct (double_run_lines rest (Some n)) as [[rest' n'']|e] eqn:R;
          cbn [mbind result_bind mret result_ret] in H; [|discriminate].
        injection H as <- <-. destruct (IH _ _ _ R) as [IH1 _].
        split.
        * constructor; [|exact IH1]. right. split; [exact Hc|].
          destruct (double_line_ok _ _ _ D) as (w0 & w1 & ws & k & ? & ? & ? & ?).
          exists w0, w1, ws, k. auto.
        * intros Hall. inversion Hall; subst. congruence.
      + destruct (double_run_lines rest n0) as [[rest' n'']|e] eqn:R;
          cbn [mbind result_bind mret result_ret] in H; [|discriminate].
        injection H as <- <-. destruct (IH _ _ _ R) as [IH1 IH2].
        split.
        * constructor; [|exact IH1]. left. done.
        * intros Hall. inversion Hall; subst.
          destruct (IH2 ltac:(assumption)) as [-> ->]. done. }
  destruct F as [F1 F2]. split; [exact F1|]. split; [|exact F2].
  symmetry. exact (Forall2_length _ _ _ F1).
Qed.

(** X5.  A turn that is not accepted and whose input holds no line with
    ['run'] raises [UnboundLocalError] in the first such turn; in a later
    one it extends with the step count left from an earlier turn, without
    changing any line. *)
Theorem X5_no_run_line (header : list string) (timestep : float)
    (analysis : gmap string value) (st : loop_state) :
  accepted analysis = Ok false →
  Forall (λ l, contains "run" l = false) (new_input_data st) →
  decide header timestep analysis st
  = match new_nsteps st with
    | None => Raise (UnboundLocalError "new_nsteps")
    | Some n =>
        Ok (Extended
          {| history_nodes := history_nodes st;
             input_data := input_data st;
             new_input_data := new_input_data st;
             accum_dump := accum_dump st;
             last_snapshot := last_snapshot st;
             new_nsteps := Some n;
             time := (float_of_Z n * timestep)%float;
             iteration := (iteration st + 1)%Z;
             files := files st |})
    end.
Proof.
  intros Ha Hall. unfold decide. rewrite Ha. cbn [mbind result_bind].
  assert (D : double_run_lines (new_input_data st) (new_nsteps st)
              = Ok (new_input_data st, new_nsteps st)).
  { generalize (new_nsteps st). induction Hall as [|l ls Hl _ IH]; intros n;
      [reflexivity|].
    cbn [double_run_lines]. rewrite Hl, IH. reflexivity. }
  rewrite D. cbn [mbind result_bind]. now destruct (new_nsteps st).
Qed.

(** The name of the dump of a turn. *)
Lemma prepare_names (header : list string) (node_id : string)
    (timestep : float) (st st1 : loop_state) (curr_dump : string) :
  prepare header node_id timestep st = Ok (curr_dump, st1) →
  ∃ nsteps,
    round (time st / timestep) = Some nsteps
    ∧ curr_dump
      = ("lammps_substep_" ++ node_id ++ "_iter_" ++ str (iteration st))
          ++ ".dump." ++ str nsteps
    ∧ iteration st1 = iteration st
    ∧ history_nodes st1 = history_nodes st
    ∧ input_data st1 = input_data st
    ∧ files st1
      = <[("lammps_substep_" ++ node_id ++ "_iter_" ++ str (iteration st))
            ++ ".dat" :=
            join (String "010" "")
              (header ++ (("read_dump          " ++ accum_dump st ++ " "
                             ++ last_snapshot st ++ " x y z")%string
                            :: new_input_data st)
                 ++ [write_dump_line curr_dump])%list]> (files st).
Proof.
  unfold prepare. destruct (timestep =? 0)%float;
    cbn [mbind result_bind]; [discriminate|].
  destruct (round (time st / timestep)) as [nsteps|];
    cbn [or_raise mbind result_bind mret result_ret]; [|discriminate].
  intros H. injection H as <- <-. exists nsteps. cbn.
  rewrite !append_assoc. repeat split; reflexivity.
Qed.

(** X6.  The dump that a turn writes is named after the node, the
    iteration and the number of steps of the turn; the step count read
    back from that name (by [splitext] and [strip]) for the restart of the
    next turn is that number of steps, and the name carries it in the
    sense of the checkpoint resolution. *)
Theorem X6_dump_name_round_trip (header : list string) (node_id : string)
    (timestep : float) (st st1 : loop_state) (curr_dump : string) :
  prepare header node_id timestep st = Ok (curr_dump, st1) →
  ∃ nsteps,
    round (time st / timestep) = Some nsteps
    ∧ curr_dump
      = ("lammps_substep_" ++ node_id ++ "_iter_" ++ str (iteration st))
          ++ ".dump." ++ str nsteps
    ∧ Checkpoint.run_length curr_dump = Some nsteps
    ∧ ∀ t text,
        last_snapshot (after_run st st1 t curr_dump text) = str nsteps
        ∧ accum_dump (after_run st st1 t curr_dump text) = curr_dump.
Proof.
  intros H. destruct (prepare_names _ _ _ _ _ _ H) as (nsteps & Hr & Hd & _).
  exists nsteps. split; [exact Hr|]. split; [exact Hd|].
  destruct (run_length_of_dump_name
              ("lammps_substep_" ++ node_id ++ "_iter_" ++ str (iteration st))
              nsteps) as (_ & Hstrip & Hlen).
  rewrite <- Hd in Hstrip, Hlen. split; [exact Hlen|].
  intros t text. cbn [after_run last_snapshot accum_dump]. done.
Qed.

(** While the loop goes on, every key of [files] stays. *)
Lemma decide_files (header : list string) (timestep : float)
    (analysis : gmap string value) (st st' : loop_state) :
  decide header timestep analysis st = Ok (Extended st') →
  files st' = files st ∧ iteration st' = (iteration st + 1)%Z
  ∧ history_nodes st' = history_nodes st ∧ input_data st' = input_data st.
Proof.
  unfold decide. destruct (accepted analysis) as [[|]|]; cbn; try discriminate.
  destruct (double_run_lines _ _) as [[lines n]|]; cbn; [|discriminate].
  destruct n; cbn; [|discriminate].
  intros H. injection H as <-. done.
Qed.

(** X7.  As long as the loop has not been left, each turn has counted one
    iteration and has put its own input file into [files], under the name
    of the node and the number of the turn; the history and the pending
    input are untouched. *)
Theorem X7_one_input_file_per_turn (header : list string)
    (directory node_id : string) (timestep : float) (turns : list turn)
    (st st' : loop_state) :
  iterate header directory node_id timestep turns st = Ok (StillRunning st') →
  iteration st' = (iteration st + Z.of_nat (length turns))%Z
  ∧ history_nodes st' = history_nodes st
  ∧ input_data st' = input_data st
  ∧ ∀ k, (0 ≤ k < Z.of_nat (length turns))%Z →
      is_Some (files st' !! ("lammps_substep_" ++ node_id ++ "_iter_"
                               ++ str (iteration st + k) ++ ".dat")).
Proof.
  assert (G : ∀ turns st st',
    iterate header directory node_id timestep turns st
    = Ok (StillRunning st') →
    (∀ key, is_Some (files st !! key) → is_Some (files st' !! key))
    ∧ iteration st' = (iteration st + Z.of_nat (length turns))%Z
    ∧ history_nodes st' = history_nodes st
    ∧ input_data st' = input_data st
    ∧ ∀ k, (0 ≤ k < Z.of_nat (length turns))%Z →
        is_Some (files st' !! ("lammps_substep_" ++ node_id ++ "_iter_"
                                 ++ str (iteration st + k) ++ ".dat"))).
  { clear. induction turns as [|t turns IH]; intros st st' H.
    - cbn in H. injection H as <-. cbn [length]. repeat split; try done.
      + lia.
      + intros k Hk. lia.
    - cbn [iterate] in H.
      destruct (prepare header node_id timestep st) as [[curr_dump st1]|]
        eqn:P; cbn [mbind result_bind] in H; [|discriminate].
      destruct (accum_dump_text t) as [text|];
        cbn [or_raise mbind result_bind] in H; [|discriminate].
      destruct (exec_ok t); cbn [negb] in H; [|discriminate].
      destruct (read_dump_raised t); [discriminate|].
      destruct (decide _ _ _ _) as [[st3|st3]|] eqn:D;
        cbn [mbind result_bind] in H; try discriminate.
      destruct (prepare_names _ _ _ _ _ _ P)
        as (nsteps & _ & _ & Hi1 & Hh1 & Hd1 & Hf1).
      destruct (decide_files _ _ _ _ _ D) as (Hf3 & Hi3 & Hh3 & Hd3).
      cbn [after_run files iteration history_nodes input_data] in *.
      destruct (IH _ _ H) as (Hkeep & Hi & Hh & Hd & Hk).
      assert (Hmono : ∀ key, is_Some (files st !! key) →
                             is_Some (files st3 !! key)).
      { intros key Hkey. rewrite Hf3, Hf1.
        destruct (base.decide (accum_dump st = key)) as [->|N1];
          [rewrite lookup_insert_eq; eauto|].
        rewrite lookup_insert_ne by exact N1.
        match goal with
        | |- is_Some (<[?k := _]> _ !! _) =>
            destruct (base.decide (k = key)) as [->|N2];
              [rewrite lookup_insert_eq; eauto
              |rewrite lookup_insert_ne by exact N2; exact Hkey]
        end. }
      split; [intros key Hkey; apply Hkeep, Hmono, Hkey|].
      split; [rewrite Hi, Hi3, Hi1; cbn [length]; lia|].
      split; [congruence|]. split; [congruence|].
      intros k Hk'. destruct (base.decide (k = 0)) as [->|Hk0].
      + apply Hkeep. rewrite Hf3, Hf1, Z.add_0_r.
        match goal with
        | |- is_Some (<[?a := _]> (<[?k := _]> _) !! ?key) =>
            destruct (base.decide (a = key)) as [->|N1];
              [rewrite lookup_insert_eq; eauto|];
            rewrite lookup_insert_ne by exact N1
        end.
        rewrite <- !append_assoc. rewrite lookup_insert_eq. eauto.
      + specialize (Hk (k - 1)%Z ltac:(cbn [length] in Hk'; lia)).
        rewrite Hi3, Hi1 in Hk.
        now replace (iteration st + 1 + (k - 1))%Z
          with (iteration st + k)%Z in Hk by lia. }
  intros H. destruct (G _ _ _ H) as (_ & ? & ? & ? & ?). done.
Qed.

End LoopFacts.

Lemma X4_witness_first_doubling :
  Forall2 Doubling.doubled
    ["fix 1 all nve"; "run                 5000"]
    ["fix 1 all nve"; "run              10000"]
  ∧ length ["fix 1 all nve"; "run              10000"] = 2%nat.
Proof.
  destruct (X4_double_run_lines_changes_only_step_counts
              (RunLoop.new_input_data RunLoop.state0)
              ["fix 1 all nve"; "run              10000"]
              None (Some 10000%Z) eq_refl) as (F & L & _).
  split; [exact F|exact L].
Defined.

Lemma X5_witness_first_turn :
  RunLoop.decide ["units real"] 1%float RunLoop.analysis_Epe_short
    RunLoop.state_without_run
  = Raise (UnboundLocalError "new_nsteps").
Proof.
  apply (X5_no_run_line ["units real"] 1%float RunLoop.analysis_Epe_short
           RunLoop.state_without_run).
  - vm_compute. reflexivity.
  - repeat constructor.
Defined.

Lemma X6_witness_first_turn :
  ∃ st1,
    RunLoop.prepare ["units real"] "1" 1%float RunLoop.state0
    = Ok ("lammps_substep_1_iter_0.dump.5000", st1)
    ∧ Checkpoint.run_length "lammps_substep_1_iter_0.dump.5000"
      = Some 5000%Z
    ∧ RunLoop.last_snapshot
        (RunLoop.after_run RunLoop.state0 st1 RunLoop.turn_too_short
           "lammps_substep_1_iter_0.dump.5000" "ITEM: TIMESTEP")
      = "5000".
Proof.
  eexists. split; [vm_compute; reflexivity|].
  match goal with
  | |- context [RunLoop.after_run _ ?s _ _ _] =>
      destruct (X6_dump_name_round_trip ["units real"] "1" 1%float
                  RunLoop.state0 s "lammps_substep_1_iter_0.dump.5000"
                  ltac:(vm_compute; reflexivity))
        as (n & Hr & _ & Hl & Ha)
  end.
  assert (R : Py.round (RunLoop.time RunLoop.state0 / 1)%float = Some 5000%Z)
    by (vm_compute; reflexivity).
  rewrite R in Hr. apply (inj Some) in Hr. subst n.
  split; [exact Hl|]. exact (proj1 (Ha RunLoop.turn_too_short "ITEM: TIMESTEP")).
Defined.

Lemma X7_witness_one_turn :
  ∃ st',
    RunLoop.iterate ["units real"] "work" "1" 1%float
      [RunLoop.turn_too_short] RunLoop.state0
    = Ok (RunLoop.StillRunning st')
    ∧ RunLoop.iteration st' = 1%Z
    ∧ is_Some (RunLoop.files st' !! "lammps_substep_1_iter_0.dat").
Proof.
  eexists. split; [vm_compute; reflexivity|].
  match goal with
  | |- RunLoop.iteration ?s = _ ∧ _ =>
      destruct (X7_one_input_file_per_turn ["units real"] "work" "1" 1%float
                  [RunLoop.turn_too_short] RunLoop.state0 s
                  ltac:(vm_compute; reflexivity))
        as (Hi & _ & _ & Hk)
  end.
  split; [exact Hi|]. exact (Hk 0%Z ltac:(cbn; lia)).
Defined.

(** ** More on the box limits of the structure file *)

Section StrictOrder.

#[local] Open Scope float_scope.

Lemma SFltb_chain (x y m : spec_float) :
  SFltb x m = true → SFltb y m = false → SFltb y x = false.
Proof.
  unfold SFltb.
  destruct x as [sx|sx| |sx mx ex], y as [sy|sy| |sy my ey],
           m as [sm|sm| |sm mm em];
    try destruct sx; try destruct sy; try destruct sm; simpl;
    try discriminate; try reflexivity;
    change (Pos.compare_cont Eq ?a ?b) with (Pos.compare a b);
    try (destruct (Z.compare_spec ex em), (Z.compare_spec ey em),
                  (Z.compare_spec ey ex);
         simpl; try discriminate; try reflexivity; try lia; subst;
         destruct (Pos.compare_spec mx mm), (Pos.compare_spec my mm),
                  (Pos.compare_spec my mx);
         simpl; try discriminate; try reflexivity; lia).
Qed.

Lemma ltb_chain (x y m : float) :
  (x <? m) = true → (y <? m) = false → (y <? x) = false.
Proof. rewrite !ltb_spec. apply SFltb_chain. Qed.

Lemma ltb_irrefl (x : float) : (x <? x) = false.
Proof.
  rewrite ltb_spec. unfold SFltb.
  destruct (Prim2SF x) as [s|s| |s m e]; try destruct s; simpl;
    try reflexivity;
    change (Pos.compare_cont Eq ?a ?b) with (Pos.compare a b);
    rewrite Z.compare_refl, Pos.compare_refl; reflexivity.
Qed.

Lemma SFltb_trans (x y z : spec_float) :
  SFltb x y = true → SFltb y z = true → SFltb x z = true.
Proof.
  unfold SFltb.
  destruct x as [sx|sx| |sx mx ex], y as [sy|sy| |sy my ey],
           z as [sz|sz| |sz mz ez];
    try destruct sx; try destruct sy; try destruct sz; simpl;
    try discriminate; try reflexivity;
    change (Pos.compare_cont Eq ?a ?b) with (Pos.compare a b);
    destruct (Z.compare_spec ex ey), (Z.compare_spec ey ez),
             (Z.compare_spec ex ez);
    simpl; try discriminate; try reflexivity; try lia; subst;
    destruct (Pos.compare_spec mx my), (Pos.compare_spec my mz),
             (Pos.compare_spec mx mz);
    simpl; try discriminate; try reflexivity; lia.
Qed.

Lemma ltb_trans (x y z : float) :
  (x <? y) = true → (y <? z) = true → (x <? z) = true.
Proof. rewrite !ltb_spec. apply SFltb_trans. Qed.

(** The running minimum kept by [if x < lo then x else lo]: it is the
    start value or lies below it, and no element lies below it. *)
Lemma running_min (xs : list float) (lo0 : float) :
  let lo := fold_left (λ lo x, if x <? lo then x else lo) xs lo0 in
  (lo = lo0 ∨ (lo <? lo0) = true) ∧ Forall (λ x, (x <? lo) = false) xs.
Proof.
  revert lo0. induction xs as [|x xs IH]; intros lo0; cbn [fold_left].
  - split; [now left|constructor].
  - destruct (IH (if x <? lo0 then x else lo0)) as [H0 Hall].
    set (lo := fold_left _ xs _) in *.
    destruct (x <? lo0) eqn:E.
    + split.
      * right. destruct H0 as [->|H0]; [exact E|].
        exact (ltb_trans _ _ _ H0 E).
      * constructor; [|exact Hall].
        destruct H0 as [->|H0]; [apply ltb_irrefl|].
        exact (ltb_chain lo x x H0 (ltb_irrefl x)).
    + split; [exact H0|]. constructor; [|exact Hall].
      destruct H0 as [->|H0]; [exact E|].
      exact (ltb_chain lo x lo0 H0 E).
Qed.

End StrictOrder.

Section BoxFacts.

Import Structure.
#[local] Open Scope float_scope.

Variable cos : float → float.

(** The lower bounds of the extent are running minima of the
    coordinates. *)
Lemma extent_lo (atoms : list (float * float * float * Z))
    (xlo0 xhi0 ylo0 yhi0 zlo0 zhi0 xlo xhi ylo yhi zlo zhi : float) :
  fold_left extent_step atoms (xlo0, xhi0, ylo0, yhi0, zlo0, zhi0)
  = (xlo, xhi, ylo, yhi, zlo, zhi) →
  xlo = fold_left (λ lo x, if x <? lo then x else lo)
          (map (λ a, a.1.1.1) atoms) xlo0
  ∧ ylo = fold_left (λ lo x, if x <? lo then x else lo)
            (map (λ a, a.1.1.2) atoms) ylo0
  ∧ zlo = fold_left (λ lo x, if x <? lo then x else lo)
            (map (λ a, a.1.2) atoms) zlo0.
Proof.
  revert xlo0 xhi0 ylo0 yhi0 zlo0 zhi0.
  induction atoms as [|[[[x y] z] i] atoms IH];
    intros xlo0 xhi0 ylo0 yhi0 zlo0 zhi0 H.
  - cbn in H. injection H as <- <- <- <- <- <-. done.
  - cbn [fold_left map extent_step fst snd] in *. exact (IH _ _ _ _ _ _ H).
Qed.

(** Each upper bound is the coordinate of the atom listed last, or the
    lower bound. *)
Lemma extent_hi (atoms : list (float * float * float * Z))
    (x y z : float) (i : Z) (acc : float * float * float * float * float * float)
    (xlo xhi ylo yhi zlo zhi : float) :
  fold_left extent_step (atoms ++ [(x, y, z, i)])%list acc
  = (xlo, xhi, ylo, yhi, zlo, zhi) →
  (xhi = x ∨ xhi = xlo) ∧ (yhi = y ∨ yhi = ylo) ∧ (zhi = z ∨ zhi = zlo).
Proof.
  rewrite fold_left_app. cbn [fold_left].
  destruct (fold_left extent_step atoms acc)
    as [[[[[xlo1 xhi1] ylo1] yhi1] zlo1] zhi1].
  cbn [extent_step]. intros H. injection H as <- <- <- <- <- <-.
  destruct (xhi1 <? x), (yhi1 <? y), (zhi1 <? z); auto.
Qed.

(** X8.  For an energy expression that is not 3-periodic the box is the
    extent of the atoms with a margin of 10 on each side, whatever
    [triclinic] is; no atom lies below a lower bound of the extent.  With
    no atom at all [IndexError] is raised. *)
Theorem X8_box_of_a_molecule_starts_below_every_atom (e : eex)
    (triclinic : bool) :
  periodicity e ≠ 3%Z →
  (atoms e = [] →
   box_limits cos e triclinic = Raise (IndexError "list index out of range"))
  ∧ (atoms e ≠ [] →
     ∃ xlo xhi ylo yhi zlo zhi,
       extent (atoms e) = Some (xlo, xhi, ylo, yhi, zlo, zhi)
       ∧ box_limits cos e triclinic
         = Ok [Bounds (xlo - 10.0) (xhi + 10.0) "xlo xhi";
               Bounds (ylo - 10.0) (yhi + 10.0) "ylo yhi";
               Bounds (zlo - 10.0) (zhi + 10.0) "zlo zhi"]
       ∧ Forall (λ a, (a.1.1.1 <? xlo) = false ∧ (a.1.1.2 <? ylo) = false
                      ∧ (a.1.2 <? zlo) = false) (atoms e)).
Proof.
  intros Hp. unfold box_limits.
  destruct (Z.eqb_spec (periodicity e) 3); [contradiction|].
  split.
  - intros ->. reflexivity.
  - intros Hne. destruct (atoms e) as [|[[[x y] z] i] rest] eqn:A;
      [contradiction|].
    cbn [lookup list_lookup or_raise mbind result_bind extent].
    destruct (fold_left extent_step _ _)
      as [[[[[xlo xhi] ylo] yhi] zlo] zhi] eqn:F.
    exists xlo, xhi, ylo, yhi, zlo, zhi.
    split; [reflexivity|]. split; [reflexivity|].
    destruct (extent_lo _ _ _ _ _ _ _ _ _ _ _ _ _ F) as (Hx & Hy & Hz).
    pose proof (running_min (map (λ a, a.1.1.1) ((x, y, z, i) :: rest)) x)
      as [_ Rx].
    pose proof (running_min (map (λ a, a.1.1.2) ((x, y, z, i) :: rest)) y)
      as [_ Ry].
    pose proof (running_min (map (λ a, a.1.2) ((x, y, z, i) :: rest)) z)
      as [_ Rz].
    rewrite <- Hx in Rx. rewrite <- Hy in Ry. rewrite <- Hz in Rz.
    rewrite Forall_map in Rx, Ry, Rz.
    rewrite Forall_forall in Rx, Ry, Rz |- *.
    intros a Ha. auto.
Qed.

(** X9.  In that box each upper bound, before the margin, is the
    coordinate of the atom listed last or the lower bound: it is not the
    largest coordinate in general, so atoms can lie above the box. *)
Theorem X9_box_of_a_molecule_ends_at_last_atom_or_start
    (before : list (float * float * float * Z)) (x y z : float) (i : Z)
    (xlo xhi ylo yhi zlo zhi : float) :
  extent (before ++ [(x, y, z, i)])%list
  = Some (xlo, xhi, ylo, yhi, zlo, zhi) →
  (xhi = x ∨ xhi = xlo) ∧ (yhi = y ∨ yhi = ylo) ∧ (zhi = z ∨ zhi = zlo).
Proof.
  destruct before as [|[[[x0 y0] z0] i0] l]; cbn [app extent]; intros H.
  - apply (inj Some) in H. exact (extent_hi [] x y z i _ _ _ _ _ _ _ H).
  - apply (inj Some) in H.
    exact (extent_hi ((x0, y0, z0, i0) :: l) x y z i _ _ _ _ _ _ _ H).
Qed.

(** X10.  For a 3-periodic cell whose three tilt factors are all negative
    or zero no tilt line is written unless [triclinic] is set: only a
    positive tilt factor makes the box triclinic. *)
Theorem X10_negative_tilt_is_not_written (e : eex)
    (a b c alpha beta gamma : float) :
  periodicity e = 3%Z →
  cell e = Some (a, b, c, alpha, beta, gamma) →
  let box := Cell.cell_to_box cos a b c alpha beta gamma in
  (0 <? Cell.box_xy box) = false →
  (0 <? Cell.box_xz box) = false →
  (0 <? Cell.box_yz box) = false →
  box_limits cos e false
  = Ok [Bounds 0 (Cell.box_lx box) "xlo xhi";
        Bounds 0 (Cell.box_ly box) "ylo yhi";
        Bounds 0 (Cell.box_lz box) "zlo zhi"].
Proof.
  intros Hp Hc box Hxy Hxz Hyz. unfold box_limits. rewrite Hp, Hc.
  change (3 =? 3)%Z with true. cbv iota.
  cbn [or_raise mbind result_bind]. fold box.
  destruct box as [[[[[lx ly] lz] xy] xz] yz].
  cbn [Cell.box_xy Cell.box_xz Cell.box_yz Cell.box_lx Cell.box_ly
       Cell.box_lz] in *.
  destruct (1.0e-06 <? abs xy) eqn:T.
  - rewrite T, Hxy, Hxz, Hyz. reflexivity.
  - change (1.0e-06 <? abs 0)%float with false. cbv iota.
    change (0 <? 0)%float with false. reflexivity.
Qed.

End BoxFacts.

Lemma X8_witness_row_of_atoms :
  Structure.box_limits Cell.cos_series Structure.row_of_atoms false
  = Ok [Structure.Bounds (-10) 10 "xlo xhi";
        Structure.Bounds (-10) 10 "ylo yhi";
        Structure.Bounds (-10) 10 "zlo zhi"]%float.
Proof.
  destruct (X8_box_of_a_molecule_starts_below_every_atom Cell.cos_series
              Structure.row_of_atoms false ltac:(discriminate)) as [_ H].
  destruct (H ltac:(discriminate))
    as (xlo & xhi & ylo & yhi & zlo & zhi & E & B & _).
  vm_compute in E. injection E as <- <- <- <- <- <-. exact B.
Defined.

(** The atom at 100 is listed second, the one at 50 last: the box ends at
    the lower bound 0 (plus the margin), below both. *)
Lemma X9_witness_row_of_atoms :
  Structure.extent (Structure.atoms Structure.row_of_atoms)
  = Some (0, 0, 0, 0, 0, 0)%float
  ∧ (0 = 50 ∨ 0 = 0)%float ∧ (0 = 0 ∨ 0 = 0)%float ∧ (0 = 0 ∨ 0 = 0)%float.
Proof.
  split; [vm_compute; reflexivity|].
  exact (X9_box_of_a_molecule_ends_at_last_atom_or_start
           [(0, 0, 0, 1%Z); (100, 0, 0, 1%Z)]%float 50 0 0 1
           0 0 0 0 0 0 eq_refl).
Defined.

(** A cell with three obtuse angles has three negative tilt factors, and
    no tilt line. *)
Lemma X10_witness_rhombohedral :
  Structure.box_limits Cell.cos_series Structure.rhombohedral false
  = Ok [Structure.Bounds 0 0 "xlo xhi";
        Structure.Bounds 0 (Cell.box_ly
          (Cell.cell_to_box Cell.cos_series 10 10 10 100 100 100))
          "ylo yhi";
        Structure.Bounds 0 (Cell.box_lz
          (Cell.cell_to_box Cell.cos_series 10 10 10 100 100 100))
          "zlo zhi"]%float
  ∧ (Cell.box_xy (Cell.cell_to_box Cell.cos_series 10 10 10 100 100 100)
     <? -1.7)%float = true
  ∧ (Cell.box_xz (Cell.cell_to_box Cell.cos_series 10 10 10 100 100 100)
     <? -1.7)%float = true
  ∧ (Cell.box_yz (Cell.cell_to_box Cell.cos_series 10 10 10 100 100 100)
     <? -2)%float = true.
Proof.
  split; [|repeat split; vm_compute; reflexivity].
  exact (X10_negative_tilt_is_not_written Cell.cos_series
           Structure.rhombohedral 10 10 10 100 100 100 eq_refl eq_refl
           eq_refl eq_refl eq_refl).
Defined.

(** ** More on the dump reader *)

Section DumpEdges.

Import Dump.

Variable acos : float → float.
Variable float_of_str : string → option float.

Lemma read_lines_raise (d : string) (n : Z) (rd : reader) (l : string)
    (rest : list string) (e : exn) :
  Dump.read_line acos float_of_str d n rd l = Raise e →
  Dump.read_lines acos float_of_str d n rd (l :: rest) = Raise e.
Proof. intros H. cbn [Dump.read_lines]. now rewrite H. Qed.

(** X11.  A file whose first line, once stripped, does not start with
    ['ITEM:'] is refused with a [RuntimeError] whose message holds the
    path of the file and the line, whatever follows the line; the system
    is left as it was. *)
Theorem X11_first_line_must_open_a_section (s : system) (d line : string)
    (rest : list string) :
  is_item line = false →
  Dump.read_dump acos float_of_str s d (line :: rest)
  = (s, Some (RuntimeError
                ("Error reading dump file '" ++ d
                   ++ "': The first line is incorrect! (" ++ strip line
                   ++ ")"))).
Proof.
  intros H. unfold Dump.read_dump, Dump.parse.
  rewrite (read_lines_raise d _ reader0 line rest
             (first_line_incorrect d (strip line))); [reflexivity|].
  unfold Dump.read_line, is_item in *. cbn [lineno reader0].
  change (0 + 1 =? 1)%Z with true. cbv iota. now rewrite H.
Qed.

(** X12.  A file without a box section (an empty file, or one that holds
    only the atoms section) cannot be read into a 3-periodic system: the
    cell is unbound and [UnboundLocalError] is raised, the system being
    left as it was.  Into any other system it is read, and the
    coordinates become those of the file: none for the empty file. *)
Theorem X12_dump_without_box (s : system) (d : string)
    (atom_lines : list string) (ps : list xyz_t) :
  Forall2 (atom_line float_of_str) atom_lines ps →
  let read := Dump.read_dump acos float_of_str s d in
  let kept := {| periodicity := periodicity s; elements := elements s;
                 coordinates := ps; cell := cell s |} in
  let emptied := {| periodicity := periodicity s; elements := elements s;
                    coordinates := []; cell := cell s |} in
  (periodicity s = 3%Z →
   read [] = (s, Some (UnboundLocalError "cell"))
   ∧ read (item_atoms :: atom_lines) = (s, Some (UnboundLocalError "cell")))
  ∧ (periodicity s ≠ 3%Z →
     read [] = (emptied, None)
     ∧ read (item_atoms :: atom_lines) = (kept, None)).
Proof.
  intros Hat read kept emptied.
  assert (P0 : Dump.parse acos float_of_str d
                 (Z.of_nat (length (elements s))) [] = Ok reader0)
    by reflexivity.
  assert (P1 : Dump.parse acos float_of_str d
                 (Z.of_nat (length (elements s))) (item_atoms :: atom_lines)
               = Ok {| lineno := 1 + Z.of_nat (length atom_lines);
                       section := "ATOMS id xu yu zu";
                       section_lines := map strip atom_lines;
                       xyz := ps; rd_cell := None |}).
  { unfold Dump.parse. cbn [Dump.read_lines].
    rewrite read_line_first by reflexivity. rewrite bind_Ok.
    rewrite read_lines_data
      by (cbn; first [lia|exact (atom_lines_no_item _ _ _ Hat)]).
    rewrite bind_Ok.
    cbn [lineno section section_lines xyz rd_cell app].
    change (contains "ATOMS" (section_of item_atoms)) with true. cbv iota.
    rewrite (read_atoms_ok _ _ _ [] Hat). reflexivity. }
  subst read. unfold Dump.read_dump. rewrite P0, P1, !bind_Ok.
  unfold update. cbn [rd_cell xyz reader0].
  split; intros Hp.
  - rewrite Hp. change (3 =? 3)%Z with true. cbn. done.
  - destruct (Z.eqb_spec (periodicity s) 3); [contradiction|]. cbn. done.
Qed.

End DumpEdges.

Lemma X11_witness_garbage :
  Dump.read_dump Cell.acos_series Dump.float_of_int_literal (Dump.water 3)
    "run/md.dump" ["LAMMPS data file"; "ITEM: TIMESTEP"]
  = (Dump.water 3,
     Some (RuntimeError
       ("Error reading dump file 'run/md.dump': "
          ++ "The first line is incorrect! (LAMMPS data file)"))).
Proof.
  exact (X11_first_line_must_open_a_section Cell.acos_series
           Dump.float_of_int_literal (Dump.water 3) "run/md.dump"
           "LAMMPS data file" ["ITEM: TIMESTEP"] eq_refl).
Defined.

Lemma X12_witness_atoms_only :
  Dump.read_dump Cell.acos_series Dump.float_of_int_literal (Dump.water 3)
    "md.dump" [] = (Dump.water 3, Some (UnboundLocalError "cell"))
  ∧ Dump.read_dump Cell.acos_series Dump.float_of_int_literal (Dump.water 0)
      "md.dump" []
    = ({| Dump.periodicity := 0; Dump.elements := ["O"; "H"; "H"];
          Dump.coordinates := [];
          Dump.cell := Some (20, 20, 20, 90, 90, 90)%float |}, None)
  ∧ Dump.read_dump Cell.acos_series Dump.float_of_int_literal (Dump.water 0)
      "md.dump" [Dump.item_atoms; "1 1 2 3" ++ Dump.nl]
    = ({| Dump.periodicity := 0; Dump.elements := ["O"; "H"; "H"];
          Dump.coordinates := [(1, 2, 3)%float];
          Dump.cell := Some (20, 20, 20, 90, 90, 90)%float |}, None).
Proof.
  assert (A : Forall2 (Dump.atom_line Dump.float_of_int_literal)
                ["1 1 2 3" ++ Dump.nl] [(1, 2, 3)%float]).
  { repeat constructor. eexists _, _, _, _.
    split; [vm_compute; reflexivity|]. repeat split; reflexivity. }
  pose proof (X12_dump_without_box Cell.acos_series
                Dump.float_of_int_literal (Dump.water 3) "md.dump" _ _ A)
    as H3.
  pose proof (X12_dump_without_box Cell.acos_series
                Dump.float_of_int_literal (Dump.water 0) "md.dump" _ _ A)
    as H0.
  cbv zeta in H3, H0.
  destruct H3 as [H3 _]. destruct (H3 eq_refl) as [H3a _].
  destruct H0 as [_ H0]. destruct (H0 ltac:(discriminate)) as [H0a H0b].
  split; [exact H3a|]. split; [exact H0a|exact H0b].
Defined.

(** ** The whole analysis of a trajectory file *)

Section WholeAnalysis.

Import Analyzer.

Variable detectEquilibration : list float → nat * float * float.
Variable subsampleCorrelatedData : list float → float → list nat.
Variables np_mean np_std : list float → float.


Ltac listed :=
  repeat first [apply list_elem_of_here | apply list_elem_of_further].

Lemma append_empty_r (s : string) : s ++ "" = s.
Proof.
  induction s as [|a s IH]; [reflexivity|].
  change (String a (s ++ "") = String a s). now rewrite IH.
Qed.

Lemma titled_spec (c t : string) :
  display_title !! c = Some t → c ∈ titled.
Proof.
  intros H. apply elem_of_list_to_map_2 in H. unfold titled.
  repeat (apply elem_of_cons in H as [H|H];
          [injection H as -> _; listed|]).
  inversion H.
Qed.

(** The marks of a row and the flags go together. *)
Lemma acf_stage_mark (column : string) (g : float) (y : list float)
    (ha haw : bool) (aw : string) (calls : list (string * acf_call)) :
  acf_stage column g y false = Ok (ha, haw, aw, calls) →
  haw = bool_decide (aw = "^").
Proof.
  unfold acf_stage. destruct (_ <? _)%Z.
  - intros H. injection H as <- <- <- <-. reflexivity.
  - destruct (acf_lags _ _); cbn; [|discriminate].
    intros H. injection H as <- <- <- <-. reflexivity.
Qed.

(** What one turn of the loop over the columns does to the results, to
    what is written and to the flags. *)
Lemma column_body_inv (dt_fs : float) (st st' : state) (c : string)
    (yy : list float) (f : bool * bool) :
  column_body detectEquilibration subsampleCorrelatedData
       np_mean np_std dt_fs st c yy = Ok (st', f) →
  (skipped detectEquilibration subsampleCorrelatedData yy = true ∧ results st' = results st ∧ f = (false, false))
  ∨ (skipped detectEquilibration subsampleCorrelatedData yy = false ∧ c ∈ titled
     ∧ (∀ key, is_Some (results st' !! key) →
               is_Some (results st !! key)
               ∨ ∃ e, e ∈ key_endings ∧ key = c ++ e)
     ∧ ∃ r, written st' = (written st ++ [Row r])%list ∧ rep_column r = c
            ∧ f = (bool_decide (rep_warn r = "*"),
                   bool_decide (rep_acf r = "^"))).
Proof.
  unfold Analyzer.column_body, Analyzer.skipped.
  destruct (detectEquilibration yy) as [[conv g] N].
  destruct (length _ =? 0)%nat eqn:E.
  - intros H. injection H as <- <-. left. done.
  - destruct (mapM _ _) as [y_n|]; cbn [or_raise mbind result_bind];
      [|discriminate].
    destruct (acf_stage _ _ _ _) as [[[[ha haw] aw] calls]|] eqn:A;
      cbn [mbind result_bind]; [|discriminate].
    apply acf_stage_mark in A.
    destruct (conv_units _) as [cu tc]. destruct (tau_units _) as [tu tt].
    destruct (display_title !! c) as [title|] eqn:T;
      cbn [or_raise mbind result_bind mret result_ret].
    2:{ destruct (_ <? _)%Z; discriminate. }
    apply titled_spec in T.
    intros H. right. split; [reflexivity|]. split; [exact T|].
    assert (K : ∀ (b : bool) (m : gmap string value) key,
      is_Some ((<[c ++ ",few_neff_warning" := VBool b]>
                (<[c ++ ",short_production_warning" := VBool haw]>
                (<[c ++ ",n_sample" := VInt (Z.of_nat (length y_n))]>
                (<[c ++ ",stderr" :=
                     VFloat (np_std y_n
                             / sqrt (float_of_Z (Z.of_nat (length y_n))))]>
                (<[c := VFloat (np_mean y_n)]> m))))) !! key) →
      is_Some (m !! key) ∨ ∃ e, e ∈ key_endings ∧ key = c ++ e).
    { intros b m key Hk. unfold key_endings.
      destruct (base.decide (c ++ ",few_neff_warning" = key)) as [<-|N1];
        [right; eexists; split; [|reflexivity]; listed|].
      rewrite lookup_insert_ne in Hk by exact N1.
      destruct (base.decide (c ++ ",short_production_warning" = key))
        as [<-|N2]; [right; eexists; split; [|reflexivity]; listed|].
      rewrite lookup_insert_ne in Hk by exact N2.
      destruct (base.decide (c ++ ",n_sample" = key)) as [<-|N3];
        [right; eexists; split; [|reflexivity]; listed|].
      rewrite lookup_insert_ne in Hk by exact N3.
      destruct (base.decide (c ++ ",stderr" = key)) as [<-|N4];
        [right; eexists; split; [|reflexivity]; listed|].
      rewrite lookup_insert_ne in Hk by exact N4.
      destruct (base.decide (c = key)) as [<-|N5].
      - right. exists "". split; [listed|].
        symmetry. apply append_empty_r.
      - rewrite lookup_insert_ne in Hk by exact N5. left. exact Hk. }
    destruct (_ <? _)%Z; injection H as <- <-; cbn [results written].
    + split; [apply K|]. eexists. split; [reflexivity|].
      split; [reflexivity|]. cbn. now rewrite A.
    + split; [apply K|]. eexists. split; [reflexivity|].
      split; [reflexivity|]. cbn. now rewrite A.
Qed.

(** The invariant of the loop over the columns. *)
Lemma columns_loop_inv (dt_fs : float)
    (cols : list (string * list float)) :
  ∀ (st st' : state) (fl fl' : option (bool * bool)),
  columns_loop detectEquilibration subsampleCorrelatedData
       np_mean np_std dt_fs st fl cols = Ok (st', fl') →
  (∀ key, is_Some (results st' !! key) →
          is_Some (results st !! key)
          ∨ ∃ c yy e, (c, yy) ∈ cols ∧ skipped detectEquilibration subsampleCorrelatedData yy = false
                      ∧ e ∈ key_endings ∧ key = c ++ e)
  ∧ (∀ c yy, (c, yy) ∈ cols → skipped detectEquilibration subsampleCorrelatedData yy = false → c ∈ titled)
  ∧ match last cols with
    | None => fl' = fl
    | Some (c, yy) =>
        if skipped detectEquilibration subsampleCorrelatedData yy then fl' = Some (false, false)
        else ∃ r, last (written st') = Some (Row r) ∧ rep_column r = c
                  ∧ fl' = Some (bool_decide (rep_warn r = "*"),
                                bool_decide (rep_acf r = "^"))
    end.
Proof.
  induction cols as [|[c yy] rest IH]; intros st st' fl fl' H.
  - cbn in H. injection H as <- <-. split; [auto|].
    split; [intros ? ? Hin; inversion Hin|reflexivity].
  - cbn [Analyzer.columns_loop] in H.
    destruct (column_body detectEquilibration subsampleCorrelatedData
       np_mean np_std dt_fs st c yy) as [[st1 f]|] eqn:B;
      cbn [mbind result_bind] in H; [|discriminate].
    destruct (IH _ _ _ _ H) as (Hkeys & Htitled & Hlast).
    pose proof (column_body_inv _ _ _ _ _ _ B) as Hb.
    split; [|split].
    + intros key Hk. destruct (Hkeys key Hk) as [Hk1|(c' & yy' & e & Hin & ?)].
      * destruct Hb as [(_ & Hr & _)|(Hs & _ & Hk2 & _)].
        -- left. now rewrite <- Hr.
        -- destruct (Hk2 key Hk1) as [?|(e & He & ->)]; [now left|].
           right. exists c, yy, e. split; [left|done].
      * right. exists c', yy', e. split; [now right|done].
    + intros c' yy' Hin Hs. apply elem_of_cons in Hin as [Heq|Hin].
      * injection Heq as -> ->.
        destruct Hb as [(Hs' & _)|(_ & Ht & _)]; [congruence|exact Ht].
      * exact (Htitled _ _ Hin Hs).
    + destruct rest as [|p rest'].
      * cbn [last] in Hlast |- *. cbn in H. injection H as <- <-.
        destruct Hb as [(Hs & _ & ->)|(Hs & _ & _ & r & Hw & Hc & ->)];
          rewrite Hs; [reflexivity|].
        exists r. rewrite Hw, last_snoc. done.
      * rewrite last_cons_cons.
        destruct (last (p :: rest')) as [[c' yy']|] eqn:El; [exact Hlast|].
        apply last_None in El. discriminate.
Qed.

(** The only titled property whose keys include the one that the
    acceptance test reads first is the potential energy. *)
Lemma key_owner (c e : string) :
  c ∈ titled → e ∈ key_endings →
  "Epe,short_production_warning" = c ++ e → c = "Epe".
Proof.
  unfold titled, key_endings. intros Hc He.
  repeat (apply elem_of_cons in Hc as [->|Hc]);
    try (now inversion Hc);
    repeat (apply elem_of_cons in He as [->|He]);
    try (now inversion He);
    intros H; vm_compute in H; first [discriminate|reflexivity].
Qed.

(** X13.  When the analysis of a file returns, every analysed column of
    which a sample survived bears one of the twelve names that have a
    display title: no result is ever returned for another property. *)
Theorem X13_every_analysed_property_has_a_title (data : table)
    (res : gmap string value) (w : list output) (l : list legend) :
  analyze_file detectEquilibration subsampleCorrelatedData
    np_mean np_std data = Ok (res, w, l) →
  ∀ c yy, (c, yy) ∈ tail (columns data) → skipped detectEquilibration subsampleCorrelatedData yy = false →
    c ∈ ["T"; "P"; "t"; "density"; "a"; "b"; "c"; "Etot"; "Eke"; "Epe";
         "Emol"; "Epair"].
Proof.
  unfold Analyzer.analyze_file. intros H.
  destruct (index data !! 1%nat); cbn [or_raise mbind result_bind] in H;
    [|discriminate].
  destruct (index data !! 0%nat); cbn [or_raise mbind result_bind] in H;
    [|discriminate].
  destruct (columns_loop detectEquilibration subsampleCorrelatedData
       np_mean np_std _ _ _ _) as [[st fl]|] eqn:L;
    cbn [mbind result_bind] in H; [|discriminate].
  destruct (columns_loop_inv _ _ _ _ _ _ L) as (_ & Ht & _). exact Ht.
Qed.

(** X14.  When no column after the first is named ['Epe'], or no sample
    of it survives, the results of the analysis have no entry for it, and
    the acceptance test of the run loop raises [KeyError] on the first key
    it reads, in whatever state the loop is. *)
Theorem X14_no_potential_energy_no_decision (data : table)
    (res : gmap string value) (w : list output) (l : list legend) :
  analyze_file detectEquilibration subsampleCorrelatedData
    np_mean np_std data = Ok (res, w, l) →
  (∀ yy, ("Epe", yy) ∈ tail (columns data) → skipped detectEquilibration subsampleCorrelatedData yy = true) →
  ∀ header timestep st,
    RunLoop.decide header timestep res st
    = Raise (KeyError "Epe,short_production_warning").
Proof.
  unfold Analyzer.analyze_file. intros H Hepe header timestep st0.
  destruct (index data !! 1%nat); cbn [or_raise mbind result_bind] in H;
    [|discriminate].
  destruct (index data !! 0%nat); cbn [or_raise mbind result_bind] in H;
    [|discriminate].
  destruct (columns_loop detectEquilibration subsampleCorrelatedData
       np_mean np_std _ _ _ _) as [[st fl]|] eqn:L;
    cbn [mbind result_bind] in H; [|discriminate].
  destruct fl as [[hw haw]|]; cbn [or_raise mbind result_bind] in H;
    [|discriminate].
  injection H as <- _ _.
  destruct (columns_loop_inv _ _ _ _ _ _ L) as (Hk & Ht & _).
  assert (N : results st !! "Epe,short_production_warning" = None).
  { destruct (results st !! "Epe,short_production_warning") eqn:E;
      [|reflexivity].
    destruct (Hk "Epe,short_production_warning") as
      [[? He]|(c & yy & e & Hin & Hs & He & Heq)].
    - rewrite E. eauto.
    - cbn in He. rewrite lookup_empty in He. discriminate.
    - pose proof (key_owner c e (Ht _ _ Hin Hs) He Heq) as ->.
      rewrite (Hepe _ Hin) in Hs. discriminate. }
  unfold RunLoop.decide, RunLoop.accepted, RunLoop.getitem. rewrite N.
  reflexivity.
Qed.

(** X15.  The legends under the table are chosen by the last column
    alone.  Without a column after the first, [have_warning] is unbound
    and [UnboundLocalError] is raised.  Otherwise, when the analysis
    returns: if no sample of the last column survived, no legend is
    printed, whatever marks the rows above carry; if not, the last line
    written is the row of that column, and the legends are those of the
    marks of this row. *)
Theorem X15_legends_follow_the_last_column (data : table) :
  (tail (columns data) = [] → (2 ≤ length (index data))%nat →
   analyze_file detectEquilibration subsampleCorrelatedData
    np_mean np_std data = Raise (UnboundLocalError "have_warning"))
  ∧ ∀ res w l,
      analyze_file detectEquilibration subsampleCorrelatedData
    np_mean np_std data = Ok (res, w, l) →
      ∃ c yy, last (tail (columns data)) = Some (c, yy)
        ∧ if skipped detectEquilibration subsampleCorrelatedData yy then l = []
          else ∃ r, last w = Some (Row r) ∧ rep_column r = c
                 ∧ l = legends (bool_decide (rep_warn r = "*"))
                               (bool_decide (rep_acf r = "^")).
Proof.
  split.
  - intros Hnil Hlen. unfold Analyzer.analyze_file. rewrite Hnil.
    destruct (index data) as [|t0 [|t1 ts]]; cbn in Hlen; try lia.
    reflexivity.
  - intros res w l. unfold Analyzer.analyze_file. intros H.
    destruct (index data !! 1%nat); cbn [or_raise mbind result_bind] in H;
      [|discriminate].
    destruct (index data !! 0%nat); cbn [or_raise mbind result_bind] in H;
      [|discriminate].
    destruct (columns_loop detectEquilibration subsampleCorrelatedData
       np_mean np_std _ _ _ _) as [[st fl]|] eqn:L;
      cbn [mbind result_bind] in H; [|discriminate].
    destruct fl as [[hw haw]|]; cbn [or_raise mbind result_bind] in H;
      [|discriminate].
    injection H as <- <- <-.
    destruct (columns_loop_inv _ _ _ _ _ _ L) as (_ & _ & Hl).
    destruct (last (tail (columns data))) as [[c yy]|]; [|discriminate].
    exists c, yy. split; [reflexivity|].
    destruct (skipped detectEquilibration subsampleCorrelatedData yy).
    + injection Hl as -> ->. reflexivity.
    + destruct Hl as (r & Hw & Hc & Hf). injection Hf as -> ->.
      exists r. done.
Qed.

End WholeAnalysis.

(** A call that does not raise returns a value. *)
Lemma is_ok_returns {A} (r : result A) : is_ok r = true → ∃ x, r = Ok x.
Proof. destruct r as [x|e]; [eauto|discriminate]. Qed.

Lemma X13_witness_temperature_and_pressure :
  ∃ res w l,
    Analyzer.analyze_file Analyzer.keep_all Analyzer.every_second
      Analyzer.first_or_zero Analyzer.first_or_zero Analyzer.trajectory_T_P
    = Ok (res, w, l)
    ∧ "P" ∈ ["T"; "P"; "t"; "density"; "a"; "b"; "c"; "Etot"; "Eke"; "Epe";
             "Emol"; "Epair"].
Proof.
  destruct (is_ok_returns
              (Analyzer.analyze_file Analyzer.keep_all Analyzer.every_second
                 Analyzer.first_or_zero Analyzer.first_or_zero
                 Analyzer.trajectory_T_P))
    as [[[res w] l] E]; [vm_compute; reflexivity|].
  exists res, w, l. split; [exact E|].
  refine (X13_every_analysed_property_has_a_title Analyzer.keep_all
            Analyzer.every_second Analyzer.first_or_zero
            Analyzer.first_or_zero Analyzer.trajectory_T_P res w l E
            "P" Analyzer.short_series _ _).
  - apply list_elem_of_further, list_elem_of_here.
  - vm_compute. reflexivity.
Defined.

Lemma X14_witness_potential_energy_first :
  ∃ res w l,
    Analyzer.analyze_file Analyzer.keep_all Analyzer.every_second
      Analyzer.first_or_zero Analyzer.first_or_zero
      Analyzer.trajectory_Epe_first
    = Ok (res, w, l)
    ∧ RunLoop.decide ["units real"] 1%float res RunLoop.state0
      = Raise (KeyError "Epe,short_production_warning").
Proof.
  destruct (is_ok_returns
              (Analyzer.analyze_file Analyzer.keep_all Analyzer.every_second
                 Analyzer.first_or_zero Analyzer.first_or_zero
                 Analyzer.trajectory_Epe_first))
    as [[[res w] l] E]; [vm_compute; reflexivity|].
  exists res, w, l. split; [exact E|].
  refine (X14_no_potential_energy_no_decision Analyzer.keep_all
            Analyzer.every_second Analyzer.first_or_zero
            Analyzer.first_or_zero Analyzer.trajectory_Epe_first res w l E _
            ["units real"] 1%float RunLoop.state0).
  intros yy Hin. apply list_elem_of_singleton in Hin. discriminate Hin.
Defined.

Lemma X15_witness_pressure_last :
  ∃ res w,
    Analyzer.analyze_file Analyzer.keep_all Analyzer.every_second
      Analyzer.first_or_zero Analyzer.first_or_zero Analyzer.trajectory_T_P
    = Ok (res, w, [Analyzer.BlankLine; Analyzer.NoAcf])
    ∧ ∃ r, last w = Some (Analyzer.Row r)
        ∧ Analyzer.rep_column r = "P"
        ∧ [Analyzer.BlankLine; Analyzer.NoAcf]
          = Analyzer.legends (bool_decide (Analyzer.rep_warn r = "*"))
              (bool_decide (Analyzer.rep_acf r = "^")).
Proof.
  assert (H : match Analyzer.analyze_file Analyzer.keep_all
                      Analyzer.every_second Analyzer.first_or_zero
                      Analyzer.first_or_zero Analyzer.trajectory_T_P with
              | Ok (_, _, [Analyzer.BlankLine; Analyzer.NoAcf]) => true
              | _ => false
              end = true) by (vm_compute; reflexivity).
  destruct (Analyzer.analyze_file Analyzer.keep_all Analyzer.every_second
              Analyzer.first_or_zero Analyzer.first_or_zero
              Analyzer.trajectory_T_P) as [[[res w] l]|e] eqn:E;
    [|discriminate H].
  destruct l as [|[] [|[] [|]]]; try discriminate H.
  exists res, w. split; [reflexivity|].
  destruct (proj2 (X15_legends_follow_the_last_column Analyzer.keep_all
              Analyzer.every_second Analyzer.first_or_zero
              Analyzer.first_or_zero Analyzer.trajectory_T_P) _ _ _ E)
    as (c & yy & Hl & Hs).
  apply (inj Some) in Hl. injection Hl as <- <-.
  change (Analyzer.skipped Analyzer.keep_all Analyzer.every_second
            Analyzer.short_series) with false in Hs.
  exact Hs.
Defined.

(** ** The analysis of a node *)

Section AnalyzeFacts.

Import Analyze.

Variable analyze_trajectory : string → result (gmap string value).

Lemma files_loop_all (fs : list string) (rs : list (gmap string value)) :
  Forall2 (λ f r, analyze_trajectory f = Ok r) fs rs →
  ∀ data seen,
    files_loop analyze_trajectory fs data seen
    = Ok (match last rs with Some r => Some r | None => data end,
          (seen ++ rs)%list).
Proof.
  induction 1 as [|f r fs rs Hf _ IH]; intros data seen.
  - cbn. now rewrite app_nil_r.
  - cbn [files_loop]. rewrite Hf. cbn [mbind result_bind]. rewrite IH.
    rewrite <- app_assoc. cbn [app].
    destruct rs as [|r' rs']; [reflexivity|].
    rewrite last_cons_cons. destruct (last (r' :: rs')) eqn:E; [reflexivity|].
    apply last_None in E. discriminate.
Qed.

(** X16.  Without a trajectory file the analysis of a node raises
    [UnboundLocalError]: nothing was bound to [data].  With several files
    that can all be analysed, the node is given the results of each in
    the order of enumeration, and what is returned (the run loop tests it
    for convergence) is the result for the file enumerated last, whatever
    the files before it showed. *)
Theorem X16_the_last_trajectory_file_decides (fs : list string)
    (rs : list (gmap string value)) (f : string) (r : gmap string value) :
  Forall2 (λ f r, analyze_trajectory f = Ok r) fs rs →
  analyze_trajectory f = Ok r →
  analyze analyze_trajectory [] = Raise (UnboundLocalError "data")
  ∧ analyze analyze_trajectory (fs ++ [f])%list = Ok (r, (rs ++ [r])%list).
Proof.
  intros Hfs Hf. split; [reflexivity|]. unfold analyze.
  rewrite (files_loop_all (fs ++ [f]) (rs ++ [r]));
    [|apply Forall2_app; [exact Hfs|repeat constructor; exact Hf]].
  rewrite last_snoc. reflexivity.
Qed.

End AnalyzeFacts.

Lemma X16_witness_two_files :
  Analyze.analyze Analyze.two_files
    ["trajectory_nve_1.seamm_trj"; "trajectory_nve_2.seamm_trj"]
  = Ok (RunLoop.analysis_T_fails,
        [RunLoop.analysis_Epe_short; RunLoop.analysis_T_fails]).
Proof.
  exact (proj2 (X16_the_last_trajectory_file_decides
           Analyze.two_files ["trajectory_nve_1.seamm_trj"]
           [RunLoop.analysis_Epe_short] "trajectory_nve_2.seamm_trj"
           RunLoop.analysis_T_fails
           ltac:(repeat constructor) eq_refl)).
Defined.

(** ** Serial or parallel *)

Section MpiFacts.

Import Mpi.

(** X17.  The plan does not depend on the value of either MPI flag, only
    on a flag being among the options: a flag that is [False] leads to
    the same plan as one that is [True]. *)
Theorem X17_the_value_of_a_flag_is_not_read (o : gmap string opt)
    (flag : string) (v v' : opt) (n_atoms atoms_per_core : Z) (info : cpu) :
  flag = "lammps_use_mpi" ∨ flag = "seamm_use_mpi" →
  plan (<[flag := v]> o) n_atoms atoms_per_core info
  = plan (<[flag := v']> o) n_atoms atoms_per_core info.
Proof.
  intros [-> | ->]; unfold plan, requested, limit, has;
    repeat first [rewrite lookup_insert_eq
                 |rewrite lookup_insert_ne by discriminate];
    reflexivity.
Qed.

(** X18.  When the plan is to run in parallel, a command to start MPI is
    known, the number of processes asked for is not 1, and the number
    planned is the smaller of that and the limit: it never exceeds the
    limit.  MPI is therefore planned with a single process exactly when
    more were asked for and the limit is 1. *)
Theorem X18_processes_are_capped (o : gmap string opt)
    (n_atoms atoms_per_core : Z) (info : cpu) (p : plan_t) :
  plan o n_atoms atoms_per_core info = Done p →
  use_mpi p = true →
  ∃ asked max_np,
    requested o n_atoms atoms_per_core = Done asked
    ∧ limit o info = Done max_np
    ∧ asked ≠ 1
    ∧ np p = Some (Z.min asked max_np)
    ∧ is_Some (mpiexec p)
    ∧ (np p = Some 1 ↔ 1 < asked ∧ max_np = 1).
Proof.
  unfold plan. intros H Hmpi.
  destruct (has o "lammps_use_mpi" || has o "seamm_use_mpi");
    cbn [mbind attempt_bind mret attempt_ret] in H.
  2:{ injection H as <-. discriminate. }
  destruct (requested o n_atoms atoms_per_core) as [asked|];
    cbn [mbind attempt_bind] in H; [|discriminate].
  destruct (Z.eqb_spec asked 1) as [E1|Hne];
    cbn [mbind attempt_bind mret attempt_ret] in H.
  { injection H as <-. discriminate. }
  destruct (limit o info) as [max_np|]; cbn [mbind attempt_bind] in H;
    [|discriminate].
  exists asked, max_np.
  assert (M : (if asked >? max_np then max_np else asked)
              = Z.min asked max_np)
    by (destruct (Z.gtb_spec asked max_np); lia).
  rewrite M in H.
  assert (P : np p = Some (Z.min asked max_np) ∧ is_Some (mpiexec p)).
  { destruct (o !! "lammps_mpiexec"); [injection H as <-; cbn; eauto|].
    destruct (o !! "seamm_mpiexec"); injection H as <-; cbn; eauto.
    discriminate. }
  destruct P as [Hnp Hexe]. rewrite Hnp.
  split; [reflexivity|]. split; [reflexivity|]. split; [exact Hne|].
  split; [reflexivity|]. split; [exact Hexe|]. split.
  - intros E. apply (inj Some) in E. lia.
  - intros [? ->]. f_equal. lia.
Qed.

(** X19.  Where no limit is given among the options, it is the number of
    processors, halved (towards zero) on an X86 machine.  On an X86
    machine with one processor the limit is 0: whenever more than one
    process is asked for and a command to start MPI is known, the plan is
    to run in parallel with 0 processes. *)
Theorem X19_one_processor_x86 (o : gmap string opt)
    (n_atoms atoms_per_core asked : Z) (info : cpu) (exe : opt) :
  is_Some (o !! "lammps_use_mpi") ∨ is_Some (o !! "seamm_use_mpi") →
  o !! "seamm_mpi_max_np" = None → o !! "lammps_mpi_max_np" = None →
  count info = 1 → slice_to 3 (arch info) = "X86" →
  requested o n_atoms atoms_per_core = Done asked → 1 < asked →
  o !! "lammps_mpiexec" = Some exe →
  plan o n_atoms atoms_per_core info
  = Done {| use_mpi := true; np := Some 0; mpiexec := Some exe |}
  ∧ ∀ lammps_mpi lammps_serial infile,
      (p ← plan o n_atoms atoms_per_core info;
       Done (command p lammps_mpi lammps_serial infile))
      = Done (Some [exe; OStr "-np"; OStr "0"; lammps_mpi; OStr "-in";
                    OStr infile]).
Proof.
  intros Hflag Hs Hl Hc Ha Hr Hlt He.
  assert (P : plan o n_atoms atoms_per_core info
              = Done {| use_mpi := true; np := Some 0;
                        mpiexec := Some exe |}).
  { unfold plan, has.
    assert (F : (match o !! "lammps_use_mpi" with
                 | Some _ => true | None => false end
                 || match o !! "seamm_use_mpi" with
                    | Some _ => true | None => false end) = true).
    { destruct Hflag as [[? ->]|[? ->]]; [reflexivity|].
      now destruct (o !! "lammps_use_mpi"). }
    rewrite F, Hr. cbn [mbind attempt_bind].
    destruct (Z.eqb_spec asked 1); [lia|].
    unfold limit. rewrite Hs, Hl, Ha, Hc.
    change (String.eqb "X86" "X86") with true. cbv iota.
    cbn [mbind attempt_bind mret attempt_ret].
    change (1 `quot` 2) with 0.
    destruct (Z.gtb_spec asked 0); [|lia]. now rewrite He. }
  split; [exact P|]. intros. now rewrite P.
Qed.

End MpiFacts.

Lemma X17_witness_flags_off :
  Mpi.plan Mpi.flags_off 3000 1000 Mpi.laptop
  = Mpi.plan
      (<[ "seamm_use_mpi" := Mpi.OBool true ]>
       (<[ "lammps_use_mpi" := Mpi.OBool false ]>
       (<[ "lammps_mpi_np" := Mpi.OStr "4" ]>
       (<[ "lammps_mpiexec" := Mpi.OStr "mpiexec" ]> ∅))))
      3000 1000 Mpi.laptop.
Proof.
  exact (X17_the_value_of_a_flag_is_not_read _ "seamm_use_mpi"
           (Mpi.OBool false) (Mpi.OBool true) 3000 1000 Mpi.laptop
           (or_intror eq_refl)).
Defined.

Lemma X18_witness_four_processes :
  ∃ asked max_np,
    Mpi.requested Mpi.flags_off 3000 1000 = Mpi.Done asked
    ∧ Mpi.limit Mpi.flags_off Mpi.laptop = Mpi.Done max_np
    ∧ Mpi.np {| Mpi.use_mpi := true; Mpi.np := Some 4;
                Mpi.mpiexec := Some (Mpi.OStr "mpiexec") |}
      = Some (Z.min asked max_np).
Proof.
  destruct (X18_processes_are_capped Mpi.flags_off 3000 1000 Mpi.laptop
              {| Mpi.use_mpi := true; Mpi.np := Some 4;
                 Mpi.mpiexec := Some (Mpi.OStr "mpiexec") |}
              ltac:(vm_compute; reflexivity) eq_refl)
    as (asked & max_np & Hr & Hl & _ & Hn & _).
  exists asked, max_np. split; [exact Hr|]. split; [exact Hl|exact Hn].
Defined.

Lemma X19_witness_one_core :
  Mpi.plan Mpi.flags_off 3000 1000 Mpi.one_core
  = Mpi.Done {| Mpi.use_mpi := true; Mpi.np := Some 0;
                Mpi.mpiexec := Some (Mpi.OStr "mpiexec") |}.
Proof.
  refine (proj1 (X19_one_processor_x86 Mpi.flags_off 3000 1000 4
                   Mpi.one_core (Mpi.OStr "mpiexec") _ _ _ _ _ _ _ _)).
  - left. vm_compute. eauto.
  - vm_compute. reflexivity.
  - vm_compute. reflexivity.
  - reflexivity.
  - reflexivity.
  - vm_compute. reflexivity.
  - lia.
  - vm_compute. reflexivity.
Defined.

(** ** The fix that holds bonds and angles rigid *)

Section ShakeFacts.

Import Text Shake.

Lemma set_key_spec (keys : list Z) (k t : Z) :
  t ∈ set_key keys k ↔ t ∈ keys ∨ t = k.
Proof.
  unfold set_key. case_bool_decide as Hk.
  - split; [now left|]. intros [?| ->]; assumption.
  - rewrite elem_of_app, list_elem_of_singleton. reflexivity.
Qed.

Lemma set_key_NoDup (keys : list Z) (k : Z) :
  NoDup keys → NoDup (set_key keys k).
Proof.
  intros H. unfold set_key. case_bool_decide as Hk; [exact H|].
  apply NoDup_app. split; [exact H|]. split; [|apply NoDup_singleton].
  intros x Hx Hx'. apply list_elem_of_singleton in Hx'. now subst.
Qed.

(** The scans for the bonds and angles of the waters add types of bonds
    and angles of the energy expression, each once. *)
Lemma water_bonds_inv (atoms : list Z) (eex : eex_t) (bt : list Z) :
  NoDup bt →
  NoDup (water_bonds atoms eex bt)
  ∧ ∀ t, t ∈ water_bonds atoms eex bt →
         t ∈ bt ∨ ∃ i j, (i, j, t) ∈ bonds eex.
Proof.
  unfold water_bonds.
  assert (G : ∀ bs bt, NoDup bt →
    NoDup (fold_left
             (λ bt '(i, j, index),
                if mem i atoms && mem j atoms then set_key bt index else bt)
             bs bt)
    ∧ ∀ t, t ∈ fold_left
             (λ bt '(i, j, index),
                if mem i atoms && mem j atoms then set_key bt index else bt)
             bs bt →
           t ∈ bt ∨ ∃ i j, (i, j, t) ∈ bs).
  { clear. induction bs as [|[[i j] index] bs IH]; intros bt Hnd.
    - cbn. split; [exact Hnd|]. intros t Ht. now left.
    - cbn [fold_left].
      destruct (mem i atoms && mem j atoms).
      + destruct (IH _ (set_key_NoDup bt index Hnd)) as [H1 H2].
        split; [exact H1|]. intros t Ht.
        destruct (H2 t Ht) as [Hin|(i' & j' & Hin)].
        * apply set_key_spec in Hin as [?| ->]; [now left|].
          right. exists i, j. left.
        * right. exists i', j'. now right.
      + destruct (IH _ Hnd) as [H1 H2]. split; [exact H1|].
        intros t Ht. destruct (H2 t Ht) as [?|(i' & j' & Hin)]; [now left|].
        right. exists i', j'. now right. }
  apply G.
Qed.

Lemma water_angles_inv (atoms : list Z) (eex : eex_t) (ats : list Z) :
  NoDup ats →
  NoDup (water_angles atoms eex ats)
  ∧ ∀ t, t ∈ water_angles atoms eex ats →
         t ∈ ats ∨ ∃ i j k, (i, j, k, t) ∈ angles eex.
Proof.
  unfold water_angles.
  assert (G : ∀ l ats, NoDup ats →
    NoDup (fold_left
             (λ ats '(i, j, k, index),
                if mem i atoms && mem j atoms && mem k atoms
                then set_key ats index else ats)
             l ats)
    ∧ ∀ t, t ∈ fold_left
             (λ ats '(i, j, k, index),
                if mem i atoms && mem j atoms && mem k atoms
                then set_key ats index else ats)
             l ats →
           t ∈ ats ∨ ∃ i j k, (i, j, k, t) ∈ l).
  { clear. induction l as [|[[[i j] k] index] l IH]; intros ats Hnd.
    - cbn. split; [exact Hnd|]. intros t Ht. now left.
    - cbn [fold_left].
      destruct (mem i atoms && mem j atoms && mem k atoms).
      + destruct (IH _ (set_key_NoDup ats index Hnd)) as [H1 H2].
        split; [exact H1|]. intros t Ht.
        destruct (H2 t Ht) as [Hin|(i' & j' & k' & Hin)].
        * apply set_key_spec in Hin as [?| ->]; [now left|].
          right. exists i, j, k. left.
        * right. exists i', j', k'. now right.
      + destruct (IH _ Hnd) as [H1 H2]. split; [exact H1|].
        intros t Ht.
        destruct (H2 t Ht) as [?|(i' & j' & k' & Hin)]; [now left|].
        right. exists i', j', k'. now right. }
  apply G.
Qed.

Lemma waters_loop_inv (eex : eex_t) (waters : list (Z * Z * Z)) :
  ∀ atoms bt ats bt' ats',
  waters_loop waters eex atoms bt ats = (bt', ats') →
  NoDup bt → NoDup ats →
  NoDup bt' ∧ NoDup ats'
  ∧ (∀ t, t ∈ bt' → t ∈ bt ∨ (has_bonds eex = true
                               ∧ ∃ i j, (i, j, t) ∈ bonds eex))
  ∧ (∀ t, t ∈ ats' → t ∈ ats ∨ ∃ i j k, (i, j, k, t) ∈ angles eex).
Proof.
  induction waters as [|[[i j] k] rest IH]; intros atoms bt ats bt' ats' H Hb Ha.
  - cbn in H. injection H as <- <-. repeat split; auto.
  - cbn [waters_loop] in H.
    destruct (has_bonds eex) eqn:Eb; destruct (has_angles eex) eqn:Ea.
    + destruct (water_bonds_inv (atoms ++ [i; j; k]) eex bt Hb) as [B1 B2].
      destruct (water_angles_inv (atoms ++ [i; j; k]) eex ats Ha) as [A1 A2].
      destruct (IH _ _ _ _ _ H B1 A1) as (N1 & N2 & I1 & I2).
      split; [exact N1|]. split; [exact N2|]. split.
      * intros t Ht. destruct (I1 t Ht) as [Hin|?]; [|now right].
        destruct (B2 t Hin) as [?|?]; [now left|now right].
      * intros t Ht. destruct (I2 t Ht) as [Hin|?]; [|now right].
        exact (A2 t Hin).
    + destruct (water_bonds_inv (atoms ++ [i; j; k]) eex bt Hb) as [B1 B2].
      destruct (IH _ _ _ _ _ H B1 Ha) as (N1 & N2 & I1 & I2).
      split; [exact N1|]. split; [exact N2|]. split; [|exact I2].
      intros t Ht. destruct (I1 t Ht) as [Hin|?]; [|now right].
      destruct (B2 t Hin) as [?|?]; [now left|now right].
    + destruct (water_angles_inv (atoms ++ [i; j; k]) eex ats Ha) as [A1 A2].
      destruct (IH _ _ _ _ _ H Hb A1) as (N1 & N2 & I1 & I2).
      split; [exact N1|]. split; [exact N2|]. split; [exact I1|].
      intros t Ht. destruct (I2 t Ht) as [Hin|?]; [|now right].
      exact (A2 t Hin).
    + exact (IH _ _ _ _ _ H Hb Ha).
Qed.

(** The scan for the bonds to hydrogen adds the types of the bonds that
    pass the test, each once. *)
Lemma scan_bonds_inv (test : Z → Z → result bool) (bs : list (Z * Z * Z)) :
  ∀ bt bt', scan_bonds test bs bt = Ok bt' → NoDup bt →
  NoDup bt'
  ∧ (∀ t, t ∈ bt' ↔ t ∈ bt ∨ ∃ i j, (i, j, t) ∈ bs ∧ test i j = Ok true)
  ∧ ∀ i j t, (i, j, t) ∈ bs → ∃ b, test i j = Ok b.
Proof.
  induction bs as [|[[i j] index] bs IH]; intros bt bt' H Hnd.
  - cbn in H. injection H as <-. split; [exact Hnd|]. split.
    + intros t. split; [now left|]. intros [?|(? & ? & Hin & _)]; [done|].
      inversion Hin.
    + intros ? ? ? Hin. inversion Hin.
  - cbn [scan_bonds] in H.
    destruct (test i j) as [b|] eqn:T; cbn [mbind result_bind] in H;
      [|discriminate].
    assert (Hnd' : NoDup (if b then set_key bt index else bt))
      by (destruct b; [now apply set_key_NoDup|exact Hnd]).
    destruct (IH _ _ H Hnd') as (N & I & A).
    split; [exact N|]. split.
    + intros t. rewrite I. split.
      * intros [Hin|(i' & j' & Hin & Ht)].
        -- destruct b; [|now left].
           apply set_key_spec in Hin as [?| ->]; [now left|].
           right. exists i, j. split; [left|exact T].
        -- right. exists i', j'. split; [now right|exact Ht].
      * intros [Hin|(i' & j' & Hin & Ht)].
        -- left. destruct b; [|exact Hin]. apply set_key_spec. now left.
        -- apply elem_of_cons in Hin as [Heq|Hin].
           ++ injection Heq as -> -> ->. left. rewrite T in Ht.
              injection Ht as ->. apply set_key_spec. now right.
           ++ right. exists i', j'. done.
    + intros i' j' t Hin. apply elem_of_cons in Hin as [Heq|Hin].
      * injection Heq as -> -> ->. eauto.
      * exact (A _ _ _ Hin).
Qed.

(** X20.  The bond and angle types chosen for the fix are types of bonds
    and angles of the energy expression, each of them once.  No bond type
    is chosen when the energy expression declares no bond, even for rigid
    waters whose angles are chosen; no angle type is chosen unless waters
    are rigid. *)
Theorem X20_chosen_types (P : parameters) (eex : eex_t)
    (waters : list (Z * Z * Z)) (bt ats : list Z) :
  select P eex waters = Ok (bt, ats) →
  NoDup bt ∧ NoDup ats
  ∧ (∀ t, t ∈ bt → ∃ i j, (i, j, t) ∈ bonds eex)
  ∧ (∀ t, t ∈ ats → ∃ i j k, (i, j, k, t) ∈ angles eex)
  ∧ (has_bonds eex = false → bt = [])
  ∧ (rigid_waters P = false → ats = []).
Proof.
  unfold select. intros H.
  destruct (if rigid_waters P then waters_loop waters eex [] [] []
            else ([], [])) as [bt0 at0] eqn:W.
  assert (W0 : NoDup bt0 ∧ NoDup at0
               ∧ (∀ t, t ∈ bt0 → has_bonds eex = true
                                 ∧ ∃ i j, (i, j, t) ∈ bonds eex)
               ∧ (∀ t, t ∈ at0 → ∃ i j k, (i, j, k, t) ∈ angles eex)
               ∧ (rigid_waters P = false → at0 = [])).
  { destruct (rigid_waters P).
    - destruct (waters_loop_inv _ _ _ _ _ _ _ W (NoDup_nil_2) (NoDup_nil_2))
        as (N1 & N2 & I1 & I2).
      split; [exact N1|]. split; [exact N2|]. split; [|split].
      + intros t Ht. destruct (I1 t Ht) as [Hin|?]; [inversion Hin|done].
      + intros t Ht. destruct (I2 t Ht) as [Hin|?]; [inversion Hin|done].
      + discriminate.
    - injection W as <- <-. split; [constructor|]. split; [constructor|].
      split; [intros ? Hin; inversion Hin|].
      split; [intros ? Hin; inversion Hin|done]. }
  destruct W0 as (N1 & N2 & I1 & I2 & R).
  assert (Empty : has_bonds eex = false → bt0 = []).
  { intros Hb. destruct bt0 as [|t ?]; [reflexivity|].
    destruct (I1 t ltac:(left)) as [E _]. congruence. }
  assert (Scan : ∀ test bt',
            scan_bonds test (bonds eex) bt0 = Ok bt' →
            NoDup bt' ∧ ∀ t, t ∈ bt' → ∃ i j, (i, j, t) ∈ bonds eex).
  { intros test bt' S. destruct (scan_bonds_inv _ _ _ _ S N1) as (N & I & _).
    split; [exact N|]. intros t Ht. apply I in Ht as [Hin|(i & j & Hin & _)].
    - exact (proj2 (I1 t Hin)).
    - eauto. }
  destruct (has_bonds eex) eqn:Hb.
  - destruct (String.eqb (fix_XH_bond_lengths P) "CH").
    + destruct (scan_bonds _ _ _) as [bt'|] eqn:S;
        cbn [mbind result_bind mret result_ret] in H; [|discriminate].
      injection H as <- <-. destruct (Scan _ _ S) as [N I].
      split; [exact N|]. split; [exact N2|]. split; [exact I|].
      split; [exact I2|]. split; [discriminate|exact R].
    + destruct (String.eqb (fix_XH_bond_lengths P) "all").
      * destruct (scan_bonds _ _ _) as [bt'|] eqn:S;
          cbn [mbind result_bind mret result_ret] in H; [|discriminate].
        injection H as <- <-. destruct (Scan _ _ S) as [N I].
        split; [exact N|]. split; [exact N2|]. split; [exact I|].
        split; [exact I2|]. split; [discriminate|exact R].
      * injection H as <- <-.
        split; [exact N1|]. split; [exact N2|].
        split; [intros t Ht; exact (proj2 (I1 t Ht))|].
        split; [exact I2|]. split; [discriminate|exact R].
  - injection H as <- <-.
    split; [exact N1|]. split; [exact N2|].
    split; [intros t Ht; exact (proj2 (I1 t Ht))|].
    split; [exact I2|]. split; [intros _; now apply Empty|exact R].
Qed.

Lemma spaced_app (ps qs : list (string * string)) :
  spaced (ps ++ qs) = spaced ps ++ spaced qs.
Proof.
  induction ps as [|[sp w] ps IH]; [reflexivity|].
  cbn [app spaced]. now rewrite IH, !append_assoc.
Qed.

Lemma split_go_spaced (ps : list (string * string)) :
  Forall (λ p, all_chars is_space p.1 = true ∧ p.1 ≠ ""
               ∧ is_word p.2 = true) ps →
  ∀ tok, tok ≠ "" →
  split_go (spaced ps) tok = tok :: map snd ps.
Proof.
  induction 1 as [|[sp w] ps (Hsp & Hne & Hw) _ IH]; intros tok Htok.
  - cbn. now destruct tok.
  - cbn [spaced map snd fst] in *.
    rewrite (split_go_spaces _ _ _ Hsp Hne Htok). f_equal.
    assert (Hw' : all_chars (λ c, negb (is_space c)) w = true ∧ w ≠ "").
    { destruct w; [discriminate|]. split; [exact Hw|discriminate]. }
    rewrite (split_go_word _ _ _ (proj1 Hw')). change ("" ++ w) with w.
    apply IH. exact (proj2 Hw').
Qed.

Lemma listed_spec (types : list Z) (r : string) :
  listed types r = r ++ spaced (map (λ t, (" ", str t)) types).
Proof.
  unfold listed. revert r. induction types as [|t ts IH]; intros r.
  - cbn. symmetry. clear. induction r as [|c r IH]; [reflexivity|].
    change (String c (r ++ "") = String c r). now rewrite IH.
  - cbn [fold_left map spaced]. rewrite IH, !append_assoc. reflexivity.
Qed.

Lemma spaced_types (ts : list Z) :
  Forall (λ p : string * string,
            all_chars is_space p.1 = true ∧ p.1 ≠ "" ∧ is_word p.2 = true)
    (map (λ t, (" ", str t)) ts).
Proof.
  induction ts as [|t ts IH]; constructor; [|exact IH].
  cbn. split; [reflexivity|]. split; [discriminate|apply str_is_word].
Qed.

(** X21.  The line is empty exactly when no bond type is chosen; the
    chosen angle types are then dropped.  Otherwise its words are the
    eight words of the fix, the bond types in the order in which they
    were chosen, and, if there is an angle type, an ['a'] and the angle
    types. *)
Theorem X21_words_of_the_fix (P : parameters) (eex : eex_t)
    (waters : list (Z * Z * Z)) (line : string) :
  shake_fix P eex waters = Ok line →
  ∃ bt ats,
    select P eex waters = Ok (bt, ats)
    ∧ (line = "" ↔ bt = [])
    ∧ (bt ≠ [] →
       split line
       = (["fix"; "{}"; "all"; "rattle"; "0.001"; "20"; "1000"; "b"]
            ++ map str bt
            ++ match ats with [] => [] | _ => "a" :: map str ats end)%list).
Proof.
  unfold shake_fix. intros H.
  destruct (select P eex waters) as [[bt ats]|]; cbn [mbind result_bind] in H;
    [|discriminate].
  injection H as <-. exists bt, ats. split; [reflexivity|].
  destruct bt as [|t bt]; [done|].
  assert (R : render (t :: bt) ats
              = "fix" ++ spaced
                  ([("                 ", "{}"); (" ", "all");
                    (" ", "rattle"); (" ", "0.001"); (" ", "20");
                    (" ", "1000"); (" ", "b"); ("  ", str t)]
                   ++ map (λ t, (" ", str t)) bt
                   ++ match ats with
                      | [] => []
                      | a :: ats' =>
                          (" ", "a") :: ("  ", str a)
                            :: map (λ t, (" ", str t)) ats'
                      end)).
  { unfold render. destruct ats as [|a ats'].
    - rewrite listed_spec, app_nil_r. cbn [map].
      rewrite (spaced_app _ (map _ bt)). cbn [spaced].
      rewrite !append_assoc. reflexivity.
    - rewrite !listed_spec. cbn [map].
      rewrite (spaced_app _ (map _ bt ++ _)), (spaced_app (map _ bt)).
      cbn [spaced]. rewrite !append_assoc. reflexivity. }
  split.
  - split; [|intros E; discriminate E]. intros E. rewrite R in E.
    exfalso. revert E. generalize (spaced
      ([("                 ", "{}"); (" ", "all"); (" ", "rattle");
        (" ", "0.001"); (" ", "20"); (" ", "1000"); (" ", "b");
        ("  ", str t)] ++ map (λ t, (" ", str t)) bt
       ++ match ats with
          | [] => []
          | a :: ats' =>
              (" ", "a") :: ("  ", str a) :: map (λ t, (" ", str t)) ats'
          end)).
    intros s E. change ("fix" ++ s) with (String "f" ("ix" ++ s)) in E.
    discriminate E.
  - intros _. rewrite R. unfold split.
    rewrite (split_go_word "fix" _ "" eq_refl). change ("" ++ "fix") with "fix".
    rewrite split_go_spaced; [| |discriminate].
    + assert (M : ∀ ts, map snd (map (λ t, (" ", str t)) ts) = map str ts)
        by (intros ts; rewrite map_map; reflexivity).
      rewrite !map_app, M. cbn [map snd app]. do 9 f_equal.
      destruct ats as [|a ats']; [reflexivity|].
      cbn [map snd]. now rewrite M.
    + apply Forall_app. split.
      { repeat constructor; try discriminate; cbn; apply str_is_word. }
      apply Forall_app. split; [apply spaced_types|].
      destruct ats as [|a ats']; [constructor|].
      constructor; [cbn; done|]. constructor; [|apply spaced_types].
      cbn. split; [reflexivity|]. split; [discriminate|apply str_is_word].
Qed.

Lemma is_XH_true (els : list string) (i j : Z) (b : bool) :
  is_XH els i j = Ok b →
  b = true ↔ item els i = Ok "H" ∨ item els j = Ok "H".
Proof.
  unfold is_XH. destruct (item els i) as [ei|] eqn:Ei;
    cbn [mbind result_bind]; [|discriminate].
  destruct (String.eqb_spec ei "H") as [->|Hne].
  - intros H. injection H as <-. split; [now left|done].
  - destruct (item els j) as [ej|] eqn:Ej; cbn [mbind result_bind];
      [|discriminate].
    intros H. injection H as <-.
    destruct (String.eqb_spec ej "H") as [->|Hne'].
    + split; [now right|done].
    + split; [discriminate|]. intros [E|E]; injection E; congruence.
Qed.

(** X22.  With ['all'] and no rigid waters, the chosen bond types are
    exactly the types of the bonds with a hydrogen at one end. *)
Theorem X22_all_bonds_to_hydrogen (P : parameters) (eex : eex_t)
    (waters : list (Z * Z * Z)) (bt ats : list Z) :
  rigid_waters P = false → fix_XH_bond_lengths P = "all" →
  has_bonds eex = true →
  select P eex waters = Ok (bt, ats) →
  ats = []
  ∧ ∀ t, t ∈ bt ↔
         ∃ i j, (i, j, t) ∈ bonds eex
                ∧ (item (elements eex) i = Ok "H"
                   ∨ item (elements eex) j = Ok "H").
Proof.
  intros Hr Hx Hb. unfold select. rewrite Hr, Hb, Hx.
  change (String.eqb "all" "CH") with false.
  change (String.eqb "all" "all") with true. cbv iota.
  destruct (scan_bonds _ _ _) as [bt'|] eqn:S;
    cbn [mbind result_bind mret result_ret]; [|discriminate].
  intros H. injection H as <- <-. split; [reflexivity|].
  destruct (scan_bonds_inv _ _ _ _ S (NoDup_nil_2)) as (_ & I & A).
  intros t. rewrite I. split.
  - intros [Hin|(i & j & Hin & Ht)]; [inversion Hin|].
    exists i, j. split; [exact Hin|]. now apply (is_XH_true _ _ _ _ Ht).
  - intros (i & j & Hin & Hh). right. exists i, j. split; [exact Hin|].
    destruct (A _ _ _ Hin) as [b Hb']. rewrite Hb'. f_equal.
    now apply (is_XH_true _ _ _ _ Hb').
Qed.

End ShakeFacts.

Lemma X20_witness_water_and_CH :
  Shake.select {| Shake.rigid_waters := true;
                  Shake.fix_XH_bond_lengths := "all" |}
    Shake.water_and_CH [(0, 1, 2)] = Ok ([1; 2], [1])
  ∧ NoDup [1; 2] ∧ NoDup [1]
  ∧ (∃ i j, (i, j, 2) ∈ Shake.bonds Shake.water_and_CH)
  ∧ Shake.select {| Shake.rigid_waters := true;
                    Shake.fix_XH_bond_lengths := "all" |}
      Shake.angles_only [(0, 1, 2)] = Ok ([], [1]).
Proof.
  destruct (X20_chosen_types
              {| Shake.rigid_waters := true;
                 Shake.fix_XH_bond_lengths := "all" |}
              Shake.water_and_CH [(0, 1, 2)] [1; 2] [1] eq_refl)
    as (N1 & N2 & I1 & _).
  split; [reflexivity|]. split; [exact N1|]. split; [exact N2|].
  split; [apply I1; apply list_elem_of_further, list_elem_of_here|].
  reflexivity.
Defined.

Lemma X21_witness_water_and_CH :
  Shake.shake_fix {| Shake.rigid_waters := true;
                     Shake.fix_XH_bond_lengths := "all" |}
    Shake.water_and_CH [(0, 1, 2)]
  = Ok "fix                 {} all rattle 0.001 20 1000 b  1 2 a  1"
  ∧ split "fix                 {} all rattle 0.001 20 1000 b  1 2 a  1"
    = ["fix"; "{}"; "all"; "rattle"; "0.001"; "20"; "1000"; "b"; "1"; "2";
       "a"; "1"].
Proof.
  split; [reflexivity|].
  destruct (X21_words_of_the_fix
              {| Shake.rigid_waters := true;
                 Shake.fix_XH_bond_lengths := "all" |}
              Shake.water_and_CH [(0, 1, 2)]
              "fix                 {} all rattle 0.001 20 1000 b  1 2 a  1"
              eq_refl)
    as (bt & ats & Hs & _ & Hw).
  vm_compute in Hs. injection Hs as <- <-.
  exact (Hw ltac:(discriminate)).
Defined.

Lemma X22_witness_water_and_CH :
  Shake.select {| Shake.rigid_waters := false;
                  Shake.fix_XH_bond_lengths := "all" |}
    Shake.water_and_CH [] = Ok ([1; 2], [])
  ∧ ∃ i j, (i, j, 2) ∈ Shake.bonds Shake.water_and_CH
           ∧ (Shake.item (Shake.elements Shake.water_and_CH) i = Ok "H"
              ∨ Shake.item (Shake.elements Shake.water_and_CH) j = Ok "H").
Proof.
  split; [reflexivity|].
  destruct (X22_all_bonds_to_hydrogen
              {| Shake.rigid_waters := false;
                 Shake.fix_XH_bond_lengths := "all" |}
              Shake.water_and_CH [] [1; 2] [] eq_refl eq_refl eq_refl
              eq_refl) as [_ H].
  apply H. apply list_elem_of_further, list_elem_of_here.
Defined.

(** ** The dialog of the NVE step *)

Section DialogFacts.

Import TkNVE.

Lemma store_enumeration (tmp : shown) (p : parameter) :
  enumeration (store tmp p).1 = enumeration p.
Proof.
  unfold store. destruct (chosen tmp p).
  - now destruct tmp.
  - destruct (item0 tmp); [|reflexivity]. now destruct (item1 tmp).
Qed.

(** X23.  Only ['OK'] changes the parameters of the node: for any other
    result they are as before.  The dialog is deactivated once, with the
    result, for every result but ['Help'], for which it stays open; a
    result that is none of [None], ['Cancel'], ['Help'] and ['OK'] raises
    [RuntimeError] after the dialog is deactivated.  The lists of choices
    of the parameters are never changed. *)
Theorem X23_only_OK_changes_the_parameters (result : option string)
    (w : widgets) (g : gui) :
  let after := (handle_dialog result w g).1 in
  (result ≠ Some "OK" → P after = P g)
  ∧ deactivated after
    = (if bool_decide (result = Some "Help") then deactivated g
       else (deactivated g ++ [result])%list)
  ∧ (∀ r, result = Some r → r ≠ "Cancel" → r ≠ "Help" → r ≠ "OK" →
          (handle_dialog result w g).2
          = Some (RuntimeError
                    ("Don't recognize dialog result '" ++ r ++ "'")))
  ∧ enumeration (time (P after)) = enumeration (time (P g))
  ∧ enumeration (timestep (P after)) = enumeration (timestep (P g))
  ∧ enumeration (sampling (P after)) = enumeration (sampling (P g)).
Proof.
  unfold handle_dialog. destruct result as [r|].
  2:{ cbn. repeat split; try done. }
  destruct (String.eqb_spec r "Cancel") as [->|Hc].
  { cbn. repeat split; try done; intros r' E; injection E as <-; done. }
  destruct (String.eqb_spec r "Help") as [->|Hh].
  { cbn. repeat split; try done; intros r' E; injection E as <-; done. }
  assert (NH : bool_decide (Some r = Some "Help") = false).
  { apply bool_decide_eq_false. intros E. injection E as ->. done. }
  rewrite NH.
  destruct (String.eqb_spec r "OK") as [->|Ho]; cbn [negb].
  2:{ cbn. repeat split; try done.
      intros r' E. injection E as <-. done. }
  cbn [P deactivated].
  destruct (unpack (time_widget w)) as [[v u]|e].
  2:{ cbn. repeat split; try done; intros r' E; injection E as <-; done. }
  pose proof (store_enumeration (timestep_widget w) (timestep (P g))) as E1.
  pose proof (store_enumeration (sampling_widget w) (sampling (P g))) as E2.
  destruct (store (timestep_widget w) (timestep (P g))) as [ts [e|]].
  { cbn in *. repeat split; try done; intros r' E; injection E as <-; done. }
  destruct (store (sampling_widget w) (sampling (P g))) as [s e].
  cbn in *. repeat split; try done; intros r' E; injection E as <-; done.
Qed.

(** X24.  After ['OK'], when every widget shows a value with its units or
    an entry of the list of choices, no exception is raised; the time is
    the one shown; a parameter shown as a value with units holds both,
    and one picked from its list of choices holds the choice as value and
    keeps the units it had. *)
Theorem X24_what_OK_stores (w : widgets) (g : gui) (v u : string) :
  time_widget w = Pair v u →
  (∀ s, timestep_widget w = Text s → s ∈ enumeration (timestep (P g))) →
  (∀ s, sampling_widget w = Text s → s ∈ enumeration (sampling (P g))) →
  let after := (handle_dialog (Some "OK") w g).1 in
  (handle_dialog (Some "OK") w g).2 = None
  ∧ value (time (P after)) = v ∧ units (time (P after)) = u
  ∧ match timestep_widget w with
    | Pair v' u' => value (timestep (P after)) = v'
                    ∧ units (timestep (P after)) = u'
    | Text s => value (timestep (P after)) = s
                ∧ units (timestep (P after)) = units (timestep (P g))
    end
  ∧ match sampling_widget w with
    | Pair v' u' => value (sampling (P after)) = v'
                    ∧ units (sampling (P after)) = u'
    | Text s => value (sampling (P after)) = s
                ∧ units (sampling (P after)) = units (sampling (P g))
    end.
Proof.
  intros Ht Hts Hs. unfold handle_dialog.
  change (String.eqb "OK" "Cancel") with false.
  change (String.eqb "OK" "Help") with false.
  change (String.eqb "OK" "OK") with true. cbn [negb]. cbv iota.
  rewrite Ht. cbn [unpack P deactivated].
  assert (S : ∀ tmp p, (∀ s, tmp = Text s → s ∈ enumeration p) →
            (store tmp p).2 = None
            ∧ match tmp with
              | Pair v' u' => value (store tmp p).1 = v'
                              ∧ units (store tmp p).1 = u'
              | Text s => value (store tmp p).1 = s
                          ∧ units (store tmp p).1 = units p
              end).
  { intros tmp p H. unfold store, chosen. destruct tmp as [s|v' u'].
    - rewrite bool_decide_eq_true_2 by (now apply H). done.
    - cbn. done. }
  destruct (S _ _ Hts) as [T1 T2]. destruct (S _ _ Hs) as [S1 S2].
  destruct (store (timestep_widget w) (timestep (P g))) as [ts e1].
  destruct (store (sampling_widget w) (sampling (P g))) as [s e2].
  cbn [fst snd] in *. subst e1 e2. cbn. done.
Qed.

End DialogFacts.

Lemma X23_witness_cancel :
  TkNVE.P (TkNVE.handle_dialog (Some "Cancel") TkNVE.edited TkNVE.fresh).1
  = TkNVE.P TkNVE.fresh
  ∧ TkNVE.deactivated
      (TkNVE.handle_dialog (Some "Cancel") TkNVE.edited TkNVE.fresh).1
    = [Some "Cancel"].
Proof.
  destruct (X23_only_OK_changes_the_parameters (Some "Cancel") TkNVE.edited
              TkNVE.fresh) as (H1 & H2 & _).
  split; [apply H1; discriminate|exact H2].
Defined.

Lemma X24_witness_normal_timestep :
  (TkNVE.handle_dialog (Some "OK") TkNVE.edited TkNVE.fresh).2 = None
  ∧ TkNVE.value (TkNVE.time
      (TkNVE.P (TkNVE.handle_dialog (Some "OK") TkNVE.edited TkNVE.fresh).1))
    = "200"
  ∧ TkNVE.value (TkNVE.timestep
      (TkNVE.P (TkNVE.handle_dialog (Some "OK") TkNVE.edited TkNVE.fresh).1))
    = "normal"
  ∧ TkNVE.units (TkNVE.timestep
      (TkNVE.P (TkNVE.handle_dialog (Some "OK") TkNVE.edited TkNVE.fresh).1))
    = "fs".
Proof.
  destruct (X24_what_OK_stores TkNVE.edited TkNVE.fresh "200" "ps" eq_refl)
    as (E & V & _ & T & _).
  - intros s H. injection H as <-. apply list_elem_of_here.
  - intros s H. discriminate H.
  - split; [exact E|]. split; [exact V|]. exact T.
Defined.

(** ** The walk over the steps *)

Section FlowFacts.

Import Flow.

Variable directory : string.

Lemma deref_extend_same (r : nat) (more : list string)
    (h : list (list string)) :
  (r < length h)%nat → deref (extend r more h) r = (deref h r ++ more)%list.
Proof.
  intros Hr. unfold deref, extend. rewrite list_lookup_alter_eq.
  destruct (lookup_lt_is_Some_2 h r Hr) as [l ->]. reflexivity.
Qed.

Lemma deref_extend_ne (r r' : nat) (more : list string)
    (h : list (list string)) :
  r ≠ r' → deref (extend r more h) r' = deref h r'.
Proof.
  intros Hne. unfold deref, extend. now rewrite list_lookup_alter_ne.
Qed.

Lemma extend_extend (r : nat) (a b : list string) (h : list (list string)) :
  extend r b (extend r a h) = extend r (a ++ b) h.
Proof.
  unfold extend. rewrite list_alter_alter_eq.
  apply list_alter_ext; [|reflexivity]. intros l _. cbn.
  now rewrite app_assoc.
Qed.

Lemma extend_nil (r : nat) (h : list (list string)) : extend r [] h = h.
Proof.
  unfold extend. apply list_alter_id. intros l. apply app_nil_r.
Qed.

(** Steps that pile up their input extend the list that [input_data]
    names, and nothing else. *)
Lemma walk_plain (ps : list node) :
  Forall plain ps →
  ∀ st,
    walk directory ps st
    = Ok (Next {| heap := extend (input_data st) (concat (map input_of ps))
                            (heap st);
                  input_data := input_data st;
                  initialization_header := initialization_header st;
                  extras := extras st;
                  history_nodes := (history_nodes st ++ map id_of ps)%list;
                  files := files st;
                  new_nsteps := new_nsteps st |}).
Proof.
  induction 1 as [|n ps Hn _ IH]; intros st.
  - cbn. rewrite extend_nil, app_nil_r. now destruct st.
  - destruct n as [|id inp rc t ts w turns]; [contradiction|].
    cbn in Hn. cbn [walk visit]. rewrite Hn.
    cbn [mbind result_bind mret result_ret]. rewrite IH.
    cbn [pile_up heap input_data initialization_header extras history_nodes
         files new_nsteps map concat input_of id_of].
    rewrite extend_extend, <- app_assoc. reflexivity.
Qed.

(** What a step that runs until convergence leaves when it is left by
    [break]. *)
Lemma converge_inv (id : string) (inp : list string) (t ts : float)
    (w : world) (turns : list RunLoop.turn) (st st' : flow) :
  converge directory id inp t ts w turns st = Ok (Next st') →
  ∃ h fs ns,
    initialization_header st = Some h
    ∧ st' = {| heap :=
                 extend (input_data st)
                   [RunLoop.write_dump_line
                      (Checkpoint.accum_dump_pattern (history_nodes st))]
                   (heap st);
               input_data := h;
               initialization_header := Some h;
               extras := extras st;
               history_nodes := [];
               files := Some fs;
               new_nsteps := ns |}.
Proof.
  unfold converge, run_accumulated.
  destruct (files st) as [fs|]; cbn [or_raise mbind result_bind];
    [|discriminate].
  destruct (exec_ok w); cbn [negb mbind result_bind mret result_ret];
    [|discriminate].
  destruct (Checkpoint.latest_snapshot _ _ _) as [r|];
    cbn [mbind result_bind]; [|discriminate].
  destruct (read_dump_raised w); cbn [mbind result_bind mret result_ret];
    [discriminate|].
  destruct (initialization_header st) as [h|];
    cbn [or_raise mbind result_bind]; [|discriminate].
  destruct (RunLoop.iterate _ _ _ _ _ _) as [[loop'| |loop']|];
    cbn [mbind result_bind mret result_ret]; try discriminate.
  intros H. injection H as <-. eauto 6.
Qed.

Lemma length_extend (r : nat) (more : list string) (h : list (list string)) :
  length (extend r more h) = length h.
Proof. apply length_alter. Qed.

Lemma visit_valid (n : node) (st st' : flow) :
  valid st → visit directory n st = Ok (Next st') → valid st'.
Proof.
  intros [Hi Hh]. destruct n as [id lines sd sh|id inp rc t ts w turns];
    cbn [visit].
  - unfold initialize. destruct sd as [s|]; cbn [mbind result_bind];
      [|discriminate].
    destruct sh as [shake|]; cbn [mbind result_bind mret result_ret];
      [|discriminate].
    intros H. injection H as <-. split; cbn.
    + rewrite length_extend, length_app. cbn. lia.
    + intros h E. injection E as <-.
      rewrite length_extend, length_app. cbn. lia.
  - destruct (until_converged rc).
    + intros H. destruct (converge_inv _ _ _ _ _ _ _ _ H) as (h & fs & ns & E & ->).
      split; cbn; rewrite length_extend.
      * now apply Hh.
      * intros h' E'. injection E' as <-. now apply Hh.
    + intros H. injection H as <-. split; cbn; rewrite length_extend.
      * exact Hi.
      * exact Hh.
Qed.

Lemma walk_valid (ns : list node) :
  ∀ st st', valid st → walk directory ns st = Ok (Next st') → valid st'.
Proof.
  induction ns as [|n ns IH]; intros st st' Hv H.
  - cbn in H. now injection H as <-.
  - cbn [walk] in H.
    destruct (visit directory n st) as [[st1| |]|] eqn:V;
      cbn [mbind result_bind mret result_ret] in H; try discriminate.
    exact (IH _ _ (visit_valid _ _ _ Hv V) H).
Qed.

Lemma start_valid : valid start.
Proof. split; [cbn; lia|discriminate]. Qed.

(** X25.  Until a step has converged, the initialization header and the
    input that piles up are two lists: after the initialization step and
    any number of steps that pile up their input, the header holds the
    lines of the initialization and nothing else, the input holds these
    lines followed by the input of each step, and the history holds the
    initialization step and the steps, in order. *)
Theorem X25_header_before_convergence (id : string) (lines structure : list string)
    (shake : string) (ps : list node) :
  Forall plain ps →
  ∃ st h,
    walk directory (Initialization id lines (Ok structure) (Ok shake) :: ps)
      start = Ok (Next st)
    ∧ initialization_header st = Some h
    ∧ h ≠ input_data st
    ∧ deref (heap st) h = lines
    ∧ deref (heap st) (input_data st)
      = (lines ++ concat (map input_of ps))%list
    ∧ history_nodes st = id :: map id_of ps.
Proof.
  intros Hps. cbn [walk visit initialize start mbind result_bind mret
                   result_ret heap input_data length app].
  rewrite (walk_plain ps Hps).
  cbn [heap input_data initialization_header history_nodes].
  eexists _, 1%nat. split; [reflexivity|].
  cbn [initialization_header input_data heap history_nodes app].
  split; [reflexivity|]. split; [discriminate|].
  rewrite extend_extend. split; [reflexivity|]. split; reflexivity.
Qed.

(** X26.  When a step has converged, [input_data] names the list that
    [initialization_header] names, and the history is empty.  From then
    on every step that piles up its input puts it into the initialization
    header. *)
Theorem X26_header_grows_after_convergence (pre : list node) (st st' : flow)
    (id : string) (inp : list string) (rc : option string) (t ts : float)
    (w : world) (turns : list RunLoop.turn) :
  walk directory pre start = Ok (Next st) →
  until_converged rc = true →
  visit directory (Step id inp rc t ts w turns) st = Ok (Next st') →
  ∃ h,
    initialization_header st' = Some h ∧ input_data st' = h
    ∧ history_nodes st' = []
    ∧ ∀ ps, Forall plain ps →
        ∃ st'',
          walk directory ps st' = Ok (Next st'')
          ∧ initialization_header st'' = Some h ∧ input_data st'' = h
          ∧ deref (heap st'') h
            = (deref (heap st') h ++ concat (map input_of ps))%list
          ∧ history_nodes st'' = map id_of ps.
Proof.
  intros Hpre Hrc Hv.
  pose proof (visit_valid _ _ _ (walk_valid _ _ _ start_valid Hpre) Hv)
    as [Hi _].
  cbn [visit] in Hv. rewrite Hrc in Hv.
  destruct (converge_inv _ _ _ _ _ _ _ _ Hv) as (h & fs & ns & E & ->).
  cbn [input_data heap] in Hi.
  exists h. split; [reflexivity|]. split; [reflexivity|].
  split; [reflexivity|]. intros ps Hps. rewrite (walk_plain ps Hps).
  eexists. split; [reflexivity|].
  cbn [initialization_header input_data heap history_nodes app].
  split; [reflexivity|]. split; [reflexivity|].
  split; [|reflexivity]. now rewrite deref_extend_same.
Qed.

(** X27.  A step that runs until convergence appends the [write_dump]
    line of the chain to the list that [input_data] names.  As long as no
    step has converged this is not the initialization header, which stays
    as it is; once one has, it is, and the line becomes part of the
    header with which every iteration of the loop starts. *)
Theorem X27_write_dump_line_enters_the_header (pre : list node)
    (st st' : flow) (h : nat) (id : string) (inp : list string)
    (rc : option string) (t ts : float) (w : world)
    (turns : list RunLoop.turn) :
  walk directory pre start = Ok (Next st) →
  until_converged rc = true →
  initialization_header st = Some h →
  visit directory (Step id inp rc t ts w turns) st = Ok (Next st') →
  deref (heap st') h
  = (deref (heap st) h
       ++ if bool_decide (input_data st = h)
          then [RunLoop.write_dump_line
                  (Checkpoint.accum_dump_pattern (history_nodes st))]
          else [])%list.
Proof.
  intros Hpre Hrc Hh Hv.
  pose proof (walk_valid _ _ _ start_valid Hpre) as [Hi _].
  cbn [visit] in Hv. rewrite Hrc in Hv.
  destruct (converge_inv _ _ _ _ _ _ _ _ Hv) as (h' & fs & ns & E & ->).
  cbn [heap]. case_bool_decide as Ha.
  - subst h. now rewrite deref_extend_same.
  - rewrite deref_extend_ne by exact Ha. now rewrite app_nil_r.
Qed.

(** X28.  When no step runs until convergence, the history at the end
    holds the initialization step first; after the piled-up input has
    been run and its last snapshot read, every step of the history is
    analysed, the initialization step first.  If no trajectory file is
    found for it, [run] ends in [UnboundLocalError]. *)
Theorem X28_the_initialization_step_is_analysed (id : string)
    (lines structure : list string) (shake : string) (ps : list node)
    (w : world) (r : Checkpoint.resolved)
    (analyze_trajectory : string → result (gmap string value))
    (trajectories : string → list string) :
  Forall plain ps →
  exec_ok w = true →
  Checkpoint.latest_snapshot directory
    (Checkpoint.accum_dump_pattern (id :: map id_of ps)) (glob w) = Ok r →
  read_dump_raised w = None →
  trajectories id = [] →
  run directory (Initialization id lines (Ok structure) (Ok shake) :: ps) w
    analyze_trajectory trajectories
  = Raise (UnboundLocalError "data").
Proof.
  intros Hps Hexec Hsnap Hread Htrj. unfold run.
  cbn [walk visit initialize start mbind result_bind mret result_ret heap
       input_data length app].
  rewrite (walk_plain ps Hps). cbn [mbind result_bind].
  unfold finish.
  cbn [history_nodes]. change (history_nodes start) with (@nil string).
  cbn [app length Nat.ltb Nat.leb].
  unfold run_accumulated.
  cbn [history_nodes files or_raise mbind result_bind].
  change (history_nodes start) with (@nil string). cbn [app].
  rewrite Hexec. cbn [negb]. rewrite Hsnap. cbn [mbind result_bind].
  rewrite Hread. cbn [mbind result_bind mret result_ret analyze_all].
  rewrite Htrj. reflexivity.
Qed.

End FlowFacts.

Lemma X25_witness_example :
  ∃ st h,
    Flow.walk "/work"
      [Flow.Initialization "1" ["units real"; "read_data structure.dat"]
         (Ok ["Structure file for LAMMPS generated by a MolSSI flowchart"])
         (Ok "");
       Flow.minimization] Flow.start = Ok (Flow.Next st)
    ∧ Flow.initialization_header st = Some h
    ∧ Flow.deref (Flow.heap st) h = ["units real"; "read_data structure.dat"]
    ∧ Flow.deref (Flow.heap st) (Flow.input_data st)
      = ["units real"; "read_data structure.dat";
         "minimize 1.0e-4 1.0e-6 100 1000"].
Proof.
  destruct (X25_header_before_convergence "/work" "1"
              ["units real"; "read_data structure.dat"]
              ["Structure file for LAMMPS generated by a MolSSI flowchart"]
              "" [Flow.minimization]
              ltac:(repeat constructor))
    as (st & h & Hw & Hh & _ & Hd & Hi & _).
  exists st, h. split; [exact Hw|]. split; [exact Hh|].
  split; [exact Hd|exact Hi].
Defined.

Lemma X26_witness_example :
  ∃ st st' st'' h,
    Flow.walk "/work"
      [Flow.Initialization "1" ["units real"; "read_data structure.dat"]
         (Ok ["Structure file for LAMMPS generated by a MolSSI flowchart"])
         (Ok "");
       Flow.minimization] Flow.start = Ok (Flow.Next st)
    ∧ Flow.visit "/work" Flow.nve_until_converged st = Ok (Flow.Next st')
    ∧ Flow.walk "/work" [Flow.nvt] st' = Ok (Flow.Next st'')
    ∧ Flow.initialization_header st'' = Some h
    ∧ Flow.input_data st'' = h
    ∧ Flow.deref (Flow.heap st'') h
      = ["units real"; "read_data structure.dat";
         "fix 2 all nvt temp 300 300 100"; "run 1000"].
Proof.
  assert (W : ∃ st, Flow.walk "/work"
      [Flow.Initialization "1" ["units real"; "read_data structure.dat"]
         (Ok ["Structure file for LAMMPS generated by a MolSSI flowchart"])
         (Ok "");
       Flow.minimization] Flow.start = Ok (Flow.Next st)
      ∧ ∃ st', Flow.visit "/work" Flow.nve_until_converged st
               = Ok (Flow.Next st')
               ∧ Flow.deref (Flow.heap st') 1
                 = ["units real"; "read_data structure.dat"]
               ∧ Flow.initialization_header st' = Some 1%nat).
  { eexists. split; [vm_compute; reflexivity|].
    eexists. split; [vm_compute; reflexivity|].
    split; vm_compute; reflexivity. }
  destruct W as (st & Hw & st' & Hv & Hd & Hh).
  destruct (X26_header_grows_after_convergence "/work" _ st st' "3"
              ["fix 1 all nve"; "run                 5000"]
              (Some "Until properties converge") 5000 1 Flow.quiet
              [Flow.accepted_turn] Hw eq_refl Hv)
    as (h & Hh' & Hi & _ & Hall).
  destruct (Hall [Flow.nvt] ltac:(repeat constructor))
    as (st'' & Hw' & Hh'' & Hi'' & Hd'' & _).
  rewrite Hh in Hh'. injection Hh' as <-.
  exists st, st', st'', 1%nat.
  split; [exact Hw|]. split; [exact Hv|]. split; [exact Hw'|].
  split; [exact Hh''|]. split; [exact Hi''|].
  rewrite Hd'', Hd. reflexivity.
Defined.

Lemma X27_witness_second_convergence :
  ∃ st st',
    Flow.walk "/work" Flow.example Flow.start = Ok (Flow.Next st)
    ∧ Flow.visit "/work" Flow.second_nve st = Ok (Flow.Next st')
    ∧ Flow.initialization_header st = Some 1%nat
    ∧ Flow.deref (Flow.heap st') 1
      = ["units real"; "read_data structure.dat";
         "fix 2 all nvt temp 300 300 100"; "run 1000";
         "write_dump          all custom  lammps_substep_4_iter_0.dump.* "
           ++ "id xu yu zu modify flush yes sort id"].
Proof.
  assert (W : ∃ st, Flow.walk "/work" Flow.example Flow.start
                    = Ok (Flow.Next st)
      ∧ Flow.initialization_header st = Some 1%nat
      ∧ Flow.input_data st = 1%nat
      ∧ Flow.history_nodes st = ["4"]
      ∧ Flow.deref (Flow.heap st) 1
        = ["units real"; "read_data structure.dat";
           "fix 2 all nvt temp 300 300 100"; "run 1000"]
      ∧ ∃ st', Flow.visit "/work" Flow.second_nve st = Ok (Flow.Next st')).
  { eexists. split; [vm_compute; reflexivity|].
    split; [vm_compute; reflexivity|]. split; [vm_compute; reflexivity|].
    split; [vm_compute; reflexivity|]. split; [vm_compute; reflexivity|].
    eexists. vm_compute. reflexivity. }
  destruct W as (st & Hw & Hh & Hi & Hn & Hd & st' & Hv).
  pose proof (X27_write_dump_line_enters_the_header "/work" Flow.example
                st st' 1 "5" ["fix 1 all nve"; "run                 5000"]
                (Some "Until properties converge") 5000 1 Flow.quiet
                [Flow.accepted_turn] Hw eq_refl Hh Hv) as H.
  rewrite Hi, Hn, Hd in H.
  exists st, st'. split; [exact Hw|]. split; [exact Hv|].
  split; [exact Hh|]. exact H.
Defined.

Lemma X28_witness_no_trajectory :
  Flow.run "/work"
    [Flow.Initialization "1" ["units real"; "read_data structure.dat"]
       (Ok ["Structure file for LAMMPS generated by a MolSSI flowchart"])
       (Ok "");
     Flow.minimization] Flow.quiet Analyze.two_files (λ _, [])
  = Raise (UnboundLocalError "data").
Proof.
  eapply (X28_the_initialization_step_is_analysed "/work" "1"
            ["units real"; "read_data structure.dat"]
            ["Structure file for LAMMPS generated by a MolSSI flowchart"]
            "" [Flow.minimization] Flow.quiet).
  - repeat constructor.
  - reflexivity.
  - vm_compute. reflexivity.
  - reflexivity.
  - reflexivity.
Defined.

(** ** The bonds in the structure file *)

Section DataFileFacts.

Import Text DataFile.

Lemma spaces_all (n : nat) : all_chars is_space (spaces n) = true.
Proof. induction n as [|n IH]; [reflexivity|exact IH]. Qed.

Lemma split_go_leading (sp s : string) :
  all_chars is_space sp = true → split_go (sp ++ s) "" = split_go s "".
Proof.
  induction sp as [|c sp IH]; intros H; [reflexivity|].
  cbn [all_chars] in H. apply andb_true_iff in H as [Hc Hs].
  change (String c sp ++ s) with (String c (sp ++ s)).
  cbn [split_go]. rewrite Hc. now apply IH.
Qed.

Lemma str_nonspace (n : Z) :
  all_chars (λ c, negb (is_space c)) (str n) = true.
Proof.
  pose proof (str_is_word n) as H. unfold is_word in H.
  now destruct (str n).
Qed.

(** A number in its field, after a blank. *)
Lemma field_ok (w : nat) (n : Z) :
  all_chars is_space (" " ++ spaces w) = true ∧ " " ++ spaces w ≠ ""
  ∧ is_word (str n) = true.
Proof.
  change (" " ++ spaces w) with (String " " (spaces w)).
  split; [exact (spaces_all w)|]. split; [discriminate|apply str_is_word].
Qed.

(** X29.  A line of the ['Bonds'] section reads back, word by word, as
    the number of the bond, its type and its two atoms, in this order,
    whatever the size of the numbers: a number too long for its field is
    not cut and does not run into its neighbour. *)
Theorem X29_bond_line_reads_back (counter i j index : Z) :
  map int (split (bond_line counter (i, j, index)))
  = [Some counter; Some index; Some i; Some j].
Proof.
  assert (E : bond_line counter (i, j, index)
              = spaces (6 - String.length (str counter))
                  ++ str counter
                  ++ spaced
                       [(" " ++ spaces (6 - String.length (str index)),
                         str index);
                        (" " ++ spaces (6 - String.length (str i)), str i);
                        (" " ++ spaces (6 - String.length (str j)), str j)]).
  { unfold bond_line, fmt_d. cbn [spaced].
    rewrite append_empty_r, !append_assoc. reflexivity. }
  rewrite E. unfold split.
  rewrite (split_go_leading _ _ (spaces_all _)).
  rewrite (split_go_word _ _ _ (str_nonspace counter)).
  change ("" ++ str counter) with (str counter).
  rewrite split_go_spaced.
  - cbn [map snd]. now rewrite !int_str.
  - constructor; [exact (field_ok _ index)|].
    constructor; [exact (field_ok _ i)|].
    constructor; [exact (field_ok _ j)|constructor].
  - apply str_not_empty.
Qed.

Lemma coeff_line_written (counter : Z) (p : parameters_t)
    (l : option string) :
  coeff_line counter p = Ok l →
  written_form p = match l with Some _ => true | None => false end.
Proof.
  unfold coeff_line, written_form.
  destruct (String.eqb (form p) "quadratic_bond").
  - destruct (value_of p "K2"); cbn [mbind result_bind]; [|discriminate].
    destruct (value_of p "R0"); cbn [mbind result_bind]; [|discriminate].
    destruct (comment p); cbn [mbind result_bind mret result_ret];
      [|discriminate].
    intros H. now injection H as <-.
  - destruct (String.eqb (form p) "quartic_bond").
    + destruct (value_of p "R0"); cbn [mbind result_bind]; [|discriminate].
      destruct (value_of p "K2"); cbn [mbind result_bind]; [|discriminate].
      destruct (value_of p "K3"); cbn [mbind result_bind]; [|discriminate].
      destruct (value_of p "K4"); cbn [mbind result_bind]; [|discriminate].
      destruct (comment p); cbn [mbind result_bind mret result_ret];
        [|discriminate].
      intros H. now injection H as <-.
    + intros H. now injection H as <-.
Qed.

Lemma coeff_lines_count (ps : list (Z * parameters_t)) :
  ∀ ls, coeff_lines ps = Ok ls →
  (length ls ≤ length ps)%nat
  ∧ (length ls = length ps ↔ Forall (λ cp, written_form cp.2 = true) ps).
Proof.
  induction ps as [|[c p] ps IH]; intros ls H.
  - cbn in H. injection H as <-. cbn. split; [lia|]. split; auto.
  - cbn [coeff_lines] in H.
    destruct (coeff_line c p) as [l|] eqn:L; cbn [mbind result_bind] in H;
      [|discriminate].
    destruct (coeff_lines ps) as [ls'|]; cbn [mbind result_bind] in H;
      [|discriminate].
    destruct (IH _ eq_refl) as [Hle Hiff].
    apply coeff_line_written in L.
    cbn [mret result_ret] in H. injection H as <-.
    destruct l as [l|]; cbn [length].
    + split; [lia|]. rewrite Forall_cons. cbn [snd]. rewrite <- Hiff, L.
      split; [intros E; split; [reflexivity|lia]|intros [_ E]; lia].
    + split; [lia|]. split; [lia|].
      intros F. apply Forall_cons in F as [F _]. cbn [snd] in F. congruence.
Qed.

(** X30.  Under ['Bond Coeffs'] a line is written for a bond type only if
    its form is ['quadratic_bond'] or ['quartic_bond']; a type of another
    form is passed over without a word.  With at least [n_bond_types]
    parameter sets, the section never holds more than the [n_bond_types]
    lines that the head of the file announces, and holds as many exactly
    when each of these forms is one of the two. *)
Theorem X30_bond_coefficients_can_be_missing (eex : eex_t) (n_types : Z)
    (ls : list string) :
  n_bond_types eex = Some n_types →
  (Z.to_nat n_types ≤ length (bond_parameters eex))%nat →
  bond_coeffs eex = Ok ls →
  (has_bonds eex = true →
   ∃ n, n_bonds eex = Some n
        ∧ count_lines eex
          = Ok [fmt_d 10 n ++ " bonds"; fmt_d 10 n_types ++ " bond types"])
  ∧ (length ls ≤ Z.to_nat n_types)%nat
  ∧ (length ls = Z.to_nat n_types
     ↔ Forall (λ p, written_form p = true)
         (take (Z.to_nat n_types) (bond_parameters eex))).
Proof.
  intros Hn Hlen. unfold bond_coeffs. rewrite Hn.
  cbn [or_raise mbind result_bind]. intros H.
  apply coeff_lines_count in H as [Hle Hiff].
  assert (L : length (numbered n_types (bond_parameters eex))
              = Z.to_nat n_types).
  { unfold numbered. rewrite length_zip, length_map, length_seq. lia. }
  assert (S : map snd (numbered n_types (bond_parameters eex))
              = take (Z.to_nat n_types) (bond_parameters eex)).
  { unfold numbered.
    assert (G : ∀ (cs : list Z) (ps : list parameters_t),
              map snd (zip cs ps) = take (length cs) ps).
    { clear. induction cs as [|c cs IH]; intros [|p ps]; cbn; try done.
      now rewrite IH. }
    rewrite G, length_map, length_seq. reflexivity. }
  rewrite L in Hle, Hiff. split; [|split; [exact Hle|]].
  - unfold has_bonds, count_lines. destruct (n_bonds eex) as [n|];
      [|discriminate].
    intros Hpos. exists n. split; [reflexivity|]. rewrite Hpos, Hn.
    reflexivity.
  - rewrite Hiff, <- S. rewrite Forall_fmap. reflexivity.
Qed.

End DataFileFacts.

Lemma X30_witness_morse :
  DataFile.bond_coeffs DataFile.with_morse
  = Ok ["     1 540.6336 0.9572 # o*-h* --> o-h"]
  ∧ DataFile.count_lines DataFile.with_morse
    = Ok ["         3 bonds"; "         2 bond types"]
  ∧ (1 ≤ 2)%nat.
Proof.
  destruct (X30_bond_coefficients_can_be_missing DataFile.with_morse 2
              ["     1 540.6336 0.9572 # o*-h* --> o-h"] eq_refl
              ltac:(cbn; lia) ltac:(vm_compute; reflexivity))
    as (Hc & Hle & _).
  split; [vm_compute; reflexivity|].
  destruct (Hc eq_refl) as (n & Hn & Hl). injection Hn as <-.
  split; [exact Hl|exact Hle].
Defined.
